(** * go-dsn: delivery status notifications (RFC 3464, RFC 3462)

    A shallow embedding of the package [dsn]: the address helpers
    ([split], [toASCII], [toUnicode], [addrSelectIDNA], [dnsSelectIDNA]) and
    the report generator of [dsn.go] ([ReportingMTAInfo.WriteTo],
    [RecipientInfo.WriteTo], [GenerateDSN], [SendDSN]).

    Go strings are byte sequences: they are modelled as [string], whose
    characters ([ascii]) are the bytes.  A [rune] is a [Z].  Go's [int] is a
    [Z] as well; the package performs no arithmetic on the integers it
    prints, so no wrap-around arises.

    The packages the code imports are not part of the repository.  The
    Unicode tables, IDNA, NFC, [time] and the SMTP client enter as type
    classes, one per collaborator, and the theorems hold for every instance.
    Of go-message's [textproto] the header is modelled as the library keeps
    it: [Add] stores a field under its canonical name, and [WriteHeader]
    writes the fields one by one, the field added last first, and gives up at
    the first field it refuses.  How one field is laid out in bytes (the
    folding of a long value) and which fields are refused enter as
    parameters.  An output writer is any state with a [Write] that may
    fail. *)

From Stdlib Require Import ZArith List String Ascii Bool Lia DecimalString.
Import ListNotations.
Local Open Scope string_scope.
Local Open Scope Z_scope.

(** ** Bytes and runes *)

Definition rune := Z.

Definition byte (c : ascii) : Z := Z.of_N (N_of_ascii c).

Definition RuneError : rune := 0xFFFD.
Definition RuneSelf : Z := 0x80.

(** [first] and [acceptRanges] of unicode/utf8: what the first byte of a
    sequence says about it.  The low three bits are the length, the high
    four index [acceptRanges]. *)
Definition utf8_as : Z := 0xF0.
Definition utf8_xx : Z := 0xF1.

Definition first (b : Z) : Z :=
  if b <? 0x80 then utf8_as
  else if b <? 0xC2 then utf8_xx
  else if b <? 0xE0 then 0x02
  else if b =? 0xE0 then 0x13
  else if b <? 0xED then 0x03
  else if b =? 0xED then 0x23
  else if b <? 0xF0 then 0x03
  else if b =? 0xF0 then 0x34
  else if b <? 0xF4 then 0x04
  else if b =? 0xF4 then 0x44
  else utf8_xx.

Definition locb : Z := 0x80.
Definition hicb : Z := 0xBF.

Definition acceptRanges (i : Z) : Z * Z :=
  if i =? 0 then (locb, hicb)
  else if i =? 1 then (0xA0, hicb)
  else if i =? 2 then (locb, 0x9F)
  else if i =? 3 then (0x90, hicb)
  else if i =? 4 then (locb, 0x8F)
  else (0, 0).

Definition maskx : Z := 0x3F.
Definition mask2 : Z := 0x1F.
Definition mask3 : Z := 0x0F.
Definition mask4 : Z := 0x07.

(** utf8.DecodeRuneInString: the first rune of [s] and its width in bytes.
    A byte that starts no well-formed sequence decodes to [RuneError] with
    width 1.  A [range] loop over a string decodes the same way. *)
Definition DecodeRuneInString (s : string) : rune * nat :=
  match s with
  | EmptyString => (RuneError, 0%nat)
  | String c0 t0 =>
    let s0 := byte c0 in
    let x := first s0 in
    if utf8_as <=? x then
      ((if x =? utf8_as then s0 else RuneError), 1%nat)
    else
      let sz := Z.land x 7 in
      let accept := acceptRanges (Z.shiftr x 4) in
      if Z.of_nat (String.length s) <? sz then (RuneError, 1%nat)
      else
        match t0 with
        | EmptyString => (RuneError, 1%nat)
        | String c1 t1 =>
          let s1 := byte c1 in
          if (s1 <? fst accept) || (snd accept <? s1) then (RuneError, 1%nat)
          else if sz <=? 2 then
            (Z.lor (Z.shiftl (Z.land s0 mask2) 6) (Z.land s1 maskx), 2%nat)
          else
            match t1 with
            | EmptyString => (RuneError, 1%nat)
            | String c2 t2 =>
              let s2 := byte c2 in
              if (s2 <? locb) || (hicb <? s2) then (RuneError, 1%nat)
              else if sz <=? 3 then
                (Z.lor (Z.lor (Z.shiftl (Z.land s0 mask3) 12)
                              (Z.shiftl (Z.land s1 maskx) 6))
                       (Z.land s2 maskx), 3%nat)
              else
                match t2 with
                | EmptyString => (RuneError, 1%nat)
                | String c3 _ =>
                  let s3 := byte c3 in
                  if (s3 <? locb) || (hicb <? s3) then (RuneError, 1%nat)
                  else
                    (Z.lor (Z.lor (Z.lor (Z.shiftl (Z.land s0 mask4) 18)
                                         (Z.shiftl (Z.land s1 maskx) 12))
                                  (Z.shiftl (Z.land s2 maskx) 6))
                           (Z.land s3 maskx), 4%nat)
                end
            end
        end
  end.

(** The runes a [for _, ch := range s] loop visits, in order.  [skip] counts
    the bytes still covered by the rune decoded last. *)
Fixpoint runes_from (skip : nat) (s : string) : list rune :=
  match s with
  | EmptyString => []
  | String _ t =>
    match skip with
    | S k => runes_from k t
    | O => let '(r, size) := DecodeRuneInString s in r :: runes_from (size - 1) t
    end
  end.

Definition runes (s : string) : list rune := runes_from 0 s.

(** ** Errors

    A Go [error] value.  [errorString] is what [errors.New] makes,
    [wrapError] what [fmt.Errorf] makes with a [%w] verb ([prefix] is the
    text before the wrapped error), [SMTPError] is a pointer to go-smtp's
    structured protocol error, [nilSMTPError] is the nil pointer of that type
    held in the interface (an error value that is not [nil], of dynamic type
    [*smtp.SMTPError], with nothing behind it), and [foreignError] an error
    made by another package (an IDNA failure, a transport failure, a failed
    write).  [None] of [option error] is Go's [nil]. *)
Inductive error : Type :=
| errorString (msg : string)
| wrapError (prefix : string) (err : error)
| SMTPError (Code : Z) (EnhancedCode : Z * Z * Z) (Message : string)
| nilSMTPError
| foreignError (pkg : string) (msg : string).

Definition ErrUnicodeMailbox : error :=
  errorString "address: cannot convert the Unicode local-part to the ACE form".

(** ** strings *)

(** s[:n] and s[n:], for an index within the string. *)
Fixpoint slice_to (s : string) (n : nat) : string :=
  match n, s with
  | S k, String c t => String c (slice_to t k)
  | _, _ => EmptyString
  end.

Fixpoint slice_from (s : string) (n : nat) : string :=
  match n, s with
  | S k, String _ t => slice_from t k
  | _, _ => s
  end.

(** Every byte of [s] is below [RuneSelf]. *)
Definition isASCII (s : string) : bool :=
  forallb (fun c => byte c <? RuneSelf) (list_ascii_of_string s).

(** strings.LastIndexByte: the index of the last [c] in [s], or -1. *)
Fixpoint LastIndexByte (s : string) (c : ascii) : Z :=
  match s with
  | EmptyString => -1
  | String a t =>
    let i := LastIndexByte t c in
    if 0 <=? i then i + 1
    else if Ascii.eqb a c then 0
    else -1
  end.

(** The Unicode tables of the Go library.  [unicode_foldOrbit lo hi], for
    [lo < hi] and [hi] not ASCII, says whether walking [unicode.SimpleFold]
    from [lo] reaches [hi]: the general case of [strings.EqualFold].
    [strings_TrimSpace] is strings.TrimSpace. *)
Class GoUnicode : Type := {
  unicode_foldOrbit : rune -> rune -> bool;
  strings_TrimSpace : string -> string
}.

Section Strings.
Context {U : GoUnicode}.

(** One step of strings.EqualFold: are the runes [sr] and [tr] equal under
    simple case folding? *)
Definition equalFoldRune (sr tr : rune) : bool :=
  if tr =? sr then true
  else
    let lo := Z.min sr tr in
    let hi := Z.max sr tr in
    if hi <? RuneSelf then
      (65 <=? lo) && (lo <=? 90) && (hi =? lo + 97 - 65)
    else unicode_foldOrbit lo hi.

(** The loop of strings.EqualFold takes one rune off each string per round
    and stops at the first pair that differs; when one string is used up the
    answer is whether both are. *)
Fixpoint equalFoldRunes (s t : list rune) : bool :=
  match s, t with
  | [], [] => true
  | sr :: s', tr :: t' => equalFoldRune sr tr && equalFoldRunes s' t'
  | _, _ => false
  end.

Definition EqualFold (s t : string) : bool :=
  equalFoldRunes (runes s) (runes t).

(** ** split (address splitting)

    Go returns [(mailbox, domain, err)]; on an error both strings are
    empty. *)
Definition split (addr : string) : string * string * option error :=
  if EqualFold addr "postmaster" then (addr, "", None)
  else
    let indx := LastIndexByte addr "@" in
    if indx =? -1 then ("", "", Some (errorString "address: missing at-sign"))
    else
      let mailbox := slice_to addr (Z.to_nat indx) in
      let domain := slice_from addr (Z.to_nat (indx + 1)) in
      if String.eqb mailbox "" then
        ("", "", Some (errorString "address: empty local-part"))
      else if String.eqb domain "" then
        ("", "", Some (errorString "address: empty domain"))
      else (mailbox, domain, None).

End Strings.

(** ** IDNA and normalisation (golang.org/x/net/idna, x/text/unicode/norm)

    [idna.ToASCII] and [idna.ToUnicode] return a string and an error; the
    error is given here by its message.  [norm_NFC] is [norm.NFC.String]. *)
Class XText : Type := {
  idna_ToASCII : string -> string * option string;
  idna_ToUnicode : string -> string * option string;
  norm_NFC : string -> string
}.

Definition idnaError (r : string * option string) : option error :=
  match snd r with
  | Some msg => Some (foreignError "idna" msg)
  | None => None
  end.

Section Address.
Context {U : GoUnicode} {X : XText}.

(** toASCII converts the domain part of the address to the A-label form.
    The [range] loop over the mailbox returns at the first rune above 128. *)
Definition toASCII (addr : string) : string * option error :=
  let '(mbox, domain, err) := split addr in
  match err with
  | Some e => (addr, Some e)
  | None =>
    if existsb (fun ch => 128 <? ch) (runes mbox) then
      (addr, Some ErrUnicodeMailbox)
    else if String.eqb domain "" then (mbox, None)
    else
      let r := idna_ToASCII domain in
      match idnaError r with
      | Some e => (addr, Some e)
      | None => (mbox ++ "@" ++ fst r, None)
      end
  end.

(** toUnicode converts the domain part of the address to the U-label form. *)
Definition toUnicode (addr : string) : string * option error :=
  let '(mbox, domain, err) := split addr in
  match err with
  | Some e => (norm_NFC addr, Some e)
  | None =>
    if String.eqb domain "" then (mbox, None)
    else
      let r := idna_ToUnicode domain in
      match idnaError r with
      | Some e => (norm_NFC addr, Some e)
      | None => (mbox ++ "@" ++ norm_NFC (fst r), None)
      end
  end.

Definition addrSelectIDNA (ulabel : bool) (addr : string) : string * option error :=
  if ulabel then toUnicode addr else toASCII addr.

Definition dnsSelectIDNA (ulabel : bool) (domain : string) : string * option error :=
  if ulabel then
    let r := idna_ToUnicode domain in
    (norm_NFC (fst r), idnaError r)
  else
    let r := idna_ToASCII domain in
    (fst r, idnaError r).

End Address.

(** ** Collaborators of the report generator *)

(** The package [time]: [time_Format] is [t.Format(layout)], [time_String]
    is [t.String()] (what a template prints for a time),
    [time_TruncateSecond] is [t.Truncate(time.Second)], and [time_Now] the
    clock reading of the call. *)
Class GoTime : Type := {
  Time : Type;
  time_IsZero : Time -> bool;
  time_Format : string -> Time -> string;
  time_String : Time -> string;
  time_TruncateSecond : Time -> Time;
  time_Now : Time
}.

(** ** Header fields (net/textproto and go-message's textproto) *)

(** net/textproto's [validHeaderFieldByte]: the bytes of a token of
    RFC 7230. *)
Definition validHeaderFieldByte (c : ascii) : bool :=
  let b := byte c in
  ((48 <=? b) && (b <=? 57)) || ((65 <=? b) && (b <=? 90)) || ((97 <=? b) && (b <=? 122))
  || existsb (Ascii.eqb c)
       ["!"; "#"; "$"; "%"; "&"; "'"; "*"; "+"; "-"; "."; "^"; "_"; "`"; "|"; "~"]%char.

Definition toLower : Z := 97 - 65.

Definition ascii_of_byte (b : Z) : ascii := ascii_of_N (Z.to_N b).

(** The rewriting loop of net/textproto's [canonicalMIMEHeaderKey]: the
    first letter and every letter after a dash in upper case, the other
    letters in lower case.  [upper] says whether the byte before was a
    dash. *)
Fixpoint canonicalMIMEHeaderKey (upper : bool) (a : string) : string :=
  match a with
  | EmptyString => EmptyString
  | String c t =>
    let c :=
      if upper && ((97 <=? byte c) && (byte c <=? 122)) then ascii_of_byte (byte c - toLower)
      else if negb upper && ((65 <=? byte c) && (byte c <=? 90))
           then ascii_of_byte (byte c + toLower)
      else c in
    String c (canonicalMIMEHeaderKey (Ascii.eqb c "-") t)
  end.

(** textproto.CanonicalMIMEHeaderKey: a key with a byte that is no token
    byte (a space, a colon, a byte above 127) is returned as it is, any
    other key is rewritten. *)
Definition CanonicalMIMEHeaderKey (s : string) : string :=
  if forallb validHeaderFieldByte (list_ascii_of_string s)
  then canonicalMIMEHeaderKey true s
  else s.

(** A header of go-message's textproto, as the library keeps it: the fields
    in the order in which [Add] received them, each under its canonical
    name.  (A field read from a message also keeps the bytes it was read
    from.  The generator builds its own headers with [Add], and the header
    of the failed message, which the caller supplies, is taken to be built
    that way as well.) *)
Definition Header : Type := list (string * string).

Definition Header_Add (h : Header) (k v : string) : Header :=
  (h ++ [(CanonicalMIMEHeaderKey k, v)])%list.

(** The value of the field named [k] that was added last, or the empty
    string. *)
Definition Header_Get (h : Header) (k : string) : string :=
  match filter (fun f => String.eqb (fst f) (CanonicalMIMEHeaderKey k)) (rev h) with
  | f :: _ => snd f
  | [] => ""
  end.

Definition fieldNames (h : Header) : list string := map fst h.

(** go-message: [textproto_formatHeaderField k v] are the bytes of the field
    [k: v] as the library lays it out, the end of the line included (a long
    value is folded over several lines); [textproto_refuses n k v] is the
    error with which [textproto.WriteHeader] gives up when the [n]-th field
    it comes to is one it does not write (a name with a space, a value with
    a line break), [None] for a field it writes; [textproto_randomBoundary]
    is the boundary a new multipart writer draws.  go-smtp: [smtp_ErrorText]
    is the [Error] method of [*smtp.SMTPError]. *)
Class GoMessage : Type := {
  textproto_formatHeaderField : string -> string -> string;
  textproto_refuses : nat -> string -> string -> option error;
  textproto_randomBoundary : string;
  smtp_ErrorText : Z -> Z * Z * Z -> string -> string
}.

(** What a call leaves behind: it returns normally ([Done]), it returns the
    error [err] ([Failed]), or it panics. *)
Inductive outcome (A : Type) : Type :=
| Done (a : A)
| Failed (err : error)
| Panicked (reason : string).
Arguments Done {A} a.
Arguments Failed {A} err.
Arguments Panicked {A} reason.

Definition bind {A B : Type} (m : outcome A) (k : A -> outcome B) : outcome B :=
  match m with
  | Done a => k a
  | Failed e => Failed e
  | Panicked r => Panicked r
  end.

Notation "x <- m ;; k" := (bind m (fun x => k))
  (at level 61, m at next level, right associativity).

(** An [io.Writer]: a state and what [Write] does to it. *)
Class Writer (W : Type) : Type := Write : W -> string -> W * option error.

(** Successive writes, given up at the first that fails. *)
Fixpoint writeAll {W : Type} {WW : Writer W} (w : W) (ps : list string) : W * option error :=
  match ps with
  | [] => (w, None)
  | p :: ps' =>
    let '(w', err) := Write w p in
    match err with
    | Some e => (w', Some e)
    | None => writeAll w' ps'
    end
  end.

(** The bytes of successive writes, end to end. *)
Definition joined (ps : list string) : string := fold_right append EmptyString ps.

(** bytes.Buffer: every write is appended and none fails. *)
Record Buffer : Type := { contents : string }.

#[export] Instance Buffer_Writer : Writer Buffer :=
  fun b p => ({| contents := contents b ++ p |}, None).

(** fmt's [%d]. *)
Definition itoa (n : Z) : string := NilZero.string_of_int (Z.to_int n).

(** strings.NewReplacer("\n", " ", "\r", " ").Replace *)
Fixpoint newLineReplacer (s : string) : string :=
  match s with
  | EmptyString => EmptyString
  | String c t =>
    String (if Ascii.eqb c "010"%char || Ascii.eqb c "013"%char then " "%char else c)
           (newLineReplacer t)
  end.

Definition CR : string := String "013"%char EmptyString.
Definition LF : string := String "010"%char EmptyString.
Definition CRLF : string := CR ++ LF.
Definition quote : string := String "034"%char EmptyString.

(** A call that returns an [error] as an [outcome]. *)
Definition returned {W : Type} (r : W * option error) : W * outcome unit :=
  (fst r, match snd r with Some e => Failed e | None => Done tt end).

(** [if err := ...; err != nil { return err }]: go on with the writer as the
    call left it, unless the call failed or panicked. *)
Definition andThen {W A B : Type} (r : W * outcome A) (k : W -> W * outcome B)
  : W * outcome B :=
  match r with
  | (w, Done _) => k w
  | (w, Failed e) => (w, Failed e)
  | (w, Panicked p) => (w, Panicked p)
  end.

Notation "w <~ m ;; k" := (andThen m (fun w => k))
  (at level 61, m at next level, right associativity).

(** ** The multipart writer of go-message

    A model of [textproto.MultipartWriter], which follows RFC 2046: a
    delimiter line and the part's header ahead of every part, a closing
    delimiter at the end.  A multipart writer owns the underlying writer, its
    boundary and the part created last.  A part remembers whether it is
    closed and the last error a write to it met.  The writer that
    [CreatePart] hands out writes to the part created last; the generator
    never writes to an earlier one. *)
Record part : Type := { closed : bool; we : option error }.

Record MultipartWriter (W : Type) : Type := {
  mw_w : W;
  mw_boundary : string;
  mw_lastpart : option part
}.
Arguments mw_w {W} _.
Arguments mw_boundary {W} _.
Arguments mw_lastpart {W} _.

Section Multipart.
Context {G : GoMessage} {W : Type} {WW : Writer W}.

(** The loop of [textproto.WriteHeader] over the fields [fs], the first of
    them being the [n]-th of the header: a field the library refuses ends
    the call with the refusal, a field it writes goes to the writer in one
    [Write], and after the last field comes the blank line. *)
Fixpoint writeFields {V : Type} {WV : Writer V} (w : V) (n : nat) (fs : list (string * string))
  : V * option error :=
  match fs with
  | [] => Write w CRLF
  | f :: fs' =>
    match textproto_refuses n (fst f) (snd f) with
    | Some e => (w, Some e)
    | None =>
      let '(w', err) := Write w (textproto_formatHeaderField (fst f) (snd f)) in
      match err with
      | Some e => (w', Some e)
      | None => writeFields w' (S n) fs'
      end
    end
  end.

(** textproto.WriteHeader walks the header from the field added last to the
    field added first. *)
Definition WriteHeader {V : Type} {WV : Writer V} (w : V) (h : Header) : V * option error :=
  writeFields w 1 (rev h).

Definition NewMultipartWriter (w : W) : MultipartWriter W :=
  {| mw_w := w; mw_boundary := textproto_randomBoundary; mw_lastpart := None |}.

Definition Boundary (w : MultipartWriter W) : string := mw_boundary w.

(** [Write] on the part created last.  Before any part exists there is no
    part writer to call; the first case stands for that. *)
Definition part_Write (w : MultipartWriter W) (d : string) : MultipartWriter W * option error :=
  match mw_lastpart w with
  | None => (w, Some (foreignError "textproto" "multipart: no part to write to"))
  | Some p =>
    if closed p then
      (w, Some (foreignError "textproto" "multipart: can't write to finished part"))
    else
      let '(u, err) := Write (mw_w w) d in
      ({| mw_w := u; mw_boundary := mw_boundary w;
          mw_lastpart := Some {| closed := false;
                                 we := match err with Some e => Some e | None => we p end |} |},
       err)
  end.

#[export] Instance part_Writer : Writer (MultipartWriter W) := part_Write.

(** [w.lastpart.close()]: the part created last, if any, is closed, and the
    error is the last one a write to it met. *)
Definition lastError (w : MultipartWriter W) : option error :=
  match mw_lastpart w with
  | Some p => we p
  | None => None
  end.

Definition lastClosed (w : MultipartWriter W) : option part :=
  match mw_lastpart w with
  | Some p => Some {| closed := true; we := we p |}
  | None => None
  end.

(** The bytes [CreatePart] sends ahead of a part: the delimiter line and the
    part's header.  [CreatePart] writes the header into a buffer of its own
    and drops the error of [WriteHeader]: a header with a refused field is
    sent as far as it was written. *)
Definition partPreamble (w : MultipartWriter W) (header : Header) : string :=
  (match mw_lastpart w with
   | Some _ => CRLF ++ "--" ++ mw_boundary w ++ CRLF
   | None => "--" ++ mw_boundary w ++ CRLF
   end) ++ contents (fst (WriteHeader {| contents := "" |} header)).

(** CreatePart: the writer it returns is the part created last of the
    multipart writer it leaves. *)
Definition CreatePart (w : MultipartWriter W) (header : Header) : MultipartWriter W * option error :=
  match lastError w with
  | Some e =>
    ({| mw_w := mw_w w; mw_boundary := mw_boundary w; mw_lastpart := lastClosed w |}, Some e)
  | None =>
    let '(u, err) := Write (mw_w w) (partPreamble w header) in
    match err with
    | Some e =>
      ({| mw_w := u; mw_boundary := mw_boundary w; mw_lastpart := lastClosed w |}, Some e)
    | None =>
      ({| mw_w := u; mw_boundary := mw_boundary w;
          mw_lastpart := Some {| closed := false; we := None |} |}, None)
    end
  end.

(** The closing delimiter. *)
Definition closeDelimiter (w : MultipartWriter W) : string :=
  CRLF ++ "--" ++ mw_boundary w ++ "--" ++ CRLF.

Definition Close (w : MultipartWriter W) : MultipartWriter W * option error :=
  match lastError w with
  | Some e =>
    ({| mw_w := mw_w w; mw_boundary := mw_boundary w; mw_lastpart := lastClosed w |}, Some e)
  | None =>
    let '(u, err) := Write (mw_w w) (closeDelimiter w) in
    ({| mw_w := u; mw_boundary := mw_boundary w; mw_lastpart := None |}, err)
  end.

End Multipart.

(** ** dsn.go *)

Definition xMTADefaultName : string := "Godsn".

Definition timeLayout : string := "Mon, 2 Jan 2006 15:04:05 -0700".

Definition Action_t : Type := string.
Definition ActionFailed : Action_t := "failed".
Definition ActionDelayed : Action_t := "delayed".
Definition ActionDelivered : Action_t := "delivered".
Definition ActionRelayed : Action_t := "relayed".
Definition ActionExpanded : Action_t := "expanded".

(** smtp.EnhancedCode is [[3]int]. *)
Definition EnhancedCode : Type := (Z * Z * Z)%type.
Definition at0 (c : EnhancedCode) : Z := fst (fst c).
Definition at1 (c : EnhancedCode) : Z := snd (fst c).
Definition at2 (c : EnhancedCode) : Z := snd c.

Record Envelope : Type := { MsgID : string; From : string; To : string }.

(** [DiagnosticCode] is a Go [error]: [None] is the nil interface,
    [Some (SMTPError ...)] is a pointer to a structured error, which the type
    assertion to [*smtp.SMTPError] accepts, and [Some nilSMTPError] is the
    nil pointer of that type, which the assertion accepts as well. *)
Record RecipientInfo : Type := {
  FinalRecipient : string;
  RemoteMTA : string;
  Action : Action_t;
  Status : EnhancedCode;
  DiagnosticCode : option error;
  xMTAName : string
}.

Definition nilDereference : string :=
  "runtime error: invalid memory address or nil pointer dereference".

(** The transcoded value, or the transcoding error wrapped with the name of
    the field it concerns. *)
Definition converted (field : string) (r : string * option error) : outcome string :=
  match snd r with
  | Some e =>
    Failed (wrapError ("dsn: cannot convert " ++ field ++ " to a suitable representation: ") e)
  | None => Done (fst r)
  end.

Section Dsn.
Context {U : GoUnicode} {X : XText} {T : GoTime} {G : GoMessage}.

Record ReportingMTAInfo : Type := {
  ReportingMTA : string;
  ReceivedFromMTA : string;
  XMTAName : string;
  XSender : string;
  XMessageID : string;
  ArrivalDate : Time;
  LastAttemptDate : Time
}.

(** The text of an error value: what its [Error] method returns and what
    fmt prints for it under [%v] and [%w].  The [Error] method of the nil
    [*smtp.SMTPError] reads a field of the nil pointer; fmt recovers from
    that and prints [<nil>], and the package never calls the method
    itself. *)
Fixpoint Error (e : error) : string :=
  match e with
  | errorString msg => msg
  | wrapError prefix err => prefix ++ Error err
  | SMTPError code ec msg => smtp_ErrorText code ec msg
  | nilSMTPError => "<nil>"
  | foreignError _ msg => msg
  end.

(** The header that [ReportingMTAInfo.WriteTo] builds before it hands it to
    [textproto.WriteHeader]. *)
Definition ReportingMTAInfo_header (utf8 : bool) (info : ReportingMTAInfo) : outcome Header :=
  let h : Header := [] in
  if String.eqb (ReportingMTA info) "" then
    Failed (errorString "dsn: Reporting-MTA field is mandatory")
  else
    reportingMTA <- converted "Reporting-MTA" (dnsSelectIDNA utf8 (ReportingMTA info)) ;;
    let h := Header_Add h "Reporting-MTA" ("dns; " ++ reportingMTA) in
    let XMTAName' :=
      if String.eqb (XMTAName info) "" then xMTADefaultName else XMTAName info in
    let xHeaderPrefix := "X-" ++ strings_TrimSpace XMTAName' in
    h <- (if negb (String.eqb (ReceivedFromMTA info) "") then
            receivedFromMTA <-
              converted "Received-From-MTA" (dnsSelectIDNA utf8 (ReceivedFromMTA info)) ;;
            Done (Header_Add h "Received-From-MTA" ("dns; " ++ receivedFromMTA))
          else Done h) ;;
    h <- (if negb (String.eqb (XSender info) "") then
            sender <-
              converted (xHeaderPrefix ++ "-Sender") (addrSelectIDNA utf8 (XSender info)) ;;
            if utf8 then Done (Header_Add h (xHeaderPrefix ++ "-Sender") ("utf8; " ++ sender))
            else Done (Header_Add h (xHeaderPrefix ++ "-Sender") ("rfc822; " ++ sender))
          else Done h) ;;
    let h := if negb (String.eqb (XMessageID info) "")
             then Header_Add h (xHeaderPrefix ++ "-MsgID") (XMessageID info)
             else h in
    let h := if negb (time_IsZero (ArrivalDate info))
             then Header_Add h "Arrival-Date" (time_Format timeLayout (ArrivalDate info))
             else h in
    let h := if negb (time_IsZero (ArrivalDate info))
             then Header_Add h "Last-Attempt-Date" (time_Format timeLayout (LastAttemptDate info))
             else h in
    Done h.

(** The header that [RecipientInfo.WriteTo] builds.  Reading [smtpErr.Code]
    through the nil pointer panics, and so does calling [Error] on the nil
    [DiagnosticCode]. *)
Definition RecipientInfo_header (utf8 : bool) (info : RecipientInfo) : outcome Header :=
  let h : Header := [] in
  if String.eqb (FinalRecipient info) "" then
    Failed (errorString "dsn: Final-Recipient is required")
  else
    finalRcpt <- converted "Final-Recipient" (addrSelectIDNA utf8 (FinalRecipient info)) ;;
    let h := if utf8 then Header_Add h "Final-Recipient" ("utf8; " ++ finalRcpt)
             else Header_Add h "Final-Recipient" ("rfc822; " ++ finalRcpt) in
    if String.eqb (Action info) "" then Failed (errorString "dsn: Action is required")
    else
      let h := Header_Add h "Action" (Action info) in
      if at0 (Status info) =? 0 then Failed (errorString "dsn: Status is required")
      else
        let h := Header_Add h "Status"
                   (itoa (at0 (Status info)) ++ "." ++ itoa (at1 (Status info)) ++ "."
                    ++ itoa (at2 (Status info))) in
        h <- match DiagnosticCode info with
             | Some (SMTPError code ec msg) =>
               Done (Header_Add h "Diagnostic-Code"
                       ("smtp; " ++ itoa code ++ " " ++ itoa (at0 ec) ++ "." ++ itoa (at1 ec)
                        ++ "." ++ itoa (at2 ec) ++ " " ++ newLineReplacer msg))
             | Some nilSMTPError => Panicked nilDereference
             | other =>
               if utf8 then
                 errorDesc <- match other with
                              | Some e => Done (newLineReplacer (Error e))
                              | None => Panicked nilDereference
                              end ;;
                 let xMTAName' :=
                   if String.eqb (xMTAName info) "" then xMTADefaultName else xMTAName info in
                 let xHeaderPrefix := "X-" ++ strings_TrimSpace xMTAName' in
                 Done (Header_Add h "Diagnostic-Code" (xHeaderPrefix ++ "; " ++ errorDesc))
               else Done h
             end ;;
        h <- (if negb (String.eqb (RemoteMTA info) "") then
                remoteMTA <- converted "Remote-MTA" (dnsSelectIDNA utf8 (RemoteMTA info)) ;;
                Done (Header_Add h "Remote-MTA" ("dns; " ++ remoteMTA))
              else Done h) ;;
        Done h.

(** [WriteTo]: build the header, then write it.  Nothing reaches the writer
    unless the header was built. *)
Definition writeBuilt {V : Type} {WV : Writer V} (w : V) (b : outcome Header) : V * outcome unit :=
  match b with
  | Done h => returned (WriteHeader w h)
  | Failed e => (w, Failed e)
  | Panicked p => (w, Panicked p)
  end.

Definition ReportingMTAInfo_WriteTo {V : Type} {WV : Writer V}
  (info : ReportingMTAInfo) (utf8 : bool) (w : V) : V * outcome unit :=
  writeBuilt w (ReportingMTAInfo_header utf8 info).

Definition RecipientInfo_WriteTo {V : Type} {WV : Writer V}
  (info : RecipientInfo) (utf8 : bool) (w : V) : V * outcome unit :=
  writeBuilt w (RecipientInfo_header utf8 info).

End Dsn.

Section Report.
Context {U : GoUnicode} {X : XText} {T : GoTime} {G : GoMessage}.
Context {W : Type} {WW : Writer W}.

(** The header of the part that [writeHeader] opens. *)
Definition headersPartHeader (utf8 : bool) : Header :=
  let partHeader : Header := [] in
  let partHeader := Header_Add partHeader "Content-Description" "Undelivered message header" in
  let partHeader := if utf8 then Header_Add partHeader "Content-Type" "message/global-headers"
                    else Header_Add partHeader "Content-Type" "message/rfc822-headers" in
  Header_Add partHeader "Content-Transfer-Encoding" "8bit".

Definition writeHeader (utf8 : bool) (w : MultipartWriter W) (header : Header)
  : MultipartWriter W * outcome unit :=
  headerWriter <~ returned (CreatePart w (headersPartHeader utf8)) ;;
  returned (WriteHeader headerWriter header).

(** The header of the part that [writeMachineReadablePart] opens. *)
Definition machineHeader (utf8 : bool) : Header :=
  let machineHeader : Header := [] in
  let machineHeader :=
    if utf8 then Header_Add machineHeader "Content-Type" "message/global-delivery-status"
    else Header_Add machineHeader "Content-Type" "message/delivery-status" in
  Header_Add machineHeader "Content-Description" "Delivery report".

(** The label a recipient block gets: the loop defaults [mtaInfo.XMTAName]
    in its working copy and copies it into the recipient. *)
Definition effectiveXMTAName (mtaInfo : ReportingMTAInfo) : string :=
  if String.eqb (XMTAName mtaInfo) "" then xMTADefaultName else XMTAName mtaInfo.

Definition labelled (rcpt : RecipientInfo) (label : string) : RecipientInfo :=
  {| FinalRecipient := FinalRecipient rcpt; RemoteMTA := RemoteMTA rcpt;
     Action := Action rcpt; Status := Status rcpt;
     DiagnosticCode := DiagnosticCode rcpt; xMTAName := label |}.

(** The loop over the recipients of [writeMachineReadablePart]. *)
Fixpoint writeRecipients (utf8 : bool) (machineWriter : MultipartWriter W)
  (mtaInfo : ReportingMTAInfo) (rcptsInfo : list RecipientInfo)
  : MultipartWriter W * outcome unit :=
  match rcptsInfo with
  | [] => (machineWriter, Done tt)
  | rcpt :: rest =>
    let rcpt := labelled rcpt (effectiveXMTAName mtaInfo) in
    machineWriter <~ RecipientInfo_WriteTo rcpt utf8 machineWriter ;;
    writeRecipients utf8 machineWriter mtaInfo rest
  end.

Definition writeMachineReadablePart (utf8 : bool) (w : MultipartWriter W)
  (mtaInfo : ReportingMTAInfo) (rcptsInfo : list RecipientInfo)
  : MultipartWriter W * outcome unit :=
  machineWriter <~ returned (CreatePart w (machineHeader utf8)) ;;
  machineWriter <~ ReportingMTAInfo_WriteTo mtaInfo utf8 machineWriter ;;
  writeRecipients utf8 machineWriter mtaInfo rcptsInfo.

(** [FailedTemplateText], cut at its four actions: executing the template
    writes the pieces of text and the values of the fields in turn. *)
Definition FailedTemplateText_0 : string := LF ++ "This is the mail delivery system at ".
Definition FailedTemplateText_1 : string :=
  "." ++ LF ++ LF
  ++ "Unfortunately, your message could not be delivered to one or more" ++ LF
  ++ "recipients. The usual cause of this problem is invalid" ++ LF
  ++ "recipient address or maintenance at the recipient side." ++ LF ++ LF
  ++ "Contact the postmaster for further assistance, provide the Message ID (below):"
  ++ LF ++ LF ++ "Message ID: ".
Definition FailedTemplateText_2 : string := LF ++ "Arrival: ".
Definition FailedTemplateText_3 : string := LF ++ "Last delivery attempt: ".
Definition FailedTemplateText_4 : string := LF ++ LF.

Definition failedText_writes (mtaInfo : ReportingMTAInfo) : list string :=
  [ FailedTemplateText_0; ReportingMTA mtaInfo;
    FailedTemplateText_1; XMessageID mtaInfo;
    FailedTemplateText_2; time_String (ArrivalDate mtaInfo);
    FailedTemplateText_3; time_String (LastAttemptDate mtaInfo);
    FailedTemplateText_4 ].

Definition failedText_Execute {V : Type} {WV : Writer V} (w : V) (mtaInfo : ReportingMTAInfo)
  : V * option error :=
  writeAll w (failedText_writes mtaInfo).

(** fmt's [%v] of an error value. *)
Definition fmt_v (e : option error) : string :=
  match e with
  | Some err => Error err
  | None => "<nil>"
  end.

Definition deliveryLine (rcpt : RecipientInfo) : string :=
  "Delivery to " ++ FinalRecipient rcpt ++ " failed with error: "
  ++ fmt_v (DiagnosticCode rcpt) ++ LF.

Definition humanHeader : Header :=
  let humanHeader : Header := [] in
  let humanHeader := Header_Add humanHeader "Content-Transfer-Encoding" "8bit" in
  let humanHeader := Header_Add humanHeader "Content-Type"
                       ("text/plain; charset=" ++ quote ++ "utf-8" ++ quote) in
  Header_Add humanHeader "Content-Description" "Notification".

Definition truncated (mtaInfo : ReportingMTAInfo) : ReportingMTAInfo :=
  {| ReportingMTA := ReportingMTA mtaInfo; ReceivedFromMTA := ReceivedFromMTA mtaInfo;
     XMTAName := XMTAName mtaInfo; XSender := XSender mtaInfo;
     XMessageID := XMessageID mtaInfo;
     ArrivalDate := time_TruncateSecond (ArrivalDate mtaInfo);
     LastAttemptDate := time_TruncateSecond (LastAttemptDate mtaInfo) |}.

Definition writeHumanReadablePart (w : MultipartWriter W)
  (mtaInfo : ReportingMTAInfo) (rcptsInfo : list RecipientInfo)
  : MultipartWriter W * outcome unit :=
  humanWriter <~ returned (CreatePart w humanHeader) ;;
  let mtaInfo := truncated mtaInfo in
  humanWriter <~ returned (failedText_Execute humanWriter mtaInfo) ;;
  returned (writeAll humanWriter (map deliveryLine rcptsInfo)).

(** The top-level header of the report. *)
Definition reportHeader (envelope : Envelope) (boundary : string) : Header :=
  let reportHeader : Header := [] in
  let reportHeader := Header_Add reportHeader "Date" (time_Format timeLayout time_Now) in
  let reportHeader := Header_Add reportHeader "Message-Id" (MsgID envelope) in
  let reportHeader := Header_Add reportHeader "Content-Transfer-Encoding" "8bit" in
  let reportHeader := Header_Add reportHeader "Content-Type"
    ("multipart/report; report-type=delivery-status; boundary=" ++ boundary) in
  let reportHeader := Header_Add reportHeader "MIME-Version" "1.0" in
  let reportHeader := Header_Add reportHeader "Auto-Submitted" "auto-replied" in
  let reportHeader := Header_Add reportHeader "To" (To envelope) in
  let reportHeader := Header_Add reportHeader "From" (From envelope) in
  Header_Add reportHeader "Subject" "Undelivered Mail Returned to Sender".

(** The three parts in turn, before the deferred [Close]: the multipart
    writer as they leave it, the header returned and the error returned.
    A failed part returns the empty header. *)
Definition assemble (utf8 : bool) (reportHeader : Header) (mtaInfo : ReportingMTAInfo)
  (rcptsInfo : list RecipientInfo) (failedHeader : Header) (partWriter : MultipartWriter W)
  : MultipartWriter W * (Header * outcome unit) :=
  match writeHumanReadablePart partWriter mtaInfo rcptsInfo with
  | (partWriter, Failed e) => (partWriter, ([], Failed e))
  | (partWriter, Panicked p) => (partWriter, ([], Panicked p))
  | (partWriter, Done _) =>
    match writeMachineReadablePart utf8 partWriter mtaInfo rcptsInfo with
    | (partWriter, Failed e) => (partWriter, ([], Failed e))
    | (partWriter, Panicked p) => (partWriter, ([], Panicked p))
    | (partWriter, Done _) =>
      let '(partWriter, r) := writeHeader utf8 partWriter failedHeader in
      (partWriter, (reportHeader, r))
    end
  end.

(** GenerateDSN: the output writer as the call leaves it, the header and the
    error it returns.  The deferred [partWriter.Close()] runs on every way
    out, and its own error is dropped. *)
Definition GenerateDSN (utf8 : bool) (envelope : Envelope) (mtaInfo : ReportingMTAInfo)
  (rcptsInfo : list RecipientInfo) (failedHeader : Header) (outWriter : W)
  : W * (Header * outcome unit) :=
  let partWriter := NewMultipartWriter outWriter in
  let reportHeader := reportHeader envelope (Boundary partWriter) in
  let '(partWriter, result) :=
    assemble utf8 reportHeader mtaInfo rcptsInfo failedHeader partWriter in
  (mw_w (fst (Close partWriter)), result).

End Report.

(** ** SendDSN

    The relay is seen through the calls [SendDSN] makes on the SMTP client
    and on the stream that [Data] opens.  [relay_fails past c] is the
    failure, if any, with which the call [c] returns after the calls
    [past].  [DataWriteHeader h] is the call of [textproto.WriteHeader] on
    the stream: it fails when a write to the stream fails and when the
    header writer refuses a field of [h]. *)
Inductive call : Type :=
| Dial (addr : string)
| Hello (localName : string)
| Mail (from : string)
| Rcpt (to : string)
| Data
| DataWriteHeader (h : Header)
| DataWriteBody (body : string)
| DataClose
| ClientClose.

Class Relay : Type := relay_fails : list call -> call -> option string.

Section Send.
Context {U : GoUnicode} {X : XText} {T : GoTime} {G : GoMessage} {R : Relay}.

Definition perform (past : list call) (c : call) : list call * outcome unit :=
  ((past ++ [c])%list,
   match relay_fails past c with
   | Some msg => Failed (foreignError "smtpclient" msg)
   | None => Done tt
   end).

(** [for _, r := range rcptsInfo { c.Rcpt(r.FinalRecipient) }] *)
Fixpoint rcptAll (past : list call) (rcptsInfo : list RecipientInfo) : list call * outcome unit :=
  match rcptsInfo with
  | [] => (past, Done tt)
  | r :: rest =>
    past <~ perform past (Rcpt (FinalRecipient r)) ;;
    rcptAll past rest
  end.

(** After a failed write the stream is closed and the write's error
    returned. *)
Definition closingOnError (r : list call * outcome unit) : list call * outcome unit :=
  match r with
  | (past, Done _) => (past, Done tt)
  | (past, failure) => (fst (perform past DataClose), failure)
  end.

(** The session from [Hello] on, before the deferred [c.Close()]. *)
Definition session (past : list call) (hdr : Header) (bodyBuf : Buffer)
  (rcptsInfo : list RecipientInfo) : list call * outcome unit :=
  past <~ perform past (Hello "bla") ;;
  past <~ perform past (Mail "<>") ;;
  past <~ rcptAll past rcptsInfo ;;
  past <~ perform past Data ;;
  past <~ closingOnError (perform past (DataWriteHeader hdr)) ;;
  past <~ closingOnError (perform past (DataWriteBody (contents bodyBuf))) ;;
  perform past DataClose.

Definition mailerDaemon : string := "MAILER-DAEMON (Mail Delivery System)".

(** SendDSN: the calls made on the relay, in order, and the result. *)
Definition SendDSN (smtpaddr : string) (utf8 : bool) (envelope : Envelope)
  (mtaInfo : ReportingMTAInfo) (rcptsInfo : list RecipientInfo) (failedHeader : Header)
  : list call * outcome unit :=
  let bodyBuf := {| contents := "" |} in
  let envelope := {| MsgID := MsgID envelope; From := mailerDaemon; To := To envelope |} in
  let '(bodyBuf, (hdr, err)) :=
    GenerateDSN utf8 envelope mtaInfo rcptsInfo failedHeader bodyBuf in
  match err with
  | Failed e => ([], Failed e)
  | Panicked p => ([], Panicked p)
  | Done _ =>
    match perform [] (Dial smtpaddr) with
    | (past, Done _) =>
      let '(past, r) := session past hdr bodyBuf rcptsInfo in
      (fst (perform past ClientClose), r)
    | failure => failure
    end
  end.

End Send.

(** ** An instance of the collaborators

    Enough of each collaborator to run the generator on ASCII input: case
    folding knows the two ASCII letters with a third form (the long s and
    the Kelvin sign), [TrimSpace] trims ASCII white space, IDNA and NFC leave
    an ASCII name as it is and refuse anything else, a time is a number of
    seconds with zero as the zero time, a header field is laid out on one
    line, and the fields refused are those whose name holds a byte that is
    not a printable ASCII character other than the colon and those whose
    value holds a CR or an LF. *)
Definition isASCIISpace (c : ascii) : bool :=
  existsb (Ascii.eqb c) [" "; "009"; "010"; "011"; "012"; "013"]%char.

Fixpoint trimLeft (s : string) : string :=
  match s with
  | String c t => if isASCIISpace c then trimLeft t else s
  | EmptyString => EmptyString
  end.

Definition reverse (s : string) : string :=
  string_of_list_ascii (rev (list_ascii_of_string s)).

Definition asciiOnly (s : string) : string * option string :=
  if isASCII s then (s, None) else (s, Some "idna: not an ASCII name").

Definition demoUnicode : GoUnicode := {|
  unicode_foldOrbit lo hi :=
    (((lo =? 83) || (lo =? 115)) && (hi =? 0x17F))
    || (((lo =? 75) || (lo =? 107)) && (hi =? 0x212A));
  strings_TrimSpace s := reverse (trimLeft (reverse (trimLeft s)))
|}.

Definition demoXText : XText := {|
  idna_ToASCII := asciiOnly;
  idna_ToUnicode := asciiOnly;
  norm_NFC s := s
|}.

Definition demoTime : GoTime := {|
  Time := Z;
  time_IsZero t := t =? 0;
  time_Format _ t := itoa t;
  time_String t := itoa t;
  time_TruncateSecond t := t;
  time_Now := 1
|}.

Definition printableNameByte (c : ascii) : bool :=
  (33 <=? byte c) && (byte c <=? 126) && negb (Ascii.eqb c ":").

Definition lineBreak (c : ascii) : bool := Ascii.eqb c "010" || Ascii.eqb c "013".

Definition demoMessage : GoMessage := {|
  textproto_formatHeaderField k v := k ++ ": " ++ v ++ CRLF;
  textproto_refuses n k v :=
    if negb (forallb printableNameByte (list_ascii_of_string k))
    then Some (foreignError "textproto"
                 ("failed to write header field #" ++ itoa (Z.of_nat n)
                  ++ ": field name contains incorrect symbols"))
    else if existsb lineBreak (list_ascii_of_string v)
    then Some (foreignError "textproto"
                 ("failed to write header field #" ++ itoa (Z.of_nat n)
                  ++ ": field value contains a line break"))
    else None;
  textproto_randomBoundary := "boundary";
  smtp_ErrorText _ _ msg := msg
|}.

(** A relay that accepts every call. *)
Definition demoRelay : Relay := fun _ _ => None.

(** A time of the instance above. *)
Definition instant (seconds : Z) : @Time demoTime := seconds.

(** The records of the package's test, and variants of them. *)
Definition demoEnvelope : Envelope :=
  {| MsgID := "msgid1"; From := "from@example.com"; To := "to@example.com" |}.

Definition demoMTA : @ReportingMTAInfo demoTime :=
  {| ReportingMTA := "reportingmta.example.com";
     ReceivedFromMTA := "receivedmta.example.com";
     XMTAName := "";
     XSender := "XSender@example.com";
     XMessageID := "XMessageID";
     ArrivalDate := instant 1577977445;
     LastAttemptDate := instant 1577977445 |}.

(** No reporting MTA named. *)
Definition unnamedMTA : @ReportingMTAInfo demoTime :=
  {| ReportingMTA := ""; ReceivedFromMTA := ""; XMTAName := ""; XSender := "";
     XMessageID := ""; ArrivalDate := instant 0; LastAttemptDate := instant 0 |}.


(** A label that is not in canonical form. *)
Definition labelledMTA : @ReportingMTAInfo demoTime :=
  {| ReportingMTA := "reportingmta.example.com"; ReceivedFromMTA := ""; XMTAName := "MyMTA";
     XSender := "XSender@example.com"; XMessageID := "XMessageID";
     ArrivalDate := instant 0; LastAttemptDate := instant 0 |}.

(** A label with a space in it. *)
Definition spacedMTA : @ReportingMTAInfo demoTime :=
  {| ReportingMTA := "reportingmta.example.com"; ReceivedFromMTA := ""; XMTAName := "My MTA";
     XSender := "XSender@example.com"; XMessageID := "XMessageID";
     ArrivalDate := instant 1577977445; LastAttemptDate := instant 1577977445 |}.

Definition demoRcpt : RecipientInfo :=
  {| FinalRecipient := "finalrcpt@example.com";
     RemoteMTA := "remotemta.example.com";
     Action := ActionDelivered;
     Status := (2, 0, 0);
     DiagnosticCode := None;
     xMTAName := "" |}.

Definition bouncedRcpt : RecipientInfo :=
  {| FinalRecipient := "finalrcpt@example.com";
     RemoteMTA := "";
     Action := ActionFailed;
     Status := (5, 1, 1);
     DiagnosticCode :=
       Some (SMTPError 550 (5, 1, 1) ("Mailbox not found" ++ CRLF ++ "Try again"));
     xMTAName := "" |}.


(** A diagnostic that wraps a structured SMTP error, with a line break in
    its text. *)
Definition deferredRcpt : RecipientInfo :=
  {| FinalRecipient := "finalrcpt@example.com";
     RemoteMTA := "";
     Action := ActionDelayed;
     Status := (4, 0, 0);
     DiagnosticCode :=
       Some (wrapError "delivery deferred: "
               (SMTPError 451 (4, 0, 0) ("try" ++ CRLF ++ "later")));
     xMTAName := "" |}.

(** ** Vocabulary of the statements *)

(** [c] occurs in [s]. *)
Definition occurs (c : ascii) (s : string) : Prop := In c (list_ascii_of_string s).

(** A letter A to Z lowered, any other rune as it is. *)
Definition lowerASCII (r : rune) : rune :=
  if (65 <=? r) && (r <=? 90) then r + 32 else r.

(** The errors with which [split] rejects an address. *)
Definition malformedAddress (e : error) : Prop :=
  e = errorString "address: missing at-sign"
  \/ e = errorString "address: empty local-part"
  \/ e = errorString "address: empty domain".

(** The fields of [fs] when [present], none otherwise. *)
Definition optional (present : bool) (fs : Header) : Header :=
  if present then fs else [].

(** The names whose flag is set, in the order of the list. *)
Definition kept (names : list (bool * string)) : list string :=
  map snd (filter fst names).

(** The tag of an address field. *)
Definition addressTag (utf8 : bool) : string := if utf8 then "utf8" else "rfc822".

(** The field-name prefix made of an MTA label. *)
Definition xHeaderPrefix {U : GoUnicode} (label : string) : string :=
  "X-" ++ strings_TrimSpace (if String.eqb label "" then xMTADefaultName else label).

(** Does a recipient block carry a Diagnostic-Code field? *)
Definition hasDiagnosticField (utf8 : bool) (info : RecipientInfo) : bool :=
  match DiagnosticCode info with
  | Some (SMTPError _ _ _) => true
  | Some nilSMTPError => false
  | _ => utf8
  end.

(** Does the encoder read through a nil diagnostic?  It reads the code of
    a nil [*smtp.SMTPError] in either mode, and calls [Error] on the nil
    interface in UTF-8 mode. *)
Definition nilDiagnostic (utf8 : bool) (info : RecipientInfo) : bool :=
  match DiagnosticCode info with
  | Some nilSMTPError => true
  | Some _ => false
  | None => utf8
  end.

(** The value of the Diagnostic-Code field of a structured SMTP error. *)
Definition smtpDiagnostic (code : Z) (ec : EnhancedCode) (msg : string) : string :=
  "smtp; " ++ itoa code ++ " " ++ itoa (at0 ec) ++ "." ++ itoa (at1 ec) ++ "."
  ++ itoa (at2 ec) ++ " " ++ newLineReplacer msg.

Section Fields.
Context {U : GoUnicode} {X : XText} {T : GoTime} {G : GoMessage}.

(** The fields of a reporting-MTA block, as the record determines them: in
    the order in which they are added, under the names the header keeps. *)
Definition mtaFields (utf8 : bool) (info : ReportingMTAInfo) : Header :=
  app [("Reporting-Mta", "dns; " ++ fst (dnsSelectIDNA utf8 (ReportingMTA info)))]
 (app (optional (negb (String.eqb (ReceivedFromMTA info) ""))
         [("Received-From-Mta", "dns; " ++ fst (dnsSelectIDNA utf8 (ReceivedFromMTA info)))])
 (app (optional (negb (String.eqb (XSender info) ""))
         [(CanonicalMIMEHeaderKey (xHeaderPrefix (XMTAName info) ++ "-Sender"),
           addressTag utf8 ++ "; " ++ fst (addrSelectIDNA utf8 (XSender info)))])
 (app (optional (negb (String.eqb (XMessageID info) ""))
         [(CanonicalMIMEHeaderKey (xHeaderPrefix (XMTAName info) ++ "-MsgID"),
           XMessageID info)])
 (app (optional (negb (time_IsZero (ArrivalDate info)))
         [("Arrival-Date", time_Format timeLayout (ArrivalDate info))])
      (optional (negb (time_IsZero (ArrivalDate info)))
         [("Last-Attempt-Date", time_Format timeLayout (LastAttemptDate info))]))))).

(** The Diagnostic-Code field of a recipient block, if it has one. *)
Definition diagnosticFields (utf8 : bool) (info : RecipientInfo) : Header :=
  match DiagnosticCode info with
  | Some (SMTPError code ec msg) => [("Diagnostic-Code", smtpDiagnostic code ec msg)]
  | Some nilSMTPError => []
  | Some e =>
    optional utf8
      [("Diagnostic-Code", xHeaderPrefix (xMTAName info) ++ "; " ++ newLineReplacer (Error e))]
  | None => []
  end.

(** The fields of a recipient block, as the record determines them: in the
    order in which they are added, under the names the header keeps. *)
Definition rcptFields (utf8 : bool) (info : RecipientInfo) : Header :=
  app [("Final-Recipient",
        addressTag utf8 ++ "; " ++ fst (addrSelectIDNA utf8 (FinalRecipient info)));
       ("Action", Action info);
       ("Status", itoa (at0 (Status info)) ++ "." ++ itoa (at1 (Status info)) ++ "."
                  ++ itoa (at2 (Status info)))]
 (app (diagnosticFields utf8 info)
      (optional (negb (String.eqb (RemoteMTA info) ""))
         [("Remote-Mta", "dns; " ++ fst (dnsSelectIDNA utf8 (RemoteMTA info)))])).

End Fields.

(** The two encoding families: the content type of the machine-readable
    part, that of the part with the original headers, and the tag of an
    address field. *)
Record tagFamily : Type := {
  machineType : string;
  headersType : string;
  addressFieldTag : string
}.

Definition utf8Family : tagFamily :=
  {| machineType := "message/global-delivery-status";
     headersType := "message/global-headers";
     addressFieldTag := "utf8" |}.

Definition asciiFamily : tagFamily :=
  {| machineType := "message/delivery-status";
     headersType := "message/rfc822-headers";
     addressFieldTag := "rfc822" |}.

Definition familyOf (utf8 : bool) : tagFamily := if utf8 then utf8Family else asciiFamily.


(** ** The report in an in-memory buffer *)

Section Rendering.
Context {U : GoUnicode} {X : XText} {T : GoTime} {G : GoMessage}.

(** What the loop of [WriteHeader] leaves in a buffer for the fields [fs],
    the first of them being the [n]-th: the fields laid out one after the
    other up to the first that is refused, or all of them and the blank
    line; and the refusal, if there was one. *)
Fixpoint fieldsBytes (n : nat) (fs : list (string * string)) : string * option error :=
  match fs with
  | [] => (CRLF, None)
  | f :: fs' =>
    match textproto_refuses n (fst f) (snd f) with
    | Some e => ("", Some e)
    | None =>
      let '(bytes, refusal) := fieldsBytes (S n) fs' in
      (textproto_formatHeaderField (fst f) (snd f) ++ bytes, refusal)
    end
  end.

(** The bytes of a header block in a buffer: the field added last comes
    first. *)
Definition blockBytes (h : Header) : string := fst (fieldsBytes 1 (rev h)).

(** The error with which the header writer gives up on a block, if it
    does. *)
Definition blockRefusal (h : Header) : option error := snd (fieldsBytes 1 (rev h)).

(** How the writing of a block to a buffer ends. *)
Definition blockEnd (h : Header) : outcome unit :=
  match blockRefusal h with
  | Some e => Failed e
  | None => Done tt
  end.

(** A multipart writer over a buffer holding [b], with a part open. *)
Definition openPart (b boundary : string) : MultipartWriter Buffer :=
  {| mw_w := {| contents := b |}; mw_boundary := boundary;
     mw_lastpart := Some {| closed := false; we := None |} |}.

(** The recipient blocks, up to the first record that is rejected or makes
    the encoder panic or whose block the header writer gives up on (that
    block is there as far as it was written), and how the loop ends. *)
Fixpoint recipientsBytes (utf8 : bool) (label : string) (rcptsInfo : list RecipientInfo)
  : string * outcome unit :=
  match rcptsInfo with
  | [] => ("", Done tt)
  | rcpt :: rest =>
    match RecipientInfo_header utf8 (labelled rcpt label) with
    | Done h =>
      match blockRefusal h with
      | None =>
        let '(bytes, end_) := recipientsBytes utf8 label rest in
        (blockBytes h ++ bytes, end_)
      | Some e => (blockBytes h, Failed e)
      end
    | Failed e => ("", Failed e)
    | Panicked p => ("", Panicked p)
    end
  end.

(** The human-readable part: delimiter line, part header, notice, one line
    per recipient. *)
Definition humanPartBytes (boundary : string) (mtaInfo : ReportingMTAInfo)
  (rcptsInfo : list RecipientInfo) : string :=
  "--" ++ boundary ++ CRLF ++ blockBytes humanHeader
  ++ joined (failedText_writes (truncated mtaInfo))
  ++ joined (map deliveryLine rcptsInfo).

(** The delimiter line and the header that open a later part. *)
Definition nextPartBytes (boundary : string) (header : Header) : string :=
  CRLF ++ "--" ++ boundary ++ CRLF ++ blockBytes header.

Definition closingBytes (boundary : string) : string :=
  CRLF ++ "--" ++ boundary ++ "--" ++ CRLF.

(** The bytes of the machine-readable part and how it ends. *)
Definition machinePartBytes (utf8 : bool) (boundary : string) (mtaInfo : ReportingMTAInfo)
  (rcptsInfo : list RecipientInfo) : string * outcome unit :=
  match ReportingMTAInfo_header utf8 mtaInfo with
  | Done h =>
    match blockRefusal h with
    | None =>
      let '(bytes, end_) := recipientsBytes utf8 (effectiveXMTAName mtaInfo) rcptsInfo in
      (nextPartBytes boundary (machineHeader utf8) ++ blockBytes h ++ bytes, end_)
    | Some e => (nextPartBytes boundary (machineHeader utf8) ++ blockBytes h, Failed e)
    end
  | Failed e => (nextPartBytes boundary (machineHeader utf8), Failed e)
  | Panicked p => (nextPartBytes boundary (machineHeader utf8), Panicked p)
  end.

(** Everything a call of [GenerateDSN] appends to a buffer, and how the
    assembly ends.  The third part ends as the writing of the original
    headers does. *)
Definition reportBytes (utf8 : bool) (boundary : string) (mtaInfo : ReportingMTAInfo)
  (rcptsInfo : list RecipientInfo) (failedHeader : Header) : string * outcome unit :=
  let '(machine, end_) := machinePartBytes utf8 boundary mtaInfo rcptsInfo in
  match end_ with
  | Done _ =>
    (humanPartBytes boundary mtaInfo rcptsInfo ++ machine
     ++ nextPartBytes boundary (headersPartHeader utf8) ++ blockBytes failedHeader
     ++ closingBytes boundary, blockEnd failedHeader)
  | failure =>
    (humanPartBytes boundary mtaInfo rcptsInfo ++ machine ++ closingBytes boundary, failure)
  end.

(** The bytes of a report whose three parts were all written. *)
Definition wholeReportBytes (utf8 : bool) (boundary : string) (mtaInfo : ReportingMTAInfo)
  (rcptsInfo : list RecipientInfo) (failedHeader : Header) : string :=
  humanPartBytes boundary mtaInfo rcptsInfo
  ++ nextPartBytes boundary (machineHeader utf8)
  ++ blockBytes (mtaFields utf8 mtaInfo)
  ++ joined (map (fun rcpt =>
                    blockBytes (rcptFields utf8 (labelled rcpt (effectiveXMTAName mtaInfo))))
                 rcptsInfo)
  ++ nextPartBytes boundary (headersPartHeader utf8)
  ++ blockBytes failedHeader
  ++ closingBytes boundary.

End Rendering.

(** A call of a session that sends the header [hdr]: its MAIL command names
    the null sender and the header it writes is [hdr]. *)
Definition wellAddressed (hdr : Header) (c : call) : Prop :=
  match c with
  | Mail from => from = "<>"
  | DataWriteHeader h => h = hdr
  | _ => True
  end.

(** The first [n] bytes of [t] are there and none is an ASCII byte. *)
Fixpoint highPrefix (n : nat) (t : string) : Prop :=
  match n with
  | O => True
  | S k =>
    match t with
    | String c t' => 0x80 <= byte c /\ highPrefix k t'
    | EmptyString => False
    end
  end.

(** The error of a field that cannot be transcoded: the transcoder's error
    wrapped with the name of the field. *)
Definition conversionError (field : string) (inner : error) : error :=
  wrapError ("dsn: cannot convert " ++ field ++ " to a suitable representation: ") inner.

(** A byte of a decimal numeral. *)
Definition numeralByte (c : ascii) : Prop := occurs c "-0123456789".

Section Rejections.
Context {U : GoUnicode} {X : XText} {T : GoTime}.

(** The errors with which a reporting-MTA record is rejected, each with the
    state of the record that brings it about. *)
Definition mtaRejection (utf8 : bool) (info : ReportingMTAInfo) (e : error) : Prop :=
  (ReportingMTA info = "" /\ e = errorString "dsn: Reporting-MTA field is mandatory")
  \/ (ReportingMTA info <> ""
      /\ exists inner, snd (dnsSelectIDNA utf8 (ReportingMTA info)) = Some inner
         /\ e = conversionError "Reporting-MTA" inner)
  \/ (ReceivedFromMTA info <> ""
      /\ exists inner, snd (dnsSelectIDNA utf8 (ReceivedFromMTA info)) = Some inner
         /\ e = conversionError "Received-From-MTA" inner)
  \/ (XSender info <> ""
      /\ exists inner, snd (addrSelectIDNA utf8 (XSender info)) = Some inner
         /\ e = conversionError (xHeaderPrefix (XMTAName info) ++ "-Sender") inner).


End Rejections.

(** Is the error a structured SMTP error, as the type assertion to
    [*smtp.SMTPError] sees it?  The nil pointer of that type is, an error
    that wraps one is not. *)
Definition isSMTPError (e : error) : bool :=
  match e with
  | SMTPError _ _ _ => true
  | nilSMTPError => true
  | _ => false
  end.

(** [sub] occurs in [s] as a run of consecutive bytes. *)
Definition contains (s sub : string) : Prop :=
  exists pre post, s = pre ++ sub ++ post.

(** The relay takes each call of [cs] in turn, after the calls [past]. *)
Fixpoint accepted {R : Relay} (past : list call) (cs : list call) : Prop :=
  match cs with
  | [] => True
  | c :: cs' => relay_fails past c = None /\ accepted (past ++ [c])%list cs'
  end.

(** A step of the session succeeds exactly when the relay takes the calls
    [cs], and these are then the calls it has added. *)
Definition runs {R : Relay} (step : list call -> list call * outcome unit) (cs : list call) : Prop :=
  forall past,
    (snd (step past) = Done tt <-> accepted past cs)
    /\ (snd (step past) = Done tt -> fst (step past) = (past ++ cs)%list).

(** The commands of a session that runs to its end, before the client is
    closed. *)
Definition script (smtpaddr : string) (rcptsInfo : list RecipientInfo)
  (hdr : Header) (body : string) : list call :=
  app [Dial smtpaddr; Hello "bla"; Mail "<>"]
 (app (map (fun rcpt => Rcpt (FinalRecipient rcpt)) rcptsInfo)
      [Data; DataWriteHeader hdr; DataWriteBody body; DataClose]).

(** The envelope [SendDSN] generates the report for. *)
Definition daemonEnvelope (envelope : Envelope) : Envelope :=
  {| MsgID := MsgID envelope; From := "MAILER-DAEMON (Mail Delivery System)";
     To := To envelope |}.

(** * Properties *)

(** ** Strings *)

Lemma append_assoc (a b c : string) : (a ++ b) ++ c = a ++ (b ++ c).
Proof. induction a as [|x a IH]; simpl; [reflexivity | now rewrite IH]. Qed.

Lemma append_nil_r (a : string) : a ++ "" = a.
Proof. induction a as [|x a IH]; simpl; [reflexivity | now rewrite IH]. Qed.

Lemma joined_app (ps qs : list string) : joined (ps ++ qs)%list = joined ps ++ joined qs.
Proof.
  induction ps as [|p ps IH]; simpl; [reflexivity|].
  now rewrite IH, append_assoc.
Qed.

Lemma length_append (a b : string) :
  String.length (a ++ b) = (String.length a + String.length b)%nat.
Proof. induction a as [|x a IH]; simpl; [reflexivity | now rewrite IH]. Qed.

Lemma LastIndexByte_range (s : string) (c : ascii) :
  -1 <= LastIndexByte s c < Z.of_nat (String.length s).
Proof.
  induction s as [|a t IH]; simpl String.length; simpl LastIndexByte; [lia|].
  destruct (0 <=? LastIndexByte t c) eqn:E; [apply Z.leb_le in E; lia|].
  destruct (Ascii.eqb a c); lia.
Qed.

Lemma LastIndexByte_absent (s : string) (c : ascii) :
  LastIndexByte s c = -1 <-> ~ occurs c s.
Proof.
  unfold occurs. induction s as [|a t IH]; simpl.
  - split; [intros _ [] | reflexivity].
  - pose proof (LastIndexByte_range t c) as Hr.
    destruct (0 <=? LastIndexByte t c) eqn:E.
    + apply Z.leb_le in E. split; [lia|].
      intros H. exfalso. apply H. right.
      destruct (in_dec ascii_dec c (list_ascii_of_string t)) as [i|n]; [exact i|].
      apply IH in n. lia.
    + apply Z.leb_gt in E. assert (Ht : LastIndexByte t c = -1) by lia.
      apply IH in Ht.
      destruct (Ascii.eqb a c) eqn:Ea.
      * apply Ascii.eqb_eq in Ea. split; [lia|]. intros H. exfalso. apply H. now left.
      * apply Ascii.eqb_neq in Ea. split; [|reflexivity].
        intros _ [H|H]; [now apply Ea | now apply Ht].
Qed.

(** The index [LastIndexByte] finds is that of the last occurrence. *)
Lemma LastIndexByte_last (l d : string) (c : ascii) :
  ~ occurs c d -> LastIndexByte (l ++ String c d) c = Z.of_nat (String.length l).
Proof.
  intros Hd. apply LastIndexByte_absent in Hd.
  induction l as [|a l IH].
  - simpl. rewrite Hd. simpl. now rewrite Ascii.eqb_refl.
  - cbn [append LastIndexByte String.length]. rewrite IH.
    destruct (0 <=? Z.of_nat (String.length l)) eqn:E; [lia|].
    apply Z.leb_gt in E. lia.
Qed.

Lemma slice_to_append (l r : string) : slice_to (l ++ r) (String.length l) = l.
Proof. induction l as [|a l IH]; simpl; [now destruct r | now rewrite IH]. Qed.

Lemma slice_from_append (l r : string) : slice_from (l ++ r) (String.length l) = r.
Proof. induction l as [|a l IH]; simpl; [now destruct r | exact IH]. Qed.

Lemma slice_rejoin (s : string) (n : nat) : slice_to s n ++ slice_from s n = s.
Proof.
  revert s. induction n as [|n IH]; intros [|a s]; simpl; try reflexivity.
  now rewrite IH.
Qed.

Lemma slice_from_cons (l d : string) (c : ascii) :
  slice_from (l ++ String c d) (S (String.length l)) = d.
Proof. induction l as [|a l IH]; simpl; [now destruct d | exact IH]. Qed.

(** ** split *)

Section SplitProperties.
Context {U : GoUnicode}.

Lemma split_postmaster (addr : string) :
  EqualFold addr "postmaster" = true -> split addr = (addr, "", None).
Proof. intros H. unfold split. now rewrite H. Qed.

Lemma split_no_at (addr : string) :
  EqualFold addr "postmaster" = false -> ~ occurs "@" addr ->
  split addr = ("", "", Some (errorString "address: missing at-sign")).
Proof.
  intros H Hn. unfold split. rewrite H.
  apply LastIndexByte_absent in Hn. now rewrite Hn.
Qed.

Lemma split_at (addr l d : string) :
  EqualFold addr "postmaster" = false -> addr = l ++ "@" ++ d -> ~ occurs "@" d ->
  split addr =
    if String.eqb l "" then ("", "", Some (errorString "address: empty local-part"))
    else if String.eqb d "" then ("", "", Some (errorString "address: empty domain"))
    else (l, d, None).
Proof.
  intros H -> Hd. unfold split. rewrite H. cbn [append].
  rewrite (LastIndexByte_last l d "@" Hd).
  destruct (Z.of_nat (String.length l) =? -1) eqn:E; [apply Z.eqb_eq in E; lia|].
  rewrite Nat2Z.id.
  replace (Z.to_nat (Z.of_nat (String.length l) + 1)) with (S (String.length l)) by lia.
  now rewrite slice_to_append, slice_from_cons.
Qed.

(** A successful split whose domain is not empty cut the address at an
    at-sign, and the domain holds no further one. *)
Lemma split_cut (addr mbox domain : string) :
  split addr = (mbox, domain, None) -> domain <> "" ->
  addr = mbox ++ "@" ++ domain /\ ~ occurs "@" domain /\ mbox <> ""
  /\ EqualFold addr "postmaster" = false.
Proof.
  unfold split. destruct (EqualFold addr "postmaster").
  - intros [= _ <-] Hd. now contradiction Hd.
  - pose proof (LastIndexByte_range addr "@") as Hr.
    destruct (LastIndexByte addr "@" =? -1) eqn:E; [discriminate|].
    apply Z.eqb_neq in E.
    destruct (String.eqb (slice_to addr (Z.to_nat (LastIndexByte addr "@"))) "") eqn:Em;
      [discriminate|].
    destruct (String.eqb (slice_from addr (Z.to_nat (LastIndexByte addr "@" + 1))) "") eqn:Ed;
      [discriminate|].
    intros [= <- <-] _.
    apply String.eqb_neq in Em.
    set (i := Z.to_nat (LastIndexByte addr "@")) in *.
    replace (Z.to_nat (LastIndexByte addr "@" + 1)) with (S i) in * by lia.
    assert (Hi : LastIndexByte addr "@" = Z.of_nat i) by lia.
    clearbody i. clear E Ed Hr.
    assert (Hgen : forall s n, LastIndexByte s "@" = Z.of_nat n ->
              s = slice_to s n ++ "@" ++ slice_from s (S n)
              /\ ~ occurs "@" (slice_from s (S n))).
    { clear. induction s as [|a t IH]; intros n; cbn [LastIndexByte]; [lia|].
      pose proof (LastIndexByte_range t "@") as Hr.
      destruct (0 <=? LastIndexByte t "@") eqn:E.
      - intros Hn. destruct n as [|n]; [lia|].
        destruct (IH n) as [He Ho]; [lia|].
        cbn [slice_to slice_from append]. split; [f_equal; exact He | exact Ho].
      - apply Z.leb_gt in E. assert (Ht : LastIndexByte t "@" = -1) by lia.
        destruct (Ascii.eqb a "@") eqn:Ea; [|lia].
        apply Ascii.eqb_eq in Ea. subst a. intros Hn.
        destruct n as [|n]; [|lia]. cbn.
        split; [now destruct t | apply LastIndexByte_absent in Ht; now destruct t]. }
    destruct (Hgen addr i Hi) as [He Ho].
    repeat split; assumption.
Qed.

(** Every address with an at-sign has a last one. *)
Lemma last_at_exists (addr : string) :
  occurs "@" addr -> exists l d, addr = l ++ "@" ++ d /\ ~ occurs "@" d.
Proof.
  unfold occurs. induction addr as [|a t IH]; simpl; [intros []|].
  intros H.
  destruct (in_dec ascii_dec "@"%char (list_ascii_of_string t)) as [i|n].
  - destruct (IH i) as (l & d & -> & Hd). now exists (String a l), d.
  - destruct H as [->|H]; [|contradiction]. now exists "", t.
Qed.

Lemma byte_range (c : ascii) : 0 <= byte c < 256.
Proof.
  unfold byte. pose proof (N_ascii_bounded c) as H. lia.
Qed.

Lemma runes_ASCII (s : string) :
  isASCII s = true -> runes s = map byte (list_ascii_of_string s).
Proof.
  unfold runes, isASCII. induction s as [|c t IH]; [reflexivity|].
  cbn [list_ascii_of_string forallb map]. intros H.
  apply andb_true_iff in H. destruct H as [Hc Ht].
  cbn [runes_from]. unfold DecodeRuneInString, first.
  unfold RuneSelf in Hc. rewrite Hc. cbn. now rewrite IH.
Qed.

Lemma equalFoldRune_ASCII (sr tr : rune) :
  0 <= sr < 128 -> 0 <= tr < 128 ->
  (equalFoldRune sr tr = true <-> lowerASCII sr = lowerASCII tr).
Proof.
  intros Hs Ht. unfold equalFoldRune, lowerASCII, RuneSelf.
  destruct (tr =? sr) eqn:E.
  { apply Z.eqb_eq in E. subst. now split. }
  apply Z.eqb_neq in E.
  destruct (Z.max sr tr <? 128) eqn:Em; [|apply Z.ltb_ge in Em; lia].
  destruct (65 <=? Z.min sr tr) eqn:E1, (Z.min sr tr <=? 90) eqn:E2,
    (Z.max sr tr =? Z.min sr tr + 97 - 65) eqn:E3,
    (65 <=? sr) eqn:E4, (sr <=? 90) eqn:E5, (65 <=? tr) eqn:E6, (tr <=? 90) eqn:E7;
    cbn [andb];
    repeat match goal with
      | H : (_ <=? _) = true |- _ => apply Z.leb_le in H
      | H : (_ <=? _) = false |- _ => apply Z.leb_gt in H
      | H : (_ =? _) = true |- _ => apply Z.eqb_eq in H
      | H : (_ =? _) = false |- _ => apply Z.eqb_neq in H
      end;
    split; intros H; try discriminate H; try reflexivity; lia.
Qed.

Lemma equalFoldRunes_ASCII (s t : list rune) :
  Forall (fun r => 0 <= r < 128) s -> Forall (fun r => 0 <= r < 128) t ->
  (equalFoldRunes s t = true <-> map lowerASCII s = map lowerASCII t).
Proof.
  intros Hs. revert t. induction Hs as [|sr s Hsr Hs IH]; intros t Ht.
  - destruct t; cbn; split; (reflexivity || discriminate).
  - destruct Ht as [|tr t Htr Ht]; cbn [equalFoldRunes map]; [split; discriminate|].
    rewrite andb_true_iff, (equalFoldRune_ASCII sr tr Hsr Htr), (IH t Ht).
    split; [intros [-> ->]; reflexivity | intros [= H1 H2]; now split].
Qed.

(** On an address of ASCII bytes [EqualFold] with [postmaster] compares the
    bytes after lowering the letters A to Z. *)
Lemma EqualFold_postmaster_ASCII (addr : string) :
  isASCII addr = true ->
  (EqualFold addr "postmaster" = true
   <-> map (fun c => lowerASCII (byte c)) (list_ascii_of_string addr)
       = map byte (list_ascii_of_string "postmaster")).
Proof.
  intros Ha. unfold EqualFold. rewrite (runes_ASCII addr Ha).
  rewrite equalFoldRunes_ASCII.
  - rewrite map_map. reflexivity.
  - apply Forall_forall. intros r Hr. apply in_map_iff in Hr.
    destruct Hr as (c & <- & Hc). pose proof (byte_range c).
    unfold isASCII in Ha. rewrite forallb_forall in Ha.
    specialize (Ha c Hc). unfold RuneSelf in Ha. apply Z.ltb_lt in Ha. lia.
  - repeat constructor; cbv; intuition discriminate.
Qed.

(** C7.  [split] cuts an address at its last at-sign into local-part and
    domain.  It succeeds with an empty domain exactly when the whole address
    equals [postmaster] under case folding ([strings.EqualFold]), and the
    local-part is then the address as given.  Any other address fails with
    one of the malformed-address errors when it has no at-sign, or when the
    text before or after its last at-sign is empty, and otherwise yields
    the two sides of that at-sign.  On an address of ASCII bytes case
    folding lowers the letters A to Z.  So [split "postmaster"] and
    [split "Postmaster"] succeed with an empty domain, and [split "user@"]
    and [split "@domain"] fail. *)
Theorem split_spec (addr : string) :
  (forall mbox, split addr = (mbox, "", None)
                <-> EqualFold addr "postmaster" = true /\ mbox = addr)
  /\ (EqualFold addr "postmaster" = false ->
      (~ occurs "@" addr ->
       exists e, split addr = ("", "", Some e) /\ malformedAddress e)
      /\ (forall l d, addr = l ++ "@" ++ d -> ~ occurs "@" d ->
          (l = "" \/ d = "" ->
           exists e, split addr = ("", "", Some e) /\ malformedAddress e)
          /\ (l <> "" -> d <> "" -> split addr = (l, d, None))))
  /\ (isASCII addr = true ->
      (EqualFold addr "postmaster" = true
       <-> map (fun c => lowerASCII (byte c)) (list_ascii_of_string addr)
           = map byte (list_ascii_of_string "postmaster")))
  /\ split "postmaster" = ("postmaster", "", None)
  /\ split "Postmaster" = ("Postmaster", "", None)
  /\ split "user@" = ("", "", Some (errorString "address: empty domain"))
  /\ split "@domain" = ("", "", Some (errorString "address: empty local-part")).
Proof.
  split; [|split; [|split; [apply EqualFold_postmaster_ASCII | repeat split; reflexivity]]].
  - intros mbox. split.
    + intros H. destruct (EqualFold addr "postmaster") eqn:E.
      * rewrite (split_postmaster addr E) in H. now inversion H.
      * exfalso. unfold split in H. rewrite E in H.
        destruct (LastIndexByte addr "@" =? -1); [discriminate|].
        destruct (String.eqb (slice_to addr _) ""); [discriminate|].
        destruct (String.eqb (slice_from addr _) "") eqn:Ed; [discriminate|].
        inversion H as [[Hm Hd]]. rewrite Hd in Ed. discriminate.
    + intros [E ->]. now apply split_postmaster.
  - intros E. split.
    + intros Hn. eexists. split; [now apply split_no_at|]. now left.
    + intros l d He Hd. rewrite (split_at addr l d E He Hd). split.
      * intros [->| ->].
        -- eexists. split; [reflexivity|]. right. now left.
        -- destruct (String.eqb l "");
             eexists; (split; [reflexivity|]); right; [now left | now right].
      * intros Hl Hd'. apply String.eqb_neq in Hl, Hd'. now rewrite Hl, Hd'.
Qed.

End SplitProperties.

(** ** toASCII and toUnicode *)

Section AddressProperties.
Context {U : GoUnicode} {X : XText}.

Lemma idnaError_foreign (r : string * option string) (e : error) :
  idnaError r = Some e -> exists msg, snd r = Some msg /\ e = foreignError "idna" msg.
Proof.
  unfold idnaError. destruct (snd r) as [msg|]; [|discriminate].
  intros [= <-]. now exists msg.
Qed.

Lemma existsb_Exists_gt (bound : Z) (l : list rune) :
  existsb (fun ch => bound <? ch) l = true <-> Exists (fun ch => bound < ch) l.
Proof.
  rewrite existsb_exists, Exists_exists.
  split; intros (ch & Hin & H); exists ch; (split; [exact Hin|]);
    [now apply Z.ltb_lt | now apply Z.ltb_lt].
Qed.

(** What [toASCII] does, by the cases of the code. *)
Lemma toASCII_cases (addr mbox domain : string) (err : option error) :
  split addr = (mbox, domain, err) ->
  toASCII addr =
    match err with
    | Some e => (addr, Some e)
    | None =>
      if existsb (fun ch => 128 <? ch) (runes mbox) then (addr, Some ErrUnicodeMailbox)
      else if String.eqb domain "" then (mbox, None)
      else match idnaError (idna_ToASCII domain) with
           | Some e => (addr, Some e)
           | None => (mbox ++ "@" ++ fst (idna_ToASCII domain), None)
           end
    end.
Proof. intros H. unfold toASCII. now rewrite H. Qed.

(** C3, at the code point U+0080.  The local-part [us<U+0080>er] holds a
    character outside the 7-bit ASCII range, the split succeeds, and yet
    [toASCII] does not fail with [ErrUnicodeMailbox]: the loop tests
    [ch > 128], so the domain is handed to IDNA and the result is whatever
    IDNA makes of it. *)
Theorem toASCII_accepts_U0080 :
  let mbox := "us" ++ String "194" (String "128" "er") in
  let addr := mbox ++ "@example.com" in
  runes mbox = [117; 115; 128; 101; 114]
  /\ Exists (fun ch => 127 < ch) (runes mbox)
  /\ split addr = (mbox, "example.com", None)
  /\ snd (toASCII addr) = idnaError (idna_ToASCII "example.com")
  /\ snd (toASCII addr) <> Some ErrUnicodeMailbox.
Proof.
  cbv zeta.
  assert (Hs : split ("us" ++ String "194" (String "128" "er") ++ "@example.com")
               = ("us" ++ String "194" (String "128" "er"), "example.com", None))
    by reflexivity.
  assert (Ht : snd (toASCII ("us" ++ String "194" (String "128" "er") ++ "@example.com"))
               = idnaError (idna_ToASCII "example.com")).
  { rewrite (toASCII_cases _ _ _ _ Hs). cbn.
    destruct (idnaError (idna_ToASCII "example.com")); reflexivity. }
  split; [reflexivity|]. split.
  - change (Exists (fun ch => 127 < ch) [117; 115; 128; 101; 114]).
    apply Exists_cons_tl, Exists_cons_tl, Exists_cons_hd. lia.
  - split; [exact Hs|]. split; [exact Ht|].
    change (("us" ++ String "194" (String "128" "er")) ++ "@example.com")
      with ("us" ++ String "194" (String "128" "er") ++ "@example.com") in *.
    rewrite Ht. intros H. apply idnaError_foreign in H.
    destruct H as (msg & _ & H). discriminate H.
Qed.

(** What the loop of [toASCII] does decide: after a successful split the
    call fails with [ErrUnicodeMailbox] exactly when the local-part holds a
    rune above 128.  It then returns the address as given, whatever IDNA
    would have made of the domain: the instance [X'] of the transcoder plays
    no part in the result. *)
Theorem toASCII_unicode_mailbox (addr mbox domain : string) :
  split addr = (mbox, domain, None) ->
  (snd (toASCII addr) = Some ErrUnicodeMailbox
   <-> Exists (fun ch => 128 < ch) (runes mbox))
  /\ (Exists (fun ch => 128 < ch) (runes mbox) ->
      forall X' : XText, @toASCII U X' addr = (addr, Some ErrUnicodeMailbox)).
Proof.
  intros Hs. split.
  - rewrite (toASCII_cases _ _ _ _ Hs), <- existsb_Exists_gt.
    destruct (existsb (fun ch => 128 <? ch) (runes mbox)); [now split|].
    split; [|discriminate].
    destruct (String.eqb domain ""); [discriminate|].
    destruct (idnaError (idna_ToASCII domain)) eqn:E; [|discriminate].
    apply idnaError_foreign in E. destruct E as (msg & _ & ->). discriminate.
  - intros H X'. apply existsb_Exists_gt in H.
    unfold toASCII. now rewrite Hs, H.
Qed.

(** C9.  When [toUnicode] fails, the string it returns beside the error is
    the NFC normalisation of the address as given, and the failure is that
    of the split or that of the conversion of the domain.  When it succeeds
    the local-part is the one the split found, unchanged; the domain is
    absent (the postmaster address) or its U-label form, NFC-normalised. *)
Theorem toUnicode_spec (addr : string) :
  (forall v e, toUnicode addr = (v, Some e) ->
     v = norm_NFC addr
     /\ ((exists mbox domain, split addr = (mbox, domain, Some e))
         \/ (exists mbox domain, split addr = (mbox, domain, None) /\ domain <> ""
             /\ idnaError (idna_ToUnicode domain) = Some e)))
  /\ (forall v, toUnicode addr = (v, None) ->
     exists mbox domain, split addr = (mbox, domain, None)
       /\ ((domain = "" /\ v = mbox)
           \/ (domain <> "" /\ snd (idna_ToUnicode domain) = None
               /\ v = mbox ++ "@" ++ norm_NFC (fst (idna_ToUnicode domain)))))
  /\ (forall mbox domain e, split addr = (mbox, domain, Some e) ->
     toUnicode addr = (norm_NFC addr, Some e))
  /\ (forall mbox domain msg, split addr = (mbox, domain, None) -> domain <> "" ->
     snd (idna_ToUnicode domain) = Some msg ->
     toUnicode addr = (norm_NFC addr, Some (foreignError "idna" msg))).
Proof.
  unfold toUnicode.
  destruct (split addr) as [[mbox domain] [e0|]] eqn:Hs.
  - repeat split.
    + now inversion H.
    + inversion H; subst. left. now exists mbox, domain.
    + discriminate.
    + intros m d e [= -> -> ->]. reflexivity.
    + discriminate.
  - destruct (String.eqb domain "") eqn:Ed.
    + apply String.eqb_eq in Ed. subst domain. repeat split; try discriminate.
      * intros v [= <-]. exists mbox, "". split; [reflexivity|]. now left.
      * intros m d msg [= -> ->] Hd. now contradiction Hd.
    + apply String.eqb_neq in Ed.
      unfold idnaError. destruct (snd (idna_ToUnicode domain)) as [msg|] eqn:Ei.
      * repeat split; try discriminate.
        -- now inversion H.
        -- inversion H; subst. right. exists mbox, domain.
           repeat split; try assumption. unfold idnaError. now rewrite Ei.
        -- intros m d msg' [= -> ->] _ Hm. rewrite Ei in Hm. now inversion Hm.
      * repeat split; try discriminate.
        -- intros v [= <-]. exists mbox, domain. split; [reflexivity|]. right.
           now repeat split.
        -- intros m d msg' [= -> ->] _ Hm. rewrite Ei in Hm. discriminate.
Qed.

End AddressProperties.

(** ** Header names *)

Lemma valid_append (a b : string) :
  forallb validHeaderFieldByte (list_ascii_of_string (a ++ b))
  = forallb validHeaderFieldByte (list_ascii_of_string a)
    && forallb validHeaderFieldByte (list_ascii_of_string b).
Proof.
  induction a as [|c a IH]; cbn [append list_ascii_of_string forallb]; [reflexivity|].
  now rewrite IH, andb_assoc.
Qed.

(** A dash restarts the rewriting: what follows it is rewritten as a key of
    its own. *)
Lemma canonical_dash (upper : bool) (a b : string) :
  canonicalMIMEHeaderKey upper (a ++ String "-" b)
  = canonicalMIMEHeaderKey upper a ++ String "-" (canonicalMIMEHeaderKey true b).
Proof.
  revert upper. induction a as [|c a IH]; intros upper; cbn [append canonicalMIMEHeaderKey].
  - now destruct upper.
  - now rewrite IH.
Qed.

(** A key that begins with [X-] keeps that beginning. *)
Lemma CanonicalMIMEHeaderKey_X (q : string) :
  CanonicalMIMEHeaderKey ("X-" ++ q) = "X-" ++ CanonicalMIMEHeaderKey q.
Proof.
  unfold CanonicalMIMEHeaderKey. cbn [append list_ascii_of_string forallb].
  change (validHeaderFieldByte "X") with true. change (validHeaderFieldByte "-") with true.
  cbn [andb].
  now destruct (forallb validHeaderFieldByte (list_ascii_of_string q)).
Qed.

(** The name under which [Add] keeps [X-<label>-Sender]. *)
Lemma CanonicalMIMEHeaderKey_Sender (label : string) :
  CanonicalMIMEHeaderKey (("X-" ++ label) ++ "-Sender")
  = "X-" ++ CanonicalMIMEHeaderKey label ++ "-Sender".
Proof.
  unfold CanonicalMIMEHeaderKey. rewrite append_assoc. cbn [append].
  cbn [list_ascii_of_string forallb]. rewrite valid_append.
  change (forallb validHeaderFieldByte (list_ascii_of_string "-Sender")) with true.
  change (validHeaderFieldByte "X") with true. change (validHeaderFieldByte "-") with true.
  cbn [andb]. rewrite andb_true_r.
  destruct (forallb validHeaderFieldByte (list_ascii_of_string label)); [|reflexivity].
  change (canonicalMIMEHeaderKey true (String "X" (String "-" (label ++ "-Sender"))))
    with (String "X" (String "-" (canonicalMIMEHeaderKey true (label ++ "-Sender")))).
  now rewrite canonical_dash.
Qed.

(** The name under which [Add] keeps [X-<label>-MsgID]: a label made of
    token bytes gives [-Msgid]. *)
Lemma CanonicalMIMEHeaderKey_MsgID (label : string) :
  CanonicalMIMEHeaderKey (("X-" ++ label) ++ "-MsgID")
  = "X-" ++ CanonicalMIMEHeaderKey label
    ++ (if forallb validHeaderFieldByte (list_ascii_of_string label) then "-Msgid" else "-MsgID").
Proof.
  unfold CanonicalMIMEHeaderKey. rewrite append_assoc. cbn [append].
  cbn [list_ascii_of_string forallb]. rewrite valid_append.
  change (forallb validHeaderFieldByte (list_ascii_of_string "-MsgID")) with true.
  change (validHeaderFieldByte "X") with true. change (validHeaderFieldByte "-") with true.
  cbn [andb]. rewrite andb_true_r.
  destruct (forallb validHeaderFieldByte (list_ascii_of_string label)); [|reflexivity].
  change (canonicalMIMEHeaderKey true (String "X" (String "-" (label ++ "-MsgID"))))
    with (String "X" (String "-" (canonicalMIMEHeaderKey true (label ++ "-MsgID")))).
  now rewrite canonical_dash.
Qed.

Lemma append_inj_l (p a b : string) : p ++ a = p ++ b -> a = b.
Proof. induction p as [|c p IH]; cbn [append]; [tauto|]. intros [= H]. now apply IH. Qed.

(** ** The field blocks *)

Section HeaderProperties.
Context {U : GoUnicode} {X : XText} {T : GoTime} {G : GoMessage}.

Lemma converted_Done (field : string) (r : string * option error) (v : string) :
  converted field r = Done v <-> snd r = None /\ v = fst r.
Proof.
  unfold converted. destruct (snd r); split.
  - discriminate.
  - now intros [? _].
  - now intros [= <-].
  - now intros [_ ->].
Qed.

(** A reporting-MTA block is built exactly when the record names the
    reporting MTA and every name and address it holds can be transcoded; the
    block is then [mtaFields]. *)
Lemma ReportingMTAInfo_header_Done (utf8 : bool) (info : ReportingMTAInfo) (h : Header) :
  ReportingMTAInfo_header utf8 info = Done h <->
  (ReportingMTA info <> ""
   /\ snd (dnsSelectIDNA utf8 (ReportingMTA info)) = None
   /\ (ReceivedFromMTA info <> "" -> snd (dnsSelectIDNA utf8 (ReceivedFromMTA info)) = None)
   /\ (XSender info <> "" -> snd (addrSelectIDNA utf8 (XSender info)) = None)
   /\ h = mtaFields utf8 info).
Proof.
  unfold ReportingMTAInfo_header, mtaFields, converted, xHeaderPrefix, addressTag, bind,
    optional, Header_Add.
  destruct (String.eqb (ReportingMTA info) "") eqn:E1.
  { apply String.eqb_eq in E1. split; [discriminate | now intros [? _]]. }
  apply String.eqb_neq in E1.
  destruct (snd (dnsSelectIDNA utf8 (ReportingMTA info))) eqn:E2.
  { split; [discriminate | now intros (_ & ? & _)]. }
  destruct (String.eqb (ReceivedFromMTA info) "") eqn:E3; cbn [negb];
    [apply String.eqb_eq in E3 | apply String.eqb_neq in E3;
       destruct (snd (dnsSelectIDNA utf8 (ReceivedFromMTA info))) eqn:E4;
       [split; [discriminate | intros (_ & _ & Hc & _); now specialize (Hc E3)]|]];
  (destruct (String.eqb (XSender info) "") eqn:E5; cbn [negb];
    [apply String.eqb_eq in E5 | apply String.eqb_neq in E5;
       destruct (snd (addrSelectIDNA utf8 (XSender info))) eqn:E6;
       [split; [discriminate | intros (_ & _ & _ & Hc & _); now specialize (Hc E5)]|]]);
  destruct utf8, (String.eqb (XMessageID info) ""), (time_IsZero (ArrivalDate info));
    cbn [negb app];
    (split; [intros [= <-]; repeat split; (reflexivity || congruence)
            | intros (_ & _ & _ & _ & ->); reflexivity]).
Qed.

(** A recipient block is built exactly when the mandatory fields are there,
    the address and the name it holds can be transcoded, and the encoder
    reads through no nil diagnostic; the block is then [rcptFields]. *)
Lemma RecipientInfo_header_Done (utf8 : bool) (info : RecipientInfo) (h : Header) :
  RecipientInfo_header utf8 info = Done h <->
  (FinalRecipient info <> ""
   /\ snd (addrSelectIDNA utf8 (FinalRecipient info)) = None
   /\ Action info <> ""
   /\ at0 (Status info) <> 0
   /\ nilDiagnostic utf8 info = false
   /\ (RemoteMTA info <> "" -> snd (dnsSelectIDNA utf8 (RemoteMTA info)) = None)
   /\ h = rcptFields utf8 info).
Proof.
  unfold RecipientInfo_header, rcptFields, diagnosticFields, smtpDiagnostic, converted,
    xHeaderPrefix, addressTag, bind, optional, Header_Add, nilDiagnostic.
  destruct (String.eqb (FinalRecipient info) "") eqn:E1.
  { apply String.eqb_eq in E1. split; [discriminate | now intros [? _]]. }
  apply String.eqb_neq in E1.
  destruct (snd (addrSelectIDNA utf8 (FinalRecipient info))) eqn:E2.
  { split; [discriminate | now intros (_ & ? & _)]. }
  destruct (String.eqb (Action info) "") eqn:E3.
  { apply String.eqb_eq in E3. destruct utf8; (split; [discriminate | now intros (_ & _ & ? & _)]). }
  apply String.eqb_neq in E3.
  destruct (at0 (Status info) =? 0) eqn:E4.
  { apply Z.eqb_eq in E4. destruct utf8; (split; [discriminate | now intros (_ & _ & _ & ? & _)]). }
  apply Z.eqb_neq in E4.
  destruct (String.eqb (RemoteMTA info) "") eqn:E5; cbn [negb];
    [apply String.eqb_eq in E5 | apply String.eqb_neq in E5;
       destruct (snd (dnsSelectIDNA utf8 (RemoteMTA info))) eqn:E6];
  destruct utf8, (DiagnosticCode info) as [[| | | |]|]; cbn [app];
    (split; [try discriminate; intros [= <-]; repeat split;
               (reflexivity || congruence || (intros; discriminate))
            | intros (_ & _ & _ & _ & Hd & Hr & Hh);
              try discriminate Hd;
              try (subst h; reflexivity);
              try (now specialize (Hr E5))]).
Qed.

(** A recipient block panics exactly when it passes the checks of the
    mandatory fields and the encoder reads through a nil diagnostic. *)
Lemma RecipientInfo_header_Panicked (utf8 : bool) (info : RecipientInfo) (reason : string) :
  RecipientInfo_header utf8 info = Panicked reason <->
  (FinalRecipient info <> ""
   /\ snd (addrSelectIDNA utf8 (FinalRecipient info)) = None
   /\ Action info <> ""
   /\ at0 (Status info) <> 0
   /\ nilDiagnostic utf8 info = true /\ reason = nilDereference).
Proof.
  unfold RecipientInfo_header, converted, bind, Header_Add, nilDiagnostic.
  destruct (String.eqb (FinalRecipient info) "") eqn:E1.
  { apply String.eqb_eq in E1. split; [discriminate | now intros [? _]]. }
  apply String.eqb_neq in E1.
  destruct (snd (addrSelectIDNA utf8 (FinalRecipient info))) eqn:E2.
  { split; [discriminate | now intros (_ & ? & _)]. }
  destruct (String.eqb (Action info) "") eqn:E3.
  { apply String.eqb_eq in E3. destruct utf8; (split; [discriminate | now intros (_ & _ & ? & _)]). }
  apply String.eqb_neq in E3.
  destruct (at0 (Status info) =? 0) eqn:E4.
  { apply Z.eqb_eq in E4. destruct utf8; (split; [discriminate | now intros (_ & _ & _ & ? & _)]). }
  apply Z.eqb_neq in E4.
  destruct (String.eqb (RemoteMTA info) ""); cbn [negb];
    [|destruct (snd (dnsSelectIDNA utf8 (RemoteMTA info)))];
  destruct utf8, (DiagnosticCode info) as [[| | | |]|];
    (split; [try discriminate; intros [= <-]; now repeat split
            | intros (_ & _ & _ & _ & Hd & ->); try discriminate; reflexivity]).
Qed.


Lemma rcptFields_names (utf8 : bool) (info : RecipientInfo) :
  nilDiagnostic utf8 info = false ->
  fieldNames (rcptFields utf8 info) =
  kept [ (true, "Final-Recipient"); (true, "Action"); (true, "Status");
         (hasDiagnosticField utf8 info, "Diagnostic-Code");
         (negb (String.eqb (RemoteMTA info) ""), "Remote-Mta") ].
Proof.
  unfold rcptFields, diagnosticFields, hasDiagnosticField, nilDiagnostic, kept, optional,
    fieldNames.
  intros Hd.
  destruct (String.eqb (RemoteMTA info) ""), utf8, (DiagnosticCode info) as [[| | | |]|];
    try reflexivity; discriminate Hd.
Qed.

(** The names of the reporting-MTA block in the order in which the header
    writer takes the fields. *)
Lemma mtaFields_written (utf8 : bool) (info : ReportingMTAInfo) :
  fieldNames (rev (mtaFields utf8 info)) =
  kept [ (negb (time_IsZero (ArrivalDate info)), "Last-Attempt-Date");
         (negb (time_IsZero (ArrivalDate info)), "Arrival-Date");
         (negb (String.eqb (XMessageID info) ""),
          CanonicalMIMEHeaderKey (xHeaderPrefix (XMTAName info) ++ "-MsgID"));
         (negb (String.eqb (XSender info) ""),
          CanonicalMIMEHeaderKey (xHeaderPrefix (XMTAName info) ++ "-Sender"));
         (negb (String.eqb (ReceivedFromMTA info) ""), "Received-From-Mta");
         (true, "Reporting-Mta") ].
Proof.
  unfold mtaFields, kept, optional, fieldNames.
  destruct (String.eqb (ReceivedFromMTA info) ""), (String.eqb (XSender info) ""),
    (String.eqb (XMessageID info) ""), (time_IsZero (ArrivalDate info)); reflexivity.
Qed.

Lemma rcptFields_written (utf8 : bool) (info : RecipientInfo) :
  nilDiagnostic utf8 info = false ->
  fieldNames (rev (rcptFields utf8 info)) =
  kept [ (negb (String.eqb (RemoteMTA info) ""), "Remote-Mta");
         (hasDiagnosticField utf8 info, "Diagnostic-Code");
         (true, "Status"); (true, "Action"); (true, "Final-Recipient") ].
Proof.
  unfold rcptFields, diagnosticFields, hasDiagnosticField, nilDiagnostic, kept, optional,
    fieldNames.
  intros Hd.
  destruct (String.eqb (RemoteMTA info) ""), utf8, (DiagnosticCode info) as [[| | | |]|];
    try reflexivity; discriminate Hd.
Qed.

(** On a buffer the loop of [WriteHeader] appends [fieldsBytes]. *)
Lemma writeFields_Buffer (b : Buffer) (n : nat) (fs : list (string * string)) :
  writeFields b n fs =
  ({| contents := contents b ++ fst (fieldsBytes n fs) |}, snd (fieldsBytes n fs)).
Proof.
  revert b n. induction fs as [|f fs IH]; intros [b] n; cbn [writeFields fieldsBytes].
  - reflexivity.
  - destruct (textproto_refuses n (fst f) (snd f)); cbn [fst snd contents].
    + now rewrite append_nil_r.
    + unfold Write at 1, Buffer_Writer at 1. cbn [contents]. rewrite IH.
      destruct (fieldsBytes (S n) fs) as [bytes refusal]. cbn [fst snd contents].
      now rewrite append_assoc.
Qed.

(** When no field is refused the bytes are the fields laid out one after
    the other, and the blank line. *)
Lemma fieldsBytes_whole (n : nat) (fs : list (string * string)) :
  snd (fieldsBytes n fs) = None ->
  fst (fieldsBytes n fs)
  = joined (map (fun f => textproto_formatHeaderField (fst f) (snd f)) fs) ++ CRLF.
Proof.
  revert n. induction fs as [|f fs IH]; intros n; cbn [fieldsBytes map joined fold_right];
    [reflexivity|].
  destruct (textproto_refuses n (fst f) (snd f)); [discriminate|].
  specialize (IH (S n)). destruct (fieldsBytes (S n) fs) as [bytes refusal].
  cbn [fst snd] in *. intros Hr. now rewrite (IH Hr), append_assoc.
Qed.

(** C5, as the code has it.  The fields of a block reach the output in
    the reverse of the order in which [WriteTo] adds them, because the header
    writer starts from the field added last, and under the names the header
    keeps.  A reporting-MTA record that is accepted is written as the loop of
    the header writer over Last-Attempt-Date, Arrival-Date, X-<label>-MsgID,
    X-<label>-Sender, Received-From-MTA, Reporting-MTA, and a recipient
    record as that loop over Remote-MTA, Diagnostic-Code, Status, Action,
    Final-Recipient: the fields of that list that are present, in the order
    of the list.  In a buffer, when the header writer refuses none of them,
    these are the bytes appended: the fields laid out in that order, and
    the blank line. *)
Theorem field_order (utf8 : bool) :
  (forall info : ReportingMTAInfo,
     ReportingMTA info <> "" ->
     snd (dnsSelectIDNA utf8 (ReportingMTA info)) = None ->
     (ReceivedFromMTA info <> "" -> snd (dnsSelectIDNA utf8 (ReceivedFromMTA info)) = None) ->
     (XSender info <> "" -> snd (addrSelectIDNA utf8 (XSender info)) = None) ->
     fieldNames (rev (mtaFields utf8 info)) =
       kept [ (negb (time_IsZero (ArrivalDate info)), "Last-Attempt-Date");
              (negb (time_IsZero (ArrivalDate info)), "Arrival-Date");
              (negb (String.eqb (XMessageID info) ""),
               CanonicalMIMEHeaderKey (xHeaderPrefix (XMTAName info) ++ "-MsgID"));
              (negb (String.eqb (XSender info) ""),
               CanonicalMIMEHeaderKey (xHeaderPrefix (XMTAName info) ++ "-Sender"));
              (negb (String.eqb (ReceivedFromMTA info) ""), "Received-From-Mta");
              (true, "Reporting-Mta") ]
     /\ (forall (V : Type) (WV : Writer V) (w : V),
         ReportingMTAInfo_WriteTo info utf8 w
         = returned (writeFields w 1 (rev (mtaFields utf8 info))))
     /\ (forall b : Buffer,
         blockRefusal (mtaFields utf8 info) = None ->
         ReportingMTAInfo_WriteTo info utf8 b =
         ({| contents :=
               contents b
               ++ joined (map (fun f => textproto_formatHeaderField (fst f) (snd f))
                              (rev (mtaFields utf8 info)))
               ++ CRLF |}, Done tt)))
  /\ (forall info : RecipientInfo,
     FinalRecipient info <> "" ->
     snd (addrSelectIDNA utf8 (FinalRecipient info)) = None ->
     Action info <> "" ->
     at0 (Status info) <> 0 ->
     nilDiagnostic utf8 info = false ->
     (RemoteMTA info <> "" -> snd (dnsSelectIDNA utf8 (RemoteMTA info)) = None) ->
     fieldNames (rev (rcptFields utf8 info)) =
       kept [ (negb (String.eqb (RemoteMTA info) ""), "Remote-Mta");
              (hasDiagnosticField utf8 info, "Diagnostic-Code");
              (true, "Status"); (true, "Action"); (true, "Final-Recipient") ]
     /\ (forall (V : Type) (WV : Writer V) (w : V),
         RecipientInfo_WriteTo info utf8 w
         = returned (writeFields w 1 (rev (rcptFields utf8 info))))
     /\ (forall b : Buffer,
         blockRefusal (rcptFields utf8 info) = None ->
         RecipientInfo_WriteTo info utf8 b =
         ({| contents :=
               contents b
               ++ joined (map (fun f => textproto_formatHeaderField (fst f) (snd f))
                              (rev (rcptFields utf8 info)))
               ++ CRLF |}, Done tt))).
Proof.
  split.
  - intros info H1 H2 H3 H4.
    assert (Hh : ReportingMTAInfo_header utf8 info = Done (mtaFields utf8 info))
      by (apply ReportingMTAInfo_header_Done; now repeat split).
    split; [apply mtaFields_written|]. split.
    + intros V WV w. unfold ReportingMTAInfo_WriteTo. now rewrite Hh.
    + intros b Hr. unfold ReportingMTAInfo_WriteTo. rewrite Hh.
      unfold writeBuilt, WriteHeader. rewrite writeFields_Buffer.
      unfold blockRefusal in Hr. rewrite (fieldsBytes_whole _ _ Hr), Hr. reflexivity.
  - intros info H1 H2 H3 H4 H5 H6.
    assert (Hh : RecipientInfo_header utf8 info = Done (rcptFields utf8 info))
      by (apply RecipientInfo_header_Done; now repeat split).
    split; [now apply rcptFields_written|]. split.
    + intros V WV w. unfold RecipientInfo_WriteTo. now rewrite Hh.
    + intros b Hr. unfold RecipientInfo_WriteTo. rewrite Hh.
      unfold writeBuilt, WriteHeader. rewrite writeFields_Buffer.
      unfold blockRefusal in Hr. rewrite (fieldsBytes_whole _ _ Hr), Hr. reflexivity.
Qed.





Lemma rcptFields_diagnostic (utf8 : bool) (info : RecipientInfo) (v : string) :
  In ("Diagnostic-Code", v) (rcptFields utf8 info) ->
  In ("Diagnostic-Code", v) (diagnosticFields utf8 info).
Proof.
  unfold rcptFields, optional. intros H.
  apply in_app_or in H. destruct H as [H|H].
  { repeat (destruct H as [H|H]; [discriminate H|]). contradiction. }
  apply in_app_or in H. destruct H as [H|H]; [exact H|].
  destruct (negb (String.eqb (RemoteMTA info) "")); [|contradiction].
  destruct H as [H|[]]. discriminate H.
Qed.


(** C2, in UTF-8 mode.  A recipient record that passes the checks of its
    mandatory fields and has no diagnostic makes the encoder panic: after
    the type assertion fails, the UTF-8 branch calls [Error] on the nil
    diagnostic.  Nothing is written. *)
Theorem absent_diagnostic_panics_utf8 (info : RecipientInfo) :
  FinalRecipient info <> "" ->
  snd (addrSelectIDNA true (FinalRecipient info)) = None ->
  Action info <> "" ->
  at0 (Status info) <> 0 ->
  DiagnosticCode info = None ->
  RecipientInfo_header true info = Panicked nilDereference
  /\ (forall (V : Type) (WV : Writer V) (w : V),
      RecipientInfo_WriteTo info true w = (w, Panicked nilDereference)).
Proof.
  intros H1 H2 H3 H4 H5.
  assert (H : RecipientInfo_header true info = Panicked nilDereference)
    by (apply RecipientInfo_header_Panicked; unfold nilDiagnostic; rewrite H5;
        now repeat split).
  split; [exact H|]. intros V WV w. unfold RecipientInfo_WriteTo. now rewrite H.
Qed.

(** In ASCII mode a recipient record without a diagnostic is encoded, and
    its block has no Diagnostic-Code: the mandatory fields being valid and
    the address and the name of the remote MTA transcodable, the header is
    built and handed to the header writer. *)
Theorem absent_diagnostic_ascii (info : RecipientInfo) :
  FinalRecipient info <> "" ->
  snd (addrSelectIDNA false (FinalRecipient info)) = None ->
  Action info <> "" ->
  at0 (Status info) <> 0 ->
  (RemoteMTA info <> "" -> snd (dnsSelectIDNA false (RemoteMTA info)) = None) ->
  DiagnosticCode info = None ->
  exists h : Header,
    RecipientInfo_header false info = Done h
    /\ ~ In "Diagnostic-Code" (fieldNames h)
    /\ (forall (V : Type) (WV : Writer V) (w : V),
        RecipientInfo_WriteTo info false w = returned (WriteHeader w h)).
Proof.
  intros H1 H2 H3 H4 H5 H6. exists (rcptFields false info).
  assert (H : RecipientInfo_header false info = Done (rcptFields false info)).
  { apply RecipientInfo_header_Done. unfold nilDiagnostic. rewrite H6.
    repeat split; assumption. }
  split; [exact H|]. split.
  - rewrite rcptFields_names by (unfold nilDiagnostic; now rewrite H6).
    unfold hasDiagnosticField, kept. rewrite H6.
    destruct (String.eqb (RemoteMTA info) ""); cbn;
      intros Hin; repeat (destruct Hin as [Hin|Hin]; [discriminate Hin|]); contradiction.
  - intros V WV w. unfold RecipientInfo_WriteTo. now rewrite H.
Qed.

End HeaderProperties.

(** ** GenerateDSN *)

Section GenerateProperties.
Context {U : GoUnicode} {X : XText} {T : GoTime} {G : GoMessage}.

Lemma writeAll_Buffer (b : Buffer) (ps : list string) :
  writeAll b ps = ({| contents := contents b ++ joined ps |}, None).
Proof.
  revert b. induction ps as [|p ps IH]; intros [b]; cbn [writeAll joined fold_right contents].
  - now rewrite append_nil_r.
  - unfold Write at 1, Buffer_Writer at 1. cbn [contents].
    rewrite IH. cbn [contents]. now rewrite append_assoc.
Qed.

Lemma writeAll_openPart (b boundary : string) (ps : list string) :
  writeAll (openPart b boundary) ps = (openPart (b ++ joined ps) boundary, None).
Proof.
  revert b. induction ps as [|p ps IH]; intros b; cbn [writeAll joined fold_right].
  - now rewrite append_nil_r.
  - change (Write (openPart b boundary) p) with (openPart (b ++ p) boundary, @None error).
    cbn iota. rewrite IH. now rewrite append_assoc.
Qed.

Lemma writeFields_openPart (b boundary : string) (n : nat) (fs : list (string * string)) :
  writeFields (openPart b boundary) n fs =
  (openPart (b ++ fst (fieldsBytes n fs)) boundary, snd (fieldsBytes n fs)).
Proof.
  revert b n. induction fs as [|f fs IH]; intros b n; cbn [writeFields fieldsBytes].
  - reflexivity.
  - destruct (textproto_refuses n (fst f) (snd f)); cbn [fst snd].
    + now rewrite append_nil_r.
    + change (Write (openPart b boundary) (textproto_formatHeaderField (fst f) (snd f)))
        with (openPart (b ++ textproto_formatHeaderField (fst f) (snd f)) boundary,
              @None error).
      cbn iota. rewrite IH.
      destruct (fieldsBytes (S n) fs) as [bytes refusal]. cbn [fst snd].
      now rewrite append_assoc.
Qed.

Lemma WriteHeader_Buffer (b : Buffer) (h : Header) :
  WriteHeader b h = ({| contents := contents b ++ blockBytes h |}, blockRefusal h).
Proof. unfold WriteHeader. apply writeFields_Buffer. Qed.

Lemma WriteHeader_openPart (b boundary : string) (h : Header) :
  WriteHeader (openPart b boundary) h = (openPart (b ++ blockBytes h) boundary, blockRefusal h).
Proof. unfold WriteHeader. apply writeFields_openPart. Qed.

Lemma CreatePart_New (b : string) (h : Header) :
  CreatePart (NewMultipartWriter {| contents := b |}) h =
  (openPart (b ++ "--" ++ textproto_randomBoundary ++ CRLF ++ blockBytes h)
            textproto_randomBoundary, None).
Proof.
  unfold CreatePart, lastError, NewMultipartWriter, openPart, partPreamble.
  rewrite WriteHeader_Buffer.
  cbn [mw_lastpart mw_w mw_boundary we fst contents].
  change ("" ++ blockBytes h) with (blockBytes h).
  unfold Write at 1, Buffer_Writer at 1. cbn [contents].
  now rewrite !append_assoc.
Qed.

Lemma CreatePart_openPart (b boundary : string) (h : Header) :
  CreatePart (openPart b boundary) h = (openPart (b ++ nextPartBytes boundary h) boundary, None).
Proof.
  unfold CreatePart, lastError, openPart, nextPartBytes, partPreamble.
  rewrite WriteHeader_Buffer.
  cbn [mw_lastpart mw_w mw_boundary we fst contents].
  change ("" ++ blockBytes h) with (blockBytes h).
  unfold Write at 1, Buffer_Writer at 1. cbn [contents].
  now rewrite !append_assoc.
Qed.

Lemma Close_openPart (b boundary : string) :
  Close (openPart b boundary) =
  ({| mw_w := {| contents := b ++ closingBytes boundary |}; mw_boundary := boundary;
      mw_lastpart := None |}, None).
Proof. reflexivity. Qed.

Lemma writeHumanReadablePart_Buffer (b : string) (mtaInfo : ReportingMTAInfo)
  (rcptsInfo : list RecipientInfo) :
  writeHumanReadablePart (NewMultipartWriter {| contents := b |}) mtaInfo rcptsInfo =
  (openPart (b ++ humanPartBytes textproto_randomBoundary mtaInfo rcptsInfo)
            textproto_randomBoundary, Done tt).
Proof.
  unfold writeHumanReadablePart, failedText_Execute. rewrite CreatePart_New.
  cbn [returned andThen fst snd]. rewrite writeAll_openPart.
  cbn [returned andThen fst snd]. rewrite writeAll_openPart.
  cbn [returned fst snd]. unfold humanPartBytes.
  now rewrite !append_assoc.
Qed.

Lemma writeBuilt_openPart (b boundary : string) (built : outcome Header) :
  writeBuilt (openPart b boundary) built =
  match built with
  | Done h => (openPart (b ++ blockBytes h) boundary, blockEnd h)
  | Failed e => (openPart b boundary, Failed e)
  | Panicked p => (openPart b boundary, Panicked p)
  end.
Proof.
  destruct built as [h|e|p]; try reflexivity.
  unfold writeBuilt. now rewrite WriteHeader_openPart.
Qed.

Lemma writeRecipients_Buffer (utf8 : bool) (b boundary : string)
  (mtaInfo : ReportingMTAInfo) (rcptsInfo : list RecipientInfo) :
  writeRecipients utf8 (openPart b boundary) mtaInfo rcptsInfo =
  (openPart (b ++ fst (recipientsBytes utf8 (effectiveXMTAName mtaInfo) rcptsInfo)) boundary,
   snd (recipientsBytes utf8 (effectiveXMTAName mtaInfo) rcptsInfo)).
Proof.
  revert b. induction rcptsInfo as [|rcpt rest IH]; intros b;
    cbn [writeRecipients recipientsBytes fst snd].
  - now rewrite append_nil_r.
  - unfold RecipientInfo_WriteTo. rewrite writeBuilt_openPart.
    destruct (RecipientInfo_header utf8 (labelled rcpt (effectiveXMTAName mtaInfo)))
      as [h|e|p]; cbn [andThen fst snd]; try now rewrite append_nil_r.
    unfold blockEnd. destruct (blockRefusal h); cbn [andThen fst snd]; [reflexivity|].
    rewrite IH.
    destruct (recipientsBytes utf8 (effectiveXMTAName mtaInfo) rest) as [bytes end_].
    cbn [fst snd]. now rewrite append_assoc.
Qed.

Lemma writeMachineReadablePart_Buffer (utf8 : bool) (b boundary : string)
  (mtaInfo : ReportingMTAInfo) (rcptsInfo : list RecipientInfo) :
  writeMachineReadablePart utf8 (openPart b boundary) mtaInfo rcptsInfo =
  (openPart (b ++ fst (machinePartBytes utf8 boundary mtaInfo rcptsInfo)) boundary,
   snd (machinePartBytes utf8 boundary mtaInfo rcptsInfo)).
Proof.
  unfold writeMachineReadablePart, machinePartBytes, ReportingMTAInfo_WriteTo.
  rewrite CreatePart_openPart. cbn [returned andThen fst snd].
  rewrite writeBuilt_openPart.
  destruct (ReportingMTAInfo_header utf8 mtaInfo) as [h|e|p]; cbn [andThen fst snd];
    try reflexivity.
  unfold blockEnd. destruct (blockRefusal h); cbn [andThen fst snd];
    [now rewrite !append_assoc|].
  rewrite writeRecipients_Buffer.
  destruct (recipientsBytes utf8 (effectiveXMTAName mtaInfo) rcptsInfo) as [bytes end_].
  cbn [fst snd]. now rewrite !append_assoc.
Qed.

Lemma writeHeader_Buffer (utf8 : bool) (b boundary : string) (header : Header) :
  writeHeader utf8 (openPart b boundary) header =
  (openPart (b ++ nextPartBytes boundary (headersPartHeader utf8) ++ blockBytes header)
            boundary, blockEnd header).
Proof.
  unfold writeHeader. rewrite CreatePart_openPart.
  cbn [returned andThen fst snd]. rewrite WriteHeader_openPart.
  cbn [returned fst snd]. now rewrite !append_assoc.
Qed.

(** The header a call on a buffer returns: the report header once the
    first two parts are written, the empty header otherwise. *)
Lemma reportBytes_end (utf8 : bool) (boundary : string) (mtaInfo : ReportingMTAInfo)
  (rcptsInfo : list RecipientInfo) (failedHeader : Header) :
  snd (reportBytes utf8 boundary mtaInfo rcptsInfo failedHeader) = Done tt ->
  snd (machinePartBytes utf8 boundary mtaInfo rcptsInfo) = Done tt.
Proof.
  unfold reportBytes.
  destruct (machinePartBytes utf8 boundary mtaInfo rcptsInfo) as [machine [[]|e|p]];
    cbn [snd]; (reflexivity || discriminate).
Qed.

(** On an in-memory buffer the call appends [reportBytes], the closing
    delimiter included on every way out, and returns the report header when
    the first two parts were written and the empty header otherwise. *)
Theorem GenerateDSN_Buffer (utf8 : bool) (envelope : Envelope) (mtaInfo : ReportingMTAInfo)
  (rcptsInfo : list RecipientInfo) (failedHeader : Header) (b : Buffer) :
  GenerateDSN utf8 envelope mtaInfo rcptsInfo failedHeader b =
  ({| contents :=
        contents b
        ++ fst (reportBytes utf8 textproto_randomBoundary mtaInfo rcptsInfo failedHeader) |},
   (match snd (machinePartBytes utf8 textproto_randomBoundary mtaInfo rcptsInfo) with
    | Done _ => reportHeader envelope textproto_randomBoundary
    | _ => []
    end,
    snd (reportBytes utf8 textproto_randomBoundary mtaInfo rcptsInfo failedHeader))).
Proof.
  destruct b as [b]. unfold GenerateDSN, assemble, reportBytes. cbn [contents].
  rewrite writeHumanReadablePart_Buffer, writeMachineReadablePart_Buffer.
  destruct (machinePartBytes utf8 textproto_randomBoundary mtaInfo rcptsInfo)
    as [machine [[]|e|p]]; cbn [fst snd].
  - rewrite writeHeader_Buffer, Close_openPart. cbn [fst mw_w].
    unfold Boundary, NewMultipartWriter. cbn [mw_boundary].
    now rewrite !append_assoc.
  - rewrite Close_openPart. cbn [fst mw_w]. now rewrite !append_assoc.
  - rewrite Close_openPart. cbn [fst mw_w]. now rewrite !append_assoc.
Qed.

Lemma writeHumanReadablePart_no_panic {W : Type} {WW : Writer W}
  (w : MultipartWriter W) (mtaInfo : ReportingMTAInfo) (rcptsInfo : list RecipientInfo)
  (reason : string) :
  snd (writeHumanReadablePart w mtaInfo rcptsInfo) <> Panicked reason.
Proof.
  unfold writeHumanReadablePart, andThen, returned.
  destruct (CreatePart w humanHeader) as [w1 [e1|]]; cbn [fst snd]; [discriminate|].
  destruct (failedText_Execute w1 (truncated mtaInfo)) as [w2 [e2|]]; cbn [fst snd];
    [discriminate|].
  destruct (writeAll w2 (map deliveryLine rcptsInfo)) as [w3 [e3|]]; cbn [fst snd];
    discriminate.
Qed.

Lemma writeMachineReadablePart_empty_reportingMTA {W : Type} {WW : Writer W}
  (utf8 : bool) (w : MultipartWriter W) (mtaInfo : ReportingMTAInfo)
  (rcptsInfo : list RecipientInfo) :
  ReportingMTA mtaInfo = "" ->
  exists e, snd (writeMachineReadablePart utf8 w mtaInfo rcptsInfo) = Failed e.
Proof.
  intros H. unfold writeMachineReadablePart, andThen, returned, ReportingMTAInfo_WriteTo,
    ReportingMTAInfo_header.
  rewrite H. cbn [String.eqb writeBuilt].
  destruct (CreatePart w (machineHeader utf8)) as [w1 [e1|]]; cbn [fst snd];
    eexists; reflexivity.
Qed.

(** C1, as the code has it.  A call of [GenerateDSN] whose reporting-MTA
    record names no reporting MTA returns an error and the empty header,
    whatever the output writer does.  On a writer that takes every write (an
    in-memory buffer) the error is the validation error, and the writer has
    by then received the human-readable part, the opening of the
    machine-readable part and the closing delimiter: the output has grown. *)
Theorem GenerateDSN_empty_reportingMTA (utf8 : bool) (envelope : Envelope)
  (mtaInfo : ReportingMTAInfo) (rcptsInfo : list RecipientInfo) (failedHeader : Header) :
  ReportingMTA mtaInfo = "" ->
  (forall (W : Type) (WW : Writer W) (outWriter : W),
     exists e,
       snd (GenerateDSN utf8 envelope mtaInfo rcptsInfo failedHeader outWriter)
       = ([], Failed e))
  /\ (forall b : Buffer,
      GenerateDSN utf8 envelope mtaInfo rcptsInfo failedHeader b =
      ({| contents :=
            contents b
            ++ humanPartBytes textproto_randomBoundary mtaInfo rcptsInfo
            ++ nextPartBytes textproto_randomBoundary (machineHeader utf8)
            ++ closingBytes textproto_randomBoundary |},
       ([], Failed (errorString "dsn: Reporting-MTA field is mandatory")))
      /\ (String.length (contents b)
          < String.length
              (contents (fst (GenerateDSN utf8 envelope mtaInfo rcptsInfo failedHeader b))))%nat).
Proof.
  intros H. split.
  - intros W WW outWriter. unfold GenerateDSN, assemble.
    pose proof (writeHumanReadablePart_no_panic (NewMultipartWriter outWriter)
                  mtaInfo rcptsInfo) as Hp.
    destruct (writeHumanReadablePart (NewMultipartWriter outWriter) mtaInfo rcptsInfo)
      as [pw [[]|e|p]]; cbn [snd] in *.
    + destruct (writeMachineReadablePart_empty_reportingMTA utf8 pw mtaInfo rcptsInfo H)
        as [e He].
      destruct (writeMachineReadablePart utf8 pw mtaInfo rcptsInfo) as [pw' end_].
      cbn [snd] in He. subst end_. now exists e.
    + now exists e.
    + exfalso. now apply (Hp p).
  - intros b.
    assert (Hg : GenerateDSN utf8 envelope mtaInfo rcptsInfo failedHeader b =
      ({| contents :=
            contents b
            ++ humanPartBytes textproto_randomBoundary mtaInfo rcptsInfo
            ++ nextPartBytes textproto_randomBoundary (machineHeader utf8)
            ++ closingBytes textproto_randomBoundary |},
       ([], Failed (errorString "dsn: Reporting-MTA field is mandatory")))).
    { rewrite GenerateDSN_Buffer. unfold reportBytes, machinePartBytes, ReportingMTAInfo_header.
      rewrite H. reflexivity. }
    split; [exact Hg|]. rewrite Hg. cbn [fst contents].
    rewrite length_append. unfold humanPartBytes. cbn [append String.length]. lia.
Qed.

Lemma recipientsBytes_Done (utf8 : bool) (label : string) (rcptsInfo : list RecipientInfo) :
  snd (recipientsBytes utf8 label rcptsInfo) = Done tt ->
  fst (recipientsBytes utf8 label rcptsInfo)
  = joined (map (fun rcpt => blockBytes (rcptFields utf8 (labelled rcpt label))) rcptsInfo).
Proof.
  induction rcptsInfo as [|rcpt rest IH]; cbn [recipientsBytes map joined fold_right fst snd];
    [reflexivity|].
  destruct (RecipientInfo_header utf8 (labelled rcpt label)) as [h|e|p] eqn:Eh;
    cbn [snd]; try discriminate.
  apply RecipientInfo_header_Done in Eh. destruct Eh as (_ & _ & _ & _ & _ & _ & ->).
  destruct (blockRefusal (rcptFields utf8 (labelled rcpt label))); [discriminate|].
  destruct (recipientsBytes utf8 label rest) as [bytes end_]. cbn [fst snd] in *.
  intros He. now rewrite (IH He).
Qed.

(** A report written in full. *)
Lemma GenerateDSN_whole (utf8 : bool) (envelope : Envelope) (mtaInfo : ReportingMTAInfo)
  (rcptsInfo : list RecipientInfo) (failedHeader : Header) (b : Buffer) :
  snd (snd (GenerateDSN utf8 envelope mtaInfo rcptsInfo failedHeader b)) = Done tt ->
  contents (fst (GenerateDSN utf8 envelope mtaInfo rcptsInfo failedHeader b))
  = contents b ++ wholeReportBytes utf8 textproto_randomBoundary mtaInfo rcptsInfo failedHeader.
Proof.
  rewrite GenerateDSN_Buffer. unfold reportBytes, machinePartBytes, wholeReportBytes.
  destruct (ReportingMTAInfo_header utf8 mtaInfo) as [h|e|p] eqn:Eh;
    cbn [fst snd]; try discriminate.
  apply ReportingMTAInfo_header_Done in Eh. destruct Eh as (_ & _ & _ & _ & ->).
  destruct (blockRefusal (mtaFields utf8 mtaInfo)); cbn [fst snd]; [discriminate|].
  pose proof (recipientsBytes_Done utf8 (effectiveXMTAName mtaInfo) rcptsInfo) as Hr.
  destruct (recipientsBytes utf8 (effectiveXMTAName mtaInfo) rcptsInfo) as [bytes [[]|e|p]];
    cbn [fst snd] in *; try discriminate.
  intros _. rewrite (Hr eq_refl). now rewrite !append_assoc.
Qed.

(** C8.  One family of tags serves a whole report, and the flag [utf8]
    alone chooses it: the content type of the machine-readable part, that of
    the part with the original headers, and the tag of the two address
    fields (the sender of the reporting-MTA block, under the name the header
    keeps for X-<label>-Sender, and the final recipient of every recipient
    block) are those of [familyOf utf8].  The two families share none of the
    three.  A report written in full to a buffer is made of the parts and
    blocks of that one flag. *)
Theorem one_encoding_family (utf8 : bool) :
  Header_Get (machineHeader utf8) "Content-Type" = machineType (familyOf utf8)
  /\ Header_Get (headersPartHeader utf8) "Content-Type" = headersType (familyOf utf8)
  /\ (forall (info : ReportingMTAInfo) (h : Header) (v : string),
      ReportingMTAInfo_header utf8 info = Done h ->
      In (CanonicalMIMEHeaderKey (xHeaderPrefix (XMTAName info) ++ "-Sender"), v) h ->
      v = addressFieldTag (familyOf utf8) ++ "; " ++ fst (addrSelectIDNA utf8 (XSender info)))
  /\ (forall (info : RecipientInfo) (h : Header) (v : string),
      RecipientInfo_header utf8 info = Done h ->
      In ("Final-Recipient", v) h ->
      v = addressFieldTag (familyOf utf8) ++ "; "
          ++ fst (addrSelectIDNA utf8 (FinalRecipient info)))
  /\ machineType utf8Family <> machineType asciiFamily
  /\ headersType utf8Family <> headersType asciiFamily
  /\ addressFieldTag utf8Family <> addressFieldTag asciiFamily
  /\ (forall (envelope : Envelope) (mtaInfo : ReportingMTAInfo)
        (rcptsInfo : list RecipientInfo) (failedHeader : Header) (b : Buffer),
      snd (snd (GenerateDSN utf8 envelope mtaInfo rcptsInfo failedHeader b)) = Done tt ->
      contents (fst (GenerateDSN utf8 envelope mtaInfo rcptsInfo failedHeader b))
      = contents b
        ++ wholeReportBytes utf8 textproto_randomBoundary mtaInfo rcptsInfo failedHeader).
Proof.
  split; [now destruct utf8|]. split; [now destruct utf8|].
  split; [|split; [|split; [discriminate|split; [discriminate|split; [discriminate|]]]]];
    [| |intros envelope mtaInfo rcptsInfo failedHeader b; apply GenerateDSN_whole].
  - intros info h v H Hin.
    apply ReportingMTAInfo_header_Done in H. destruct H as (_ & _ & _ & _ & ->).
    unfold mtaFields, optional, xHeaderPrefix in Hin.
    rewrite CanonicalMIMEHeaderKey_Sender, CanonicalMIMEHeaderKey_MsgID in Hin.
    set (c := CanonicalMIMEHeaderKey _) in *. set (valid := forallb _ _) in *.
    clearbody c valid.
    cbn [append] in Hin.
    repeat (apply in_app_or in Hin; destruct Hin as [Hin|Hin]);
      repeat match goal with
        | H : In _ (if ?b then _ else _) |- _ => destruct b; [|contradiction]
        | H : In _ [_] |- _ => destruct H as [H|[]]
        end;
      try discriminate Hin.
    + apply (f_equal snd) in Hin. cbn [snd] in Hin. subst v.
      unfold addressTag. now destruct utf8.
    + exfalso. apply (f_equal fst) in Hin. cbn [fst] in Hin.
      injection Hin as Hk. apply append_inj_l in Hk. destruct valid; discriminate Hk.
  - intros info h v H Hin.
    apply RecipientInfo_header_Done in H. destruct H as (_ & _ & _ & _ & _ & _ & ->).
    unfold rcptFields, diagnosticFields, optional in Hin.
    apply in_app_or in Hin. destruct Hin as [Hin|Hin].
    + destruct Hin as [Hin|Hin];
        [apply (f_equal snd) in Hin; cbn [snd] in Hin; subst v; unfold addressTag;
         now destruct utf8|].
      repeat (destruct Hin as [Hin|Hin]; [discriminate Hin|]). contradiction.
    + exfalso. apply in_app_or in Hin. destruct Hin as [Hin|Hin].
      * destruct (DiagnosticCode info) as [[| | | |]|], utf8; cbn in Hin;
          try contradiction; destruct Hin as [Hin|[]]; discriminate Hin.
      * destruct (negb (String.eqb (RemoteMTA info) "")); [|contradiction].
        destruct Hin as [Hin|[]]. discriminate Hin.
Qed.

End GenerateProperties.

(** ** SendDSN *)

Section SendProperties.
Context {U : GoUnicode} {X : XText} {T : GoTime} {G : GoMessage} {R : Relay}.

Lemma GenerateDSN_header {W : Type} {WW : Writer W} (utf8 : bool) (envelope : Envelope)
  (mtaInfo : ReportingMTAInfo) (rcptsInfo : list RecipientInfo) (failedHeader : Header)
  (outWriter : W) (h : Header) :
  snd (GenerateDSN utf8 envelope mtaInfo rcptsInfo failedHeader outWriter) = (h, Done tt) ->
  h = reportHeader envelope textproto_randomBoundary.
Proof.
  unfold GenerateDSN, assemble.
  destruct (writeHumanReadablePart (NewMultipartWriter outWriter) mtaInfo rcptsInfo)
    as [pw [[]|e|p]]; cbn [snd]; try discriminate.
  destruct (writeMachineReadablePart utf8 pw mtaInfo rcptsInfo) as [pw' [[]|e|p]];
    cbn [snd]; try discriminate.
  destruct (writeHeader utf8 pw' failedHeader) as [pw'' r]. cbn [snd].
  now intros [= <- _].
Qed.

Lemma reportHeader_From (envelope : Envelope) (boundary : string) :
  Header_Get (reportHeader envelope boundary) "From" = From envelope.
Proof. reflexivity. Qed.

Lemma reportHeader_MessageId (envelope : Envelope) (boundary : string) :
  Header_Get (reportHeader envelope boundary) "Message-Id" = MsgID envelope.
Proof. reflexivity. Qed.

(** A property [Q] of the calls made so far that survives every further
    call satisfying [ok] survives the steps of a session. *)
Section Invariant.
Variable Q : list call -> Prop.
Variable ok : call -> Prop.
Hypothesis Q_step : forall past c, Q past -> ok c -> Q (past ++ [c])%list.

Lemma perform_inv (past : list call) (c : call) :
  Q past -> ok c -> Q (fst (perform past c)).
Proof. intros Hp Hc. cbn [perform fst]. now apply Q_step. Qed.

Lemma andThen_inv {A B : Type} (r : list call * outcome A)
  (k : list call -> list call * outcome B) :
  Q (fst r) ->
  (forall past, Q past -> Q (fst (k past))) ->
  Q (fst (andThen r k)).
Proof.
  destruct r as [past [a|e|p]]; cbn [andThen fst]; intros Hr Hk; [now apply Hk | exact Hr..].
Qed.

Lemma rcptAll_inv (past : list call) (rcptsInfo : list RecipientInfo) :
  (forall to, ok (Rcpt to)) -> Q past -> Q (fst (rcptAll past rcptsInfo)).
Proof.
  intros Hr. revert past. induction rcptsInfo as [|r rest IH]; intros past Hp;
    cbn [rcptAll fst]; [exact Hp|].
  apply andThen_inv; [now apply perform_inv | exact IH].
Qed.

Lemma closingOnError_inv (r : list call * outcome unit) :
  ok DataClose -> Q (fst r) -> Q (fst (closingOnError r)).
Proof.
  intros Hc. destruct r as [past [[]|e|p]]; cbn [closingOnError fst]; intros Hp;
    [exact Hp | now apply perform_inv..].
Qed.

(** From [Mail] on. *)
Lemma session_tail_inv (past : list call) (hdr : Header) (bodyBuf : Buffer)
  (rcptsInfo : list RecipientInfo) :
  (forall to, ok (Rcpt to)) -> ok Data -> ok (DataWriteHeader hdr) ->
  ok (DataWriteBody (contents bodyBuf)) -> ok DataClose ->
  Q past ->
  Q (fst (past <~ rcptAll past rcptsInfo ;;
          past <~ perform past Data ;;
          past <~ closingOnError (perform past (DataWriteHeader hdr)) ;;
          past <~ closingOnError (perform past (DataWriteBody (contents bodyBuf))) ;;
          perform past DataClose)).
Proof.
  intros Hr Hd Hh Hb Hc Hp.
  apply andThen_inv; [now apply rcptAll_inv|]. clear past Hp. intros past Hp.
  apply andThen_inv; [now apply perform_inv|]. clear past Hp. intros past Hp.
  apply andThen_inv; [apply closingOnError_inv; [exact Hc | now apply perform_inv]|].
  clear past Hp. intros past Hp.
  apply andThen_inv; [apply closingOnError_inv; [exact Hc | now apply perform_inv]|].
  clear past Hp. intros past Hp.
  now apply perform_inv.
Qed.

Lemma session_inv (past : list call) (hdr : Header) (bodyBuf : Buffer)
  (rcptsInfo : list RecipientInfo) :
  ok (Hello "bla") -> ok (Mail "<>") ->
  (forall to, ok (Rcpt to)) -> ok Data -> ok (DataWriteHeader hdr) ->
  ok (DataWriteBody (contents bodyBuf)) -> ok DataClose ->
  Q past -> Q (fst (session past hdr bodyBuf rcptsInfo)).
Proof.
  intros Hhello Hmail Hr Hd Hh Hb Hc Hp. unfold session.
  apply andThen_inv; [now apply perform_inv|]. clear past Hp. intros past Hp.
  apply andThen_inv; [now apply perform_inv|]. clear past Hp. intros past Hp.
  now apply session_tail_inv.
Qed.

End Invariant.

Lemma session_wellAddressed (past : list call) (hdr : Header) (bodyBuf : Buffer)
  (rcptsInfo : list RecipientInfo) :
  Forall (wellAddressed hdr) past ->
  Forall (wellAddressed hdr) (fst (session past hdr bodyBuf rcptsInfo)).
Proof.
  apply (session_inv (Forall (wellAddressed hdr)) (wellAddressed hdr));
    try exact I; try reflexivity.
  intros p c Hp Hc. apply Forall_app. split; [exact Hp | now constructor].
Qed.

(** The calls of [SendDSN] are those of a session that sends the header
    generated for the envelope with the forced sender. *)
Lemma SendDSN_wellAddressed (smtpaddr : string) (utf8 : bool) (envelope : Envelope)
  (mtaInfo : ReportingMTAInfo) (rcptsInfo : list RecipientInfo) (failedHeader : Header) :
  Forall (wellAddressed
            (reportHeader {| MsgID := MsgID envelope; From := mailerDaemon; To := To envelope |}
                          textproto_randomBoundary))
         (fst (SendDSN smtpaddr utf8 envelope mtaInfo rcptsInfo failedHeader)).
Proof.
  unfold SendDSN.
  pose proof (GenerateDSN_header utf8
                {| MsgID := MsgID envelope; From := mailerDaemon; To := To envelope |}
                mtaInfo rcptsInfo failedHeader {| contents := "" |}) as Hh.
  destruct (GenerateDSN utf8 _ mtaInfo rcptsInfo failedHeader {| contents := "" |})
    as [bodyBuf [hdr [[]|e|p]]]; cbn [fst snd] in *; try constructor.
  rewrite <- (Hh hdr eq_refl).
  destruct (relay_fails [] (Dial smtpaddr)) eqn:Ed; unfold perform at 1; rewrite Ed.
  - cbn [fst app]. repeat constructor.
  - assert (Hs := session_wellAddressed ([] ++ [Dial smtpaddr])%list hdr bodyBuf rcptsInfo).
    destruct (session ([] ++ [Dial smtpaddr])%list hdr bodyBuf rcptsInfo) as [past r].
    cbn [fst] in *. cbn [perform fst]. apply Forall_app. split; [|now repeat constructor].
    apply Hs. repeat constructor.
Qed.

(** Once the report is generated and the relay has taken [Dial] and
    [Hello], the MAIL command is among the calls. *)
Lemma SendDSN_issues_Mail (smtpaddr : string) (utf8 : bool) (envelope : Envelope)
  (mtaInfo : ReportingMTAInfo) (rcptsInfo : list RecipientInfo) (failedHeader : Header) :
  snd (snd (GenerateDSN utf8
              {| MsgID := MsgID envelope; From := mailerDaemon; To := To envelope |}
              mtaInfo rcptsInfo failedHeader {| contents := "" |})) = Done tt ->
  relay_fails [] (Dial smtpaddr) = None ->
  relay_fails [Dial smtpaddr] (Hello "bla") = None ->
  In (Mail "<>") (fst (SendDSN smtpaddr utf8 envelope mtaInfo rcptsInfo failedHeader)).
Proof.
  intros Hg Hd Hh. unfold SendDSN.
  destruct (GenerateDSN utf8 _ mtaInfo rcptsInfo failedHeader {| contents := "" |})
    as [bodyBuf [hdr end_]]. cbn [snd] in Hg. subst end_.
  unfold perform at 1. rewrite Hd. cbn [app].
  assert (Hs : In (Mail "<>") (fst (session [Dial smtpaddr] hdr bodyBuf rcptsInfo))).
  { unfold session. unfold perform at 1. rewrite Hh. cbn [andThen app].
    apply andThen_inv with (Q := In (Mail "<>")) (r := perform _ (Mail "<>")).
    - cbn [perform fst]. apply in_or_app. right. now left.
    - intros past Hp.
      apply (session_tail_inv (In (Mail "<>")) (fun _ => True));
        try (intros; exact I);
        [intros p c Hin _; apply in_or_app; now left | exact Hp]. }
  destruct (session [Dial smtpaddr] hdr bodyBuf rcptsInfo) as [past r].
  cbn [fst] in *. cbn [perform fst]. apply in_or_app. now left.
Qed.

(** When the relay takes the recipients [rcptsInfo] and then the calls
    [cs], the loop over the recipients makes one RCPT call each and goes
    on. *)
Lemma rcptAll_accepted (past : list call) (rcptsInfo : list RecipientInfo) (cs : list call) :
  accepted past (map (fun rcpt => Rcpt (FinalRecipient rcpt)) rcptsInfo ++ cs)%list ->
  rcptAll past rcptsInfo
  = ((past ++ map (fun rcpt => Rcpt (FinalRecipient rcpt)) rcptsInfo)%list, Done tt)
  /\ accepted (past ++ map (fun rcpt => Rcpt (FinalRecipient rcpt)) rcptsInfo)%list cs.
Proof.
  revert past. induction rcptsInfo as [|r rest IH]; intros past; cbn [map app accepted rcptAll].
  - rewrite app_nil_r. now split.
  - intros [Hr Ha]. unfold perform. rewrite Hr. cbn [andThen].
    destruct (IH _ Ha) as [IH1 IH2].
    change (Rcpt (FinalRecipient r) :: map (fun rcpt => Rcpt (FinalRecipient rcpt)) rest)
      with ([Rcpt (FinalRecipient r)]
            ++ map (fun rcpt => Rcpt (FinalRecipient rcpt)) rest)%list.
    rewrite app_assoc. now split.
Qed.

(** Once the relay has taken the session up to [Data], the header is
    written to the stream. *)
Lemma session_writes_header (past : list call) (hdr : Header) (bodyBuf : Buffer)
  (rcptsInfo : list RecipientInfo) :
  accepted past
    (app [Hello "bla"; Mail "<>"]
         (app (map (fun rcpt => Rcpt (FinalRecipient rcpt)) rcptsInfo) [Data])) ->
  In (DataWriteHeader hdr) (fst (session past hdr bodyBuf rcptsInfo)).
Proof.
  cbn [app accepted]. intros (Hh & Hm & Ha). unfold session.
  unfold perform at 1. rewrite Hh. cbn [andThen].
  unfold perform at 1. rewrite Hm. cbn [andThen].
  destruct (rcptAll_accepted _ rcptsInfo [Data] Ha) as [Hr [Hd _]]. rewrite Hr.
  cbn [andThen]. unfold perform at 1. rewrite Hd. cbn [andThen].
  assert (Hstep : forall past c, In (DataWriteHeader hdr) past -> True ->
                    In (DataWriteHeader hdr) (past ++ [c])%list)
    by (intros p c Hin _; apply in_or_app; now left).
  apply andThen_inv.
  - unfold closingOnError, perform.
    destruct (relay_fails _ (DataWriteHeader hdr)); cbn [fst];
      [apply Hstep; [|exact I]|]; apply in_or_app; right; now left.
  - intros p Hp. apply andThen_inv.
    + apply (closingOnError_inv _ (fun _ => True) Hstep); [exact I|].
      now apply (perform_inv _ (fun _ => True) Hstep).
    + intros p' Hp'. now apply (perform_inv _ (fun _ => True) Hstep).
Qed.

(** C10.  Whatever sender the caller put in the envelope, [SendDSN]
    generates the report for the sender [MAILER-DAEMON (Mail Delivery
    System)]: the calls and the result do not depend on the caller's From;
    when the generation for that sender fails or panics, so does [SendDSN],
    without a call to the relay; when it succeeds and the relay takes the
    session up to [Data], the header written to the relay is the one
    generated for that sender, the report header with that From value; and
    every header it writes to the relay has that From value.  Every MAIL
    command it issues names the null sender, and it issues one once the
    report is generated and the relay has taken [Dial] and [Hello]. *)
Theorem SendDSN_sender (smtpaddr : string) (utf8 : bool) (envelope : Envelope)
  (mtaInfo : ReportingMTAInfo) (rcptsInfo : list RecipientInfo) (failedHeader : Header) :
  (forall h,
     In (DataWriteHeader h) (fst (SendDSN smtpaddr utf8 envelope mtaInfo rcptsInfo failedHeader)) ->
     Header_Get h "From" = "MAILER-DAEMON (Mail Delivery System)")
  /\ (forall from,
      In (Mail from) (fst (SendDSN smtpaddr utf8 envelope mtaInfo rcptsInfo failedHeader)) ->
      from = "<>")
  /\ (forall from',
      SendDSN smtpaddr utf8 {| MsgID := MsgID envelope; From := from'; To := To envelope |}
              mtaInfo rcptsInfo failedHeader
      = SendDSN smtpaddr utf8 envelope mtaInfo rcptsInfo failedHeader)
  /\ (snd (snd (GenerateDSN utf8
                  {| MsgID := MsgID envelope;
                     From := "MAILER-DAEMON (Mail Delivery System)";
                     To := To envelope |}
                  mtaInfo rcptsInfo failedHeader {| contents := "" |})) = Done tt ->
      relay_fails [] (Dial smtpaddr) = None ->
      relay_fails [Dial smtpaddr] (Hello "bla") = None ->
      In (Mail "<>") (fst (SendDSN smtpaddr utf8 envelope mtaInfo rcptsInfo failedHeader)))
  /\ (forall failure,
      snd (snd (GenerateDSN utf8
                  {| MsgID := MsgID envelope;
                     From := "MAILER-DAEMON (Mail Delivery System)";
                     To := To envelope |}
                  mtaInfo rcptsInfo failedHeader {| contents := "" |})) = failure ->
      failure <> Done tt ->
      SendDSN smtpaddr utf8 envelope mtaInfo rcptsInfo failedHeader = ([], failure))
  /\ (snd (snd (GenerateDSN utf8
                  {| MsgID := MsgID envelope;
                     From := "MAILER-DAEMON (Mail Delivery System)";
                     To := To envelope |}
                  mtaInfo rcptsInfo failedHeader {| contents := "" |})) = Done tt ->
      accepted []
        (app [Dial smtpaddr; Hello "bla"; Mail "<>"]
             (app (map (fun rcpt => Rcpt (FinalRecipient rcpt)) rcptsInfo) [Data])) ->
      In (DataWriteHeader
            (fst (snd (GenerateDSN utf8
                         {| MsgID := MsgID envelope;
                            From := "MAILER-DAEMON (Mail Delivery System)";
                            To := To envelope |}
                         mtaInfo rcptsInfo failedHeader {| contents := "" |}))))
         (fst (SendDSN smtpaddr utf8 envelope mtaInfo rcptsInfo failedHeader))
      /\ fst (snd (GenerateDSN utf8
                     {| MsgID := MsgID envelope;
                        From := "MAILER-DAEMON (Mail Delivery System)";
                        To := To envelope |}
                     mtaInfo rcptsInfo failedHeader {| contents := "" |}))
         = reportHeader {| MsgID := MsgID envelope;
                           From := "MAILER-DAEMON (Mail Delivery System)";
                           To := To envelope |} textproto_randomBoundary
      /\ Header_Get (reportHeader {| MsgID := MsgID envelope;
                                     From := "MAILER-DAEMON (Mail Delivery System)";
                                     To := To envelope |} textproto_randomBoundary) "From"
         = "MAILER-DAEMON (Mail Delivery System)").
Proof.
  pose proof (SendDSN_wellAddressed smtpaddr utf8 envelope mtaInfo rcptsInfo failedHeader)
    as Hw.
  rewrite Forall_forall in Hw.
  split; [|split; [|split; [|split; [|split]]]].
  - intros h Hin. apply Hw in Hin. unfold wellAddressed in Hin. subst h.
    apply reportHeader_From.
  - intros from Hin. apply Hw in Hin. exact Hin.
  - intros from'. reflexivity.
  - apply SendDSN_issues_Mail.
  - intros failure Hg Hn. unfold SendDSN, mailerDaemon.
    destruct (GenerateDSN utf8 _ mtaInfo rcptsInfo failedHeader {| contents := "" |})
      as [bodyBuf [hdr end_]]. cbn [snd] in Hg. subst end_.
    destruct failure as [[]|e|p]; [now contradiction Hn | reflexivity..].
  - intros Hg Ha.
    pose proof (GenerateDSN_header utf8
                  {| MsgID := MsgID envelope; From := mailerDaemon; To := To envelope |}
                  mtaInfo rcptsInfo failedHeader {| contents := "" |}) as Hh.
    unfold SendDSN, mailerDaemon in *.
    destruct (GenerateDSN utf8 _ mtaInfo rcptsInfo failedHeader {| contents := "" |})
      as [bodyBuf [hdr end_]]. cbn [fst snd] in *. subst end_.
    split; [|split; [now apply Hh | apply reportHeader_From]].
    cbn [app accepted] in Ha. destruct Ha as [Hd Ha].
    unfold perform at 1. rewrite Hd. cbn [app].
    pose proof (session_writes_header [Dial smtpaddr] hdr bodyBuf rcptsInfo Ha) as Hs.
    destruct (session [Dial smtpaddr] hdr bodyBuf rcptsInfo) as [past r].
    cbn [fst] in *. cbn [perform fst]. apply in_or_app. now left.
Qed.

End SendProperties.

(** ** More on split: addresses with an at-sign *)

Ltac to_Z :=
  repeat match goal with
    | H : (_ <? _) = true |- _ => apply Z.ltb_lt in H
    | H : (_ <? _) = false |- _ => apply Z.ltb_ge in H
    | H : (_ <=? _) = true |- _ => apply Z.leb_le in H
    | H : (_ <=? _) = false |- _ => apply Z.leb_gt in H
    | H : (_ =? _) = true |- _ => apply Z.eqb_eq in H
    | H : (_ =? _) = false |- _ => apply Z.eqb_neq in H
    | H : (_ || _) = false |- _ => apply orb_false_iff in H; destruct H
    | H : (_ || _) = true |- _ => apply orb_true_iff in H
    end.

(** An ASCII byte decodes to itself, with width 1; a longer sequence is made
    of a first byte and bytes that are not ASCII. *)
Lemma DecodeRuneInString_width (c0 : ascii) (t0 : string) :
  (byte c0 < 0x80 -> DecodeRuneInString (String c0 t0) = (byte c0, 1%nat))
  /\ (1 <= snd (DecodeRuneInString (String c0 t0)))%nat
  /\ highPrefix (snd (DecodeRuneInString (String c0 t0)) - 1) t0.
Proof.
  pose proof (byte_range c0) as Hr.
  unfold DecodeRuneInString.
  set (s0 := byte c0) in *. clearbody s0.
  unfold first, utf8_as, utf8_xx.
  destruct (s0 <? 128) eqn:E0.
  { cbn. repeat split; lia. }
  apply Z.ltb_ge in E0.
  split; [lia|].
  unfold acceptRanges, locb, hicb.
  repeat match goal with
    | |- context [if s0 <? ?k then _ else _] => destruct (s0 <? k) eqn:?
    | |- context [if s0 =? ?k then _ else _] => destruct (s0 =? k) eqn:?
    end;
    change (Z.land 2 7) with 2; change (Z.land 19 7) with 3; change (Z.land 3 7) with 3;
    change (Z.land 35 7) with 3; change (Z.land 52 7) with 4; change (Z.land 4 7) with 4;
    change (Z.land 68 7) with 4;
    change (Z.shiftr 2 4) with 0; change (Z.shiftr 19 4) with 1; change (Z.shiftr 3 4) with 0;
    change (Z.shiftr 35 4) with 2; change (Z.shiftr 52 4) with 3; change (Z.shiftr 4 4) with 0;
    change (Z.shiftr 68 4) with 4;
    cbn [Z.eqb Z.leb Z.ltb Z.compare Pos.compare Pos.compare_cont Pos.eqb fst snd];
    repeat (first
      [ match goal with
        | |- context [if ?b then _ else _] => destruct b eqn:?
        end
      | match goal with
        | |- context [match ?t with EmptyString => _ | String _ _ => _ end] => destruct t
        end
      | progress cbn [fst snd] ]);
    to_Z; cbn [snd Nat.sub highPrefix]; repeat split; try lia.
Qed.

(** An ASCII byte of a string is one of the runes a [range] loop sees. *)
Lemma runes_from_ASCII_byte (c : ascii) (s : string) (skip : nat) :
  byte c < 0x80 -> highPrefix skip s -> occurs c s -> In (byte c) (runes_from skip s).
Proof.
  intros Hc. unfold occurs. revert skip.
  induction s as [|a t IH]; intros skip Hp Ho; [destruct Ho|].
  cbn [list_ascii_of_string] in Ho. cbn [runes_from].
  destruct skip as [|k].
  - destruct (DecodeRuneInString_width a t) as (Ha & _ & Hh).
    destruct (DecodeRuneInString (String a t)) as [r size] eqn:Ed. cbn [snd] in Hh.
    destruct Ho as [->|Ho].
    + specialize (Ha Hc). inversion Ha; subst. now left.
    + right. now apply IH.
  - cbn [highPrefix] in Hp. destruct Hp as [Hb Hp].
    destruct Ho as [->|Ho]; [lia|]. now apply IH.
Qed.

Section MoreSplit.
Context {U : GoUnicode}.

Lemma equalFoldRunes_letters (s t : list rune) :
  Forall (fun r => 97 <= r <= 122) t -> equalFoldRunes s t = true -> ~ In 64 s.
Proof.
  intros Ht. revert s. induction Ht as [|tr t Htr Ht IH]; intros [|sr s]; cbn [equalFoldRunes];
    try discriminate; [intros _ []|].
  intros H. apply andb_true_iff in H. destruct H as [Hr Hs].
  intros [->|Hin]; [|now apply (IH s)].
  unfold equalFoldRune, RuneSelf in Hr.
  destruct (tr =? 64) eqn:E; [apply Z.eqb_eq in E; lia|].
  replace (Z.min 64 tr) with 64 in Hr by lia. replace (Z.max 64 tr) with tr in Hr by lia.
  destruct (tr <? 128) eqn:E2; [discriminate Hr|]. apply Z.ltb_ge in E2. lia.
Qed.

(** An address with an at-sign is never the postmaster token. *)
Lemma EqualFold_postmaster_no_at (addr : string) :
  occurs "@" addr -> EqualFold addr "postmaster" = false.
Proof.
  intros Ho. destruct (EqualFold addr "postmaster") eqn:E; [exfalso|reflexivity].
  unfold EqualFold in E.
  apply (equalFoldRunes_letters (runes addr) (runes "postmaster")); [|exact E|].
  - repeat constructor; cbv; discriminate.
  - apply (runes_from_ASCII_byte "@" addr 0); [reflexivity | exact I | exact Ho].
Qed.

(** The postmaster token is not empty. *)
Lemma EqualFold_postmaster_nonempty (addr : string) :
  EqualFold addr "postmaster" = true -> addr <> "".
Proof. intros H ->. discriminate H. Qed.

Lemma split_empty_domain (addr mbox : string) :
  split addr = (mbox, "", None) -> EqualFold addr "postmaster" = true /\ mbox = addr.
Proof.
  unfold split. destruct (EqualFold addr "postmaster").
  - now intros [= <-].
  - destruct (LastIndexByte addr "@" =? -1); [discriminate|].
    destruct (String.eqb (slice_to addr _) ""); [discriminate|].
    destruct (String.eqb (slice_from addr _) "") eqn:Ed; [discriminate|].
    intros [= _ Hd]. rewrite Hd in Ed. discriminate Ed.
Qed.

(** What comes out of [split] puts the address together again.  A
    successful split returns a local-part that is not empty and a domain
    without at-sign; the address is the local-part alone when the domain is
    empty (the postmaster token) and local-part, at-sign, domain otherwise,
    so the local-part keeps every earlier at-sign.  A failed split returns
    two empty strings and one of the three malformed-address errors. *)
Theorem split_round_trip (addr mbox domain : string) (err : option error) :
  split addr = (mbox, domain, err) ->
  match err with
  | None =>
    addr = (if String.eqb domain "" then mbox else mbox ++ "@" ++ domain)
    /\ mbox <> "" /\ ~ occurs "@" domain
    /\ (domain = "" <-> EqualFold addr "postmaster" = true)
  | Some e => mbox = "" /\ domain = "" /\ malformedAddress e
  end.
Proof.
  destruct err as [e|].
  - unfold split.
    destruct (EqualFold addr "postmaster"); [discriminate|].
    destruct (LastIndexByte addr "@" =? -1);
      [intros [= <- <- <-]; repeat split; now left|].
    destruct (String.eqb (slice_to addr _) "");
      [intros [= <- <- <-]; repeat split; right; now left|].
    destruct (String.eqb (slice_from addr _) ""); [|discriminate].
    intros [= <- <- <-]. repeat split. right. now right.
  - intros Hs. destruct (String.eqb domain "") eqn:Ed.
    + apply String.eqb_eq in Ed. subst domain.
      destruct (split_empty_domain addr mbox Hs) as [Hf ->].
      split; [reflexivity|]. split; [now apply EqualFold_postmaster_nonempty|].
      split; [intros []|]. now split.
    + apply String.eqb_neq in Ed.
      destruct (split_cut addr mbox domain Hs Ed) as (Ha & Ho & Hm & Hf).
      split; [exact Ha|]. split; [exact Hm|]. split; [exact Ho|].
      split; [intros Hd; now contradiction Ed | intros Ht; congruence].
Qed.

Lemma split_with_at (l d : string) :
  ~ occurs "@" d ->
  split (l ++ "@" ++ d) =
    if String.eqb l "" then ("", "", Some (errorString "address: empty local-part"))
    else if String.eqb d "" then ("", "", Some (errorString "address: empty domain"))
    else (l, d, None).
Proof.
  intros Hd. apply split_at; [|reflexivity | exact Hd].
  apply EqualFold_postmaster_no_at. unfold occurs.
  induction l as [|a l IH]; cbn; [now left | now right].
Qed.

(** An address with an at-sign is split at its last at-sign whatever else
    it holds: the postmaster rule never applies to it, and the outcome is
    decided by whether the text before and the text after that at-sign are
    empty. *)
Theorem split_at_last_at (addr : string) :
  occurs "@" addr ->
  EqualFold addr "postmaster" = false
  /\ exists l d, addr = l ++ "@" ++ d /\ ~ occurs "@" d
     /\ split addr =
        if String.eqb l "" then ("", "", Some (errorString "address: empty local-part"))
        else if String.eqb d "" then ("", "", Some (errorString "address: empty domain"))
        else (l, d, None).
Proof.
  intros Ho. split; [now apply EqualFold_postmaster_no_at|].
  destruct (last_at_exists addr Ho) as (l & d & -> & Hd).
  exists l, d. split; [reflexivity|]. split; [exact Hd|]. now apply split_with_at.
Qed.

End MoreSplit.

(** ** More on toASCII and toUnicode *)

Section MoreAddress.
Context {U : GoUnicode} {X : XText}.

Lemma existsb_gt_false (bound : Z) (l : list rune) :
  existsb (fun ch => bound <? ch) l = false <-> Forall (fun ch => ch <= bound) l.
Proof.
  induction l as [|r l IH]; cbn [existsb]; [split; [constructor | reflexivity]|].
  rewrite orb_false_iff, IH, Z.ltb_ge. split.
  - intros [Hr Hl]. now constructor.
  - intros H. inversion H; subst. now split.
Qed.

(** When [toASCII] fails, the string beside the error is the address as
    given, not normalised, and the error is that of the split, or
    [ErrUnicodeMailbox] for a rune above 128 in the local-part, or that of
    the conversion of the domain.  When it succeeds the local-part is the one
    the split found, unchanged and without a rune above 128, and the domain
    is absent (the postmaster token) or the A-label form IDNA gave. *)
Theorem toASCII_spec (addr : string) :
  (forall v e, toASCII addr = (v, Some e) ->
     v = addr
     /\ ((exists mbox domain, split addr = (mbox, domain, Some e))
         \/ (e = ErrUnicodeMailbox
             /\ exists mbox domain, split addr = (mbox, domain, None)
                /\ Exists (fun ch => 128 < ch) (runes mbox))
         \/ (exists mbox domain, split addr = (mbox, domain, None) /\ domain <> ""
             /\ Forall (fun ch => ch <= 128) (runes mbox)
             /\ idnaError (idna_ToASCII domain) = Some e)))
  /\ (forall v, toASCII addr = (v, None) ->
     exists mbox domain, split addr = (mbox, domain, None)
       /\ Forall (fun ch => ch <= 128) (runes mbox)
       /\ ((domain = "" /\ v = mbox)
           \/ (domain <> "" /\ snd (idna_ToASCII domain) = None
               /\ v = mbox ++ "@" ++ fst (idna_ToASCII domain)))).
Proof.
  destruct (split addr) as [[mbox domain] err] eqn:Hs.
  rewrite (toASCII_cases addr mbox domain err Hs).
  destruct err as [e0|].
  { split; [|discriminate]. intros v e [= <- <-]. split; [reflexivity|].
    left. now exists mbox, domain. }
  destruct (existsb (fun ch => 128 <? ch) (runes mbox)) eqn:Ee.
  { split; [|discriminate]. intros v e [= <- <-]. split; [reflexivity|].
    right. left. split; [reflexivity|]. exists mbox, domain.
    split; [reflexivity|]. now apply existsb_Exists_gt. }
  apply existsb_gt_false in Ee.
  destruct (String.eqb domain "") eqn:Ed.
  { apply String.eqb_eq in Ed. subst domain. split; [discriminate|].
    intros v [= <-]. exists mbox, "". split; [reflexivity|]. split; [exact Ee|]. now left. }
  apply String.eqb_neq in Ed.
  destruct (idnaError (idna_ToASCII domain)) as [e1|] eqn:Ei.
  - split; [|discriminate]. intros v e [= <- <-]. split; [reflexivity|].
    right. right. exists mbox, domain. now repeat split.
  - split; [discriminate|]. intros v [= <-]. exists mbox, domain.
    split; [reflexivity|]. split; [exact Ee|]. right.
    split; [exact Ed|]. split; [|reflexivity].
    unfold idnaError in Ei. now destruct (snd (idna_ToASCII domain)).
Qed.

(** The postmaster token goes through both transcoders without a call to
    IDNA or NFC: [toUnicode] returns it as given, and so does [toASCII]
    unless the token is spelt with a rune above 128, which it rejects like
    any other local-part.  A token of ASCII bytes passes in both modes. *)
Theorem postmaster_passes_through (addr : string) :
  EqualFold addr "postmaster" = true ->
  (forall X' : XText, @toUnicode U X' addr = (addr, None))
  /\ (forall X' : XText,
      @toASCII U X' addr =
      if existsb (fun ch => 128 <? ch) (runes addr) then (addr, Some ErrUnicodeMailbox)
      else (addr, None))
  /\ (isASCII addr = true ->
      forall (X' : XText) (ulabel : bool), @addrSelectIDNA U X' ulabel addr = (addr, None)).
Proof.
  intros Hf. pose proof (split_postmaster addr Hf) as Hs.
  assert (Hu : forall X' : XText, @toUnicode U X' addr = (addr, None)).
  { intros X'. unfold toUnicode. now rewrite Hs. }
  assert (Ha : forall X' : XText,
             @toASCII U X' addr =
             if existsb (fun ch => 128 <? ch) (runes addr) then (addr, Some ErrUnicodeMailbox)
             else (addr, None)).
  { intros X'. unfold toASCII. rewrite Hs.
    now destruct (existsb (fun ch => 128 <? ch) (runes addr)). }
  split; [exact Hu|]. split; [exact Ha|].
  intros Hascii X' ulabel. unfold addrSelectIDNA.
  destruct ulabel; [apply Hu|]. rewrite Ha.
  assert (He : existsb (fun ch => 128 <? ch) (runes addr) = false).
  { apply existsb_gt_false. rewrite (runes_ASCII addr Hascii).
    apply Forall_forall. intros r Hr. apply in_map_iff in Hr.
    destruct Hr as (c & <- & Hc). unfold isASCII in Hascii.
    rewrite forallb_forall in Hascii. specialize (Hascii c Hc).
    unfold RuneSelf in Hascii. apply Z.ltb_lt in Hascii. lia. }
  now rewrite He.
Qed.

(** From ACE to Unicode and back.  Where IDNA takes the domain to an
    A-label, that A-label to a U-label, and the normalised U-label back to
    the same A-label (none of them empty or holding an at-sign), the three
    conversions succeed, each split finds the same local-part again, even
    one that holds at-signs, and the second ACE form is the first. *)
Theorem toASCII_toUnicode_round_trip (addr mbox domain a u : string) :
  split addr = (mbox, domain, None) -> domain <> "" ->
  Forall (fun ch => ch <= 128) (runes mbox) ->
  idna_ToASCII domain = (a, None) -> a <> "" -> ~ occurs "@" a ->
  idna_ToUnicode a = (u, None) -> norm_NFC u <> "" -> ~ occurs "@" (norm_NFC u) ->
  idna_ToASCII (norm_NFC u) = (a, None) ->
  toASCII addr = (mbox ++ "@" ++ a, None)
  /\ toUnicode (fst (toASCII addr)) = (mbox ++ "@" ++ norm_NFC u, None)
  /\ toASCII (fst (toUnicode (fst (toASCII addr)))) = toASCII addr.
Proof.
  intros Hs Hd Hm Ha Han Hao Hu Hun Huo Hb.
  destruct (split_cut addr mbox domain Hs Hd) as (_ & _ & Hmn & _).
  apply existsb_gt_false in Hm. apply String.eqb_neq in Hd, Han, Hun, Hmn.
  assert (H1 : toASCII addr = (mbox ++ "@" ++ a, None)).
  { rewrite (toASCII_cases addr mbox domain None Hs), Hm, Hd, Ha. reflexivity. }
  assert (H2 : toUnicode (mbox ++ "@" ++ a) = (mbox ++ "@" ++ norm_NFC u, None)).
  { unfold toUnicode. rewrite (split_with_at mbox a Hao), Hmn, Han, Han, Hu. reflexivity. }
  assert (H3 : toASCII (mbox ++ "@" ++ norm_NFC u) = (mbox ++ "@" ++ a, None)).
  { unfold toASCII. rewrite (split_with_at mbox (norm_NFC u) Huo), Hmn, Hun, Hm, Hun, Hb.
    reflexivity. }
  rewrite H1. cbn [fst]. rewrite H2. cbn [fst]. now rewrite H3.
Qed.

End MoreAddress.

(** ** More on the field blocks *)

Section MoreHeaders.
Context {U : GoUnicode} {X : XText} {T : GoTime} {G : GoMessage}.

Lemma ReportingMTAInfo_header_outcome (utf8 : bool) (info : ReportingMTAInfo) :
  match ReportingMTAInfo_header utf8 info with
  | Done h => h = mtaFields utf8 info
  | Failed e => mtaRejection utf8 info e
  | Panicked _ => False
  end.
Proof.
  destruct (ReportingMTAInfo_header utf8 info) as [h|e|p] eqn:Eh.
  - now apply ReportingMTAInfo_header_Done in Eh.
  - revert Eh. unfold ReportingMTAInfo_header, mtaRejection, conversionError, converted,
      xHeaderPrefix, bind, Header_Add.
    destruct (String.eqb (ReportingMTA info) "") eqn:E1.
    { apply String.eqb_eq in E1. intros [= <-]. left. now split. }
    apply String.eqb_neq in E1.
    destruct (snd (dnsSelectIDNA utf8 (ReportingMTA info))) as [i1|] eqn:E2.
    { intros [= <-]. right. left. split; [exact E1|]. now exists i1. }
    destruct (String.eqb (ReceivedFromMTA info) "") eqn:E3; cbn [negb];
      [|apply String.eqb_neq in E3;
        destruct (snd (dnsSelectIDNA utf8 (ReceivedFromMTA info))) as [i2|] eqn:E4;
        [intros [= <-]; right; right; left; split; [exact E3|]; now exists i2|]];
    (destruct (String.eqb (XSender info) "") eqn:E5; cbn [negb];
      [|apply String.eqb_neq in E5;
        destruct (snd (addrSelectIDNA utf8 (XSender info))) as [i3|] eqn:E6;
        [intros [= <-]; right; right; right; split; [exact E5|]; now exists i3|]]);
    destruct utf8; discriminate.
  - revert Eh. unfold ReportingMTAInfo_header, converted, bind.
    destruct (String.eqb (ReportingMTA info) ""); [discriminate|].
    destruct (snd (dnsSelectIDNA utf8 (ReportingMTA info))); [discriminate|].
    destruct (String.eqb (ReceivedFromMTA info) ""); cbn [negb];
      [|destruct (snd (dnsSelectIDNA utf8 (ReceivedFromMTA info))); [discriminate|]];
    (destruct (String.eqb (XSender info) ""); cbn [negb];
      [|destruct (snd (addrSelectIDNA utf8 (XSender info))); [discriminate|]]);
    destruct utf8; discriminate.
Qed.

(** [ReportingMTAInfo.WriteTo] checks the record before it writes.  A
    record is rejected exactly when it names no reporting MTA or holds a name
    or an address that cannot be transcoded; the error is then the
    mandatory-field error or the transcoder's error wrapped with the name of
    the field it concerns, and the writer has not been touched.  Any other
    record goes to the header writer, all its fields built.  The call never
    panics. *)
Theorem ReportingMTAInfo_WriteTo_validates_first (utf8 : bool) (info : ReportingMTAInfo)
  (V : Type) (WV : Writer V) (w : V) :
  ((ReportingMTA info <> ""
    /\ snd (dnsSelectIDNA utf8 (ReportingMTA info)) = None
    /\ (ReceivedFromMTA info <> "" -> snd (dnsSelectIDNA utf8 (ReceivedFromMTA info)) = None)
    /\ (XSender info <> "" -> snd (addrSelectIDNA utf8 (XSender info)) = None)
    /\ ReportingMTAInfo_WriteTo info utf8 w = returned (WriteHeader w (mtaFields utf8 info)))
   \/ ((ReportingMTA info = ""
        \/ snd (dnsSelectIDNA utf8 (ReportingMTA info)) <> None
        \/ (ReceivedFromMTA info <> ""
            /\ snd (dnsSelectIDNA utf8 (ReceivedFromMTA info)) <> None)
        \/ (XSender info <> "" /\ snd (addrSelectIDNA utf8 (XSender info)) <> None))
       /\ exists e, ReportingMTAInfo_WriteTo info utf8 w = (w, Failed e)
                    /\ mtaRejection utf8 info e))
  /\ (forall reason, snd (ReportingMTAInfo_WriteTo info utf8 w) <> Panicked reason).
Proof.
  pose proof (ReportingMTAInfo_header_outcome utf8 info) as Ho.
  unfold ReportingMTAInfo_WriteTo.
  destruct (ReportingMTAInfo_header utf8 info) as [h|e|p] eqn:Eh; [| |destruct Ho];
    (split; [|intros reason; cbn [writeBuilt returned snd];
              try destruct (snd (WriteHeader w h)); discriminate]).
  - left. apply ReportingMTAInfo_header_Done in Eh.
    destruct Eh as (H1 & H2 & H3 & H4 & ->). now repeat split.
  - right. split; [|now exists e].
    destruct Ho as [[H _]|[(_ & i & H & _)|[(Hn & i & H & _)|(Hn & i & H & _)]]].
    + now left.
    + right. left. now rewrite H.
    + right. right. left. split; [exact Hn | now rewrite H].
    + right. right. right. split; [exact Hn | now rewrite H].
Qed.



(** The checks on a recipient record run in a fixed order: the final
    recipient, its transcoding, the action, the status class.  The first
    that fails decides the error, whatever else is wrong with the record. *)
Lemma RecipientInfo_first_failure (utf8 : bool) (info : RecipientInfo) :
  (FinalRecipient info = "" ->
   RecipientInfo_header utf8 info = Failed (errorString "dsn: Final-Recipient is required"))
  /\ (FinalRecipient info <> "" ->
      forall inner, snd (addrSelectIDNA utf8 (FinalRecipient info)) = Some inner ->
      RecipientInfo_header utf8 info = Failed (conversionError "Final-Recipient" inner))
  /\ (FinalRecipient info <> "" ->
      snd (addrSelectIDNA utf8 (FinalRecipient info)) = None ->
      Action info = "" ->
      RecipientInfo_header utf8 info = Failed (errorString "dsn: Action is required"))
  /\ (FinalRecipient info <> "" ->
      snd (addrSelectIDNA utf8 (FinalRecipient info)) = None ->
      Action info <> "" ->
      at0 (Status info) = 0 ->
      RecipientInfo_header utf8 info = Failed (errorString "dsn: Status is required")).
Proof.
  unfold RecipientInfo_header, conversionError, converted, bind.
  repeat split.
  - intros ->. reflexivity.
  - intros H1 inner H2. apply String.eqb_neq in H1. now rewrite H1, H2.
  - intros H1 H2 ->. apply String.eqb_neq in H1. rewrite H1, H2. now destruct utf8.
  - intros H1 H2 H3 H4. apply String.eqb_neq in H1, H3. rewrite H1, H2, H3, H4.
    now destruct utf8.
Qed.

End MoreHeaders.

(** ** More on Diagnostic-Code *)

Lemma occurs_append (c : ascii) (a b : string) :
  occurs c (a ++ b) <-> occurs c a \/ occurs c b.
Proof.
  unfold occurs. induction a as [|x a IH]; cbn; [tauto|]. rewrite IH. tauto.
Qed.

Lemma string_of_uint_numeral (d : Decimal.uint) (c : ascii) :
  occurs c (NilEmpty.string_of_uint d) -> numeralByte c.
Proof.
  unfold numeralByte, occurs.
  induction d; cbn [NilEmpty.string_of_uint list_ascii_of_string];
    try (intros [<-|H]; [cbn; tauto | now apply IHd]).
  intros [].
Qed.

(** [%d] prints digits and at most a sign. *)
Lemma itoa_numeral (n : Z) (c : ascii) : occurs c (itoa n) -> numeralByte c.
Proof.
  unfold itoa. destruct (Z.to_int n) as [d|d]; cbn [NilZero.string_of_int].
  - unfold NilZero.string_of_uint. destruct d; try apply string_of_uint_numeral.
    unfold numeralByte, occurs. cbn. tauto.
  - intros [<-|H]; [unfold numeralByte, occurs; cbn; tauto|].
    revert H. fold (occurs c (NilZero.string_of_uint d)).
    unfold NilZero.string_of_uint. destruct d; try apply string_of_uint_numeral.
    unfold numeralByte, occurs. cbn. tauto.
Qed.

Lemma newLineReplacer_clean (s : string) :
  ~ occurs "013" (newLineReplacer s) /\ ~ occurs "010" (newLineReplacer s).
Proof.
  unfold occurs. induction s as [|c t [IHr IHn]]; cbn; [tauto|].
  destruct (Ascii.eqb c "010") eqn:En; cbn [orb].
  - split; intros [H|H]; (discriminate H || tauto).
  - destruct (Ascii.eqb c "013") eqn:Er.
    + split; intros [H|H]; (discriminate H || tauto).
    + apply Ascii.eqb_neq in En, Er. split; intros [H|H]; (congruence || tauto).
Qed.

Section MoreDiagnostics.
Context {U : GoUnicode} {X : XText} {T : GoTime} {G : GoMessage}.

(** The Diagnostic-Code of a structured SMTP error is one line: whatever
    the message holds, the value written holds neither CR nor LF, so a reply
    taken from a remote server cannot break out of the field. *)
Theorem smtp_diagnostic_single_line (utf8 : bool) (info : RecipientInfo)
  (code : Z) (ec : EnhancedCode) (msg : string) (h : Header) (v : string) :
  DiagnosticCode info = Some (SMTPError code ec msg) ->
  RecipientInfo_header utf8 info = Done h ->
  In ("Diagnostic-Code", v) h ->
  ~ occurs "013" v /\ ~ occurs "010" v.
Proof.
  intros Hd H Hin. apply RecipientInfo_header_Done in H.
  destruct H as (_ & _ & _ & _ & _ & _ & ->).
  apply rcptFields_diagnostic in Hin. unfold diagnosticFields in Hin. rewrite Hd in Hin.
  destruct Hin as [Hin|[]]. apply (f_equal snd) in Hin. cbn [snd] in Hin. subst v.
  destruct (newLineReplacer_clean msg) as [Hr Hn].
  assert (Hnum : forall c n, (c = "013" \/ c = "010")%char -> ~ occurs c (itoa n)).
  { intros c n Hc Ho. apply itoa_numeral in Ho. unfold numeralByte, occurs in Ho. cbn in Ho.
    destruct Hc as [-> | ->];
      repeat (destruct Ho as [Ho|Ho]; [discriminate Ho|]); exact Ho. }
  unfold smtpDiagnostic.
  split; intros Ho;
    repeat (apply occurs_append in Ho; destruct Ho as [Ho|Ho]);
    try (unfold occurs in Ho; cbn in Ho;
         repeat (destruct Ho as [Ho|Ho]; [discriminate Ho|]); exact Ho);
    try (now apply (Hnum _ _ (or_introl eq_refl)) in Ho);
    try (now apply (Hnum _ _ (or_intror eq_refl)) in Ho);
    tauto.
Qed.

(** A diagnostic that is not itself a structured SMTP error, one that wraps
    such an error included, gets the free-text policy: in UTF-8 mode the one
    Diagnostic-Code is [X-<label>; <text>], the text being what [Error]
    returns with every CR and LF turned into a space; in ASCII mode the
    block has no Diagnostic-Code at all. *)
Theorem plain_diagnostic_code (utf8 : bool) (info : RecipientInfo) (e : error) (h : Header) :
  DiagnosticCode info = Some e ->
  isSMTPError e = false ->
  RecipientInfo_header utf8 info = Done h ->
  (utf8 = true ->
   Header_Get h "Diagnostic-Code"
   = xHeaderPrefix (xMTAName info) ++ "; " ++ newLineReplacer (Error e)
   /\ (forall v, In ("Diagnostic-Code", v) h -> v = Header_Get h "Diagnostic-Code")
   /\ ~ occurs "013" (newLineReplacer (Error e))
   /\ ~ occurs "010" (newLineReplacer (Error e)))
  /\ (utf8 = false -> ~ In "Diagnostic-Code" (fieldNames h)).
Proof.
  intros Hd He H. apply RecipientInfo_header_Done in H.
  destruct H as (_ & _ & _ & _ & Hn & _ & ->). split.
  - intros ->.
    assert (Hget : Header_Get (rcptFields true info) "Diagnostic-Code"
                   = xHeaderPrefix (xMTAName info) ++ "; " ++ newLineReplacer (Error e)).
    { unfold rcptFields, diagnosticFields, optional. rewrite Hd.
      destruct e; try discriminate He;
        destruct (String.eqb (RemoteMTA info) ""); reflexivity. }
    split; [exact Hget|]. split; [|apply newLineReplacer_clean].
    intros v Hin. apply rcptFields_diagnostic in Hin. rewrite Hget.
    unfold diagnosticFields in Hin. rewrite Hd in Hin.
    destruct e; try discriminate He; destruct Hin as [Hin|[]]; now inversion Hin.
  - intros ->. rewrite rcptFields_names by exact Hn.
    unfold hasDiagnosticField, kept. rewrite Hd.
    destruct e; try discriminate He;
      destruct (String.eqb (RemoteMTA info) ""); cbn;
      intros Hin; repeat (destruct Hin as [Hin|Hin]; [discriminate Hin|]); contradiction.
Qed.

End MoreDiagnostics.

(** ** More on GenerateDSN *)

Lemma contains_refl (s : string) : contains s s.
Proof. exists "", "". cbn. now rewrite append_nil_r. Qed.

Lemma contains_append_l (a s sub : string) : contains s sub -> contains (a ++ s) sub.
Proof.
  intros (pre & post & ->). exists (a ++ pre), post. now rewrite !append_assoc.
Qed.

Lemma contains_append_r (s b sub : string) : contains s sub -> contains (s ++ b) sub.
Proof.
  intros (pre & post & ->). exists pre, (post ++ b). now rewrite !append_assoc.
Qed.

Lemma contains_joined (ps : list string) (p : string) : In p ps -> contains (joined ps) p.
Proof.
  induction ps as [|q ps IH]; [intros []|]. cbn [joined fold_right].
  intros [->|Hin].
  - apply contains_append_r, contains_refl.
  - now apply contains_append_l, IH.
Qed.

Lemma labelled_labelled (rcpt : RecipientInfo) (l l' : string) :
  labelled (labelled rcpt l') l = labelled rcpt l.
Proof. reflexivity. Qed.

Section MoreGenerate.
Context {U : GoUnicode} {X : XText} {T : GoTime} {G : GoMessage}.

Lemma xHeaderPrefix_effective (mtaInfo : ReportingMTAInfo) :
  xHeaderPrefix (effectiveXMTAName mtaInfo) = xHeaderPrefix (XMTAName mtaInfo).
Proof.
  unfold xHeaderPrefix, effectiveXMTAName.
  destruct (String.eqb (XMTAName mtaInfo) "") eqn:E; [reflexivity | now rewrite E].
Qed.

Lemma writeRecipients_relabel {W : Type} {WW : Writer W} (utf8 : bool)
  (w : MultipartWriter W) (mtaInfo : ReportingMTAInfo) (rcptsInfo : list RecipientInfo)
  (f : RecipientInfo -> string) :
  writeRecipients utf8 w mtaInfo (map (fun rcpt => labelled rcpt (f rcpt)) rcptsInfo)
  = writeRecipients utf8 w mtaInfo rcptsInfo.
Proof.
  revert w. induction rcptsInfo as [|rcpt rest IH]; intros w; [reflexivity|].
  cbn [map writeRecipients]. rewrite labelled_labelled.
  destruct (RecipientInfo_WriteTo (labelled rcpt (effectiveXMTAName mtaInfo)) utf8 w)
    as [w' [[]|e|p]]; cbn [andThen]; [apply IH | reflexivity..].
Qed.

(** Every recipient block of a report is encoded under the label of the
    reporting-MTA record, [Godsn] when that record has none: the label a
    recipient record carried when it was passed in plays no part in what is
    written or returned.  The free-text Diagnostic-Code of a recipient block
    carries [X-<label>] with that label as it is given, trimmed.  The
    X-<label>-Sender and X-<label>-MsgID fields of the reporting-MTA block
    are kept under the canonical form of the same prefix, so that the tag of
    the diagnostic and the names of the fields can differ in the case of
    their letters. *)
Theorem recipient_label_is_the_reporting_MTAs (utf8 : bool) (envelope : Envelope)
  (mtaInfo : ReportingMTAInfo) (rcptsInfo : list RecipientInfo) (failedHeader : Header) :
  (forall (W : Type) (WW : Writer W) (outWriter : W) (f : RecipientInfo -> string),
     GenerateDSN utf8 envelope mtaInfo
       (map (fun rcpt => labelled rcpt (f rcpt)) rcptsInfo) failedHeader outWriter
     = GenerateDSN utf8 envelope mtaInfo rcptsInfo failedHeader outWriter)
  /\ (forall rcpt e h,
      DiagnosticCode rcpt = Some e -> isSMTPError e = false ->
      RecipientInfo_header true (labelled rcpt (effectiveXMTAName mtaInfo)) = Done h ->
      Header_Get h "Diagnostic-Code"
      = xHeaderPrefix (XMTAName mtaInfo) ++ "; " ++ newLineReplacer (Error e))
  /\ (forall hm,
      ReportingMTAInfo_header utf8 mtaInfo = Done hm ->
      (XSender mtaInfo <> "" ->
       In (CanonicalMIMEHeaderKey (xHeaderPrefix (XMTAName mtaInfo)) ++ "-Sender",
           addressTag utf8 ++ "; " ++ fst (addrSelectIDNA utf8 (XSender mtaInfo))) hm)
      /\ (XMessageID mtaInfo <> "" ->
          exists suffix,
            (suffix = "-Msgid" \/ suffix = "-MsgID")
            /\ In (CanonicalMIMEHeaderKey (xHeaderPrefix (XMTAName mtaInfo)) ++ suffix,
                   XMessageID mtaInfo) hm)).
Proof.
  split; [|split].
  - intros W WW outWriter f.
    unfold GenerateDSN, assemble, writeHumanReadablePart, writeMachineReadablePart.
    rewrite map_map.
    replace (map (fun x => deliveryLine (labelled x (f x))) rcptsInfo)
      with (map deliveryLine rcptsInfo) by (apply map_ext; now intros []).
    destruct (CreatePart (NewMultipartWriter outWriter) humanHeader) as [w1 [e1|]];
      cbn [returned andThen fst snd]; [reflexivity|].
    destruct (failedText_Execute w1 (truncated mtaInfo)) as [w2 [e2|]];
      cbn [returned andThen fst snd]; [reflexivity|].
    destruct (writeAll w2 (map deliveryLine rcptsInfo)) as [w3 [e3|]];
      cbn [returned andThen fst snd]; [reflexivity|].
    destruct (CreatePart w3 (machineHeader utf8)) as [w4 [e4|]];
      cbn [returned andThen fst snd]; [reflexivity|].
    destruct (ReportingMTAInfo_WriteTo mtaInfo utf8 w4) as [w5 [[]|e5|p5]];
      cbn [andThen]; try reflexivity.
    now rewrite writeRecipients_relabel.
  - intros rcpt e h Hd He Hh. apply RecipientInfo_header_Done in Hh.
    destruct Hh as (_ & _ & _ & _ & _ & _ & ->).
    unfold rcptFields, diagnosticFields, optional.
    cbn [labelled DiagnosticCode xMTAName RemoteMTA]. rewrite Hd, xHeaderPrefix_effective.
    destruct e; try discriminate He;
      destruct (String.eqb (RemoteMTA rcpt) ""); reflexivity.
  - intros hm Hh. apply ReportingMTAInfo_header_Done in Hh.
    destruct Hh as (_ & _ & _ & _ & ->).
    unfold mtaFields, optional, xHeaderPrefix.
    rewrite CanonicalMIMEHeaderKey_Sender, CanonicalMIMEHeaderKey_MsgID,
      CanonicalMIMEHeaderKey_X, !append_assoc.
    split.
    + intros Hs. apply String.eqb_neq in Hs. rewrite Hs. cbn [negb].
      apply in_or_app. right. apply in_or_app. right. apply in_or_app. left. now left.
    + intros Hm. apply String.eqb_neq in Hm. rewrite Hm. cbn [negb].
      eexists. split; [|apply in_or_app; right; apply in_or_app; right;
                        apply in_or_app; right; apply in_or_app; left; now left].
      destruct (forallb validHeaderFieldByte _); tauto.
Qed.

(** The header [GenerateDSN] returns is the report header or the empty
    header, never anything else.  It is the empty header whenever the first
    or the second part fails or panics (so whenever the reporting-MTA record
    is rejected), and the report header once these two parts are written,
    whatever becomes of the third; it is the report header whenever the call
    succeeds.  The report header takes Message-Id, To and From from the
    envelope and names in Content-Type the boundary of the multipart body. *)
Theorem GenerateDSN_returned_header (utf8 : bool) (envelope : Envelope)
  (mtaInfo : ReportingMTAInfo) (rcptsInfo : list RecipientInfo) (failedHeader : Header)
  (W : Type) (WW : Writer W) (outWriter : W) :
  (fst (snd (GenerateDSN utf8 envelope mtaInfo rcptsInfo failedHeader outWriter)) = []
   \/ fst (snd (GenerateDSN utf8 envelope mtaInfo rcptsInfo failedHeader outWriter))
      = reportHeader envelope textproto_randomBoundary)
  /\ (snd (snd (GenerateDSN utf8 envelope mtaInfo rcptsInfo failedHeader outWriter)) = Done tt ->
      fst (snd (GenerateDSN utf8 envelope mtaInfo rcptsInfo failedHeader outWriter))
      = reportHeader envelope textproto_randomBoundary)
  /\ (forall p,
      snd (snd (GenerateDSN utf8 envelope mtaInfo rcptsInfo failedHeader outWriter))
      = Panicked p ->
      fst (snd (GenerateDSN utf8 envelope mtaInfo rcptsInfo failedHeader outWriter)) = [])
  /\ (snd (writeHumanReadablePart (NewMultipartWriter outWriter) mtaInfo rcptsInfo) <> Done tt ->
      snd (GenerateDSN utf8 envelope mtaInfo rcptsInfo failedHeader outWriter)
      = ([], snd (writeHumanReadablePart (NewMultipartWriter outWriter) mtaInfo rcptsInfo)))
  /\ (snd (writeHumanReadablePart (NewMultipartWriter outWriter) mtaInfo rcptsInfo) = Done tt ->
      snd (writeMachineReadablePart utf8
             (fst (writeHumanReadablePart (NewMultipartWriter outWriter) mtaInfo rcptsInfo))
             mtaInfo rcptsInfo) <> Done tt ->
      snd (GenerateDSN utf8 envelope mtaInfo rcptsInfo failedHeader outWriter)
      = ([], snd (writeMachineReadablePart utf8
                    (fst (writeHumanReadablePart (NewMultipartWriter outWriter)
                            mtaInfo rcptsInfo))
                    mtaInfo rcptsInfo)))
  /\ (snd (writeHumanReadablePart (NewMultipartWriter outWriter) mtaInfo rcptsInfo) = Done tt ->
      snd (writeMachineReadablePart utf8
             (fst (writeHumanReadablePart (NewMultipartWriter outWriter) mtaInfo rcptsInfo))
             mtaInfo rcptsInfo) = Done tt ->
      fst (snd (GenerateDSN utf8 envelope mtaInfo rcptsInfo failedHeader outWriter))
      = reportHeader envelope textproto_randomBoundary)
  /\ (forall e,
      ReportingMTAInfo_header utf8 mtaInfo = Failed e ->
      exists e',
        snd (GenerateDSN utf8 envelope mtaInfo rcptsInfo failedHeader outWriter)
        = ([], Failed e'))
  /\ Header_Get (reportHeader envelope textproto_randomBoundary) "Message-Id" = MsgID envelope
  /\ Header_Get (reportHeader envelope textproto_randomBoundary) "To" = To envelope
  /\ Header_Get (reportHeader envelope textproto_randomBoundary) "From" = From envelope
  /\ Header_Get (reportHeader envelope textproto_randomBoundary) "Content-Type"
     = "multipart/report; report-type=delivery-status; boundary=" ++ textproto_randomBoundary
  /\ Header_Get (reportHeader envelope textproto_randomBoundary) "Subject"
     = "Undelivered Mail Returned to Sender"
  /\ Header_Get (reportHeader envelope textproto_randomBoundary) "Auto-Submitted"
     = "auto-replied".
Proof.
  assert (Hs : forall (pw : MultipartWriter W) r,
             snd (writeHeader utf8 pw failedHeader) = r -> forall p, r <> Panicked p).
  { intros pw r <- p. unfold writeHeader, andThen, returned.
    destruct (CreatePart pw (headersPartHeader utf8)) as [w1 [e1|]]; cbn [fst snd];
      [discriminate|].
    destruct (WriteHeader w1 failedHeader) as [w2 [e2|]]; cbn [fst snd]; discriminate. }
  assert (Hm : forall (pw : MultipartWriter W) e,
             ReportingMTAInfo_header utf8 mtaInfo = Failed e ->
             exists e', snd (writeMachineReadablePart utf8 pw mtaInfo rcptsInfo) = Failed e').
  { intros pw e He. unfold writeMachineReadablePart, andThen, returned,
      ReportingMTAInfo_WriteTo.
    rewrite He. cbn [writeBuilt].
    destruct (CreatePart pw (machineHeader utf8)) as [w1 [e1|]]; cbn [fst snd];
      eexists; reflexivity. }
  pose proof (writeHumanReadablePart_no_panic (NewMultipartWriter outWriter)
                mtaInfo rcptsInfo) as Hn.
  unfold GenerateDSN, assemble.
  destruct (writeHumanReadablePart (NewMultipartWriter outWriter) mtaInfo rcptsInfo)
    as [pw [[]|e|p]]; cbn [fst snd] in *.
  2: { repeat split; try (now left); try discriminate; try reflexivity;
         try (intros H; now contradiction H).
       intros e0 _. now exists e. }
  2: { now contradiction (Hn p). }
  specialize (Hm pw).
  destruct (writeMachineReadablePart utf8 pw mtaInfo rcptsInfo) as [pw' [[]|e|p]];
    cbn [fst snd] in *.
  2, 3: (repeat split; try (now left); try discriminate; try reflexivity;
         try (intros H; now contradiction H); try (intros _ H; now contradiction H);
         intros e0 He0; destruct (Hm e0 He0) as [e' He']; try discriminate He';
         now exists e).
  pose proof (Hs pw' _ eq_refl) as Hp.
  destruct (writeHeader utf8 pw' failedHeader) as [pw'' r]. cbn [fst snd] in *.
  repeat split; try reflexivity; try (now right);
    try (intros H; now contradiction H); try (intros _ H; now contradiction H).
  - intros p Hr. now contradiction (Hp p).
  - intros e0 He0. destruct (Hm e0 He0) as [e' He']. discriminate He'.
Qed.

Lemma reportBytes_human (utf8 : bool) (boundary : string) (mtaInfo : ReportingMTAInfo)
  (rcptsInfo : list RecipientInfo) (failedHeader : Header) :
  exists rest,
    fst (reportBytes utf8 boundary mtaInfo rcptsInfo failedHeader)
    = humanPartBytes boundary mtaInfo rcptsInfo ++ rest ++ closingBytes boundary.
Proof.
  unfold reportBytes.
  destruct (machinePartBytes utf8 boundary mtaInfo rcptsInfo) as [machine [[]|e|p]];
    cbn [fst].
  - exists (machine ++ nextPartBytes boundary (headersPartHeader utf8)
                   ++ blockBytes failedHeader).
    now rewrite !append_assoc.
  - now exists machine.
  - now exists machine.
Qed.

(** Whatever becomes of the rest of the report, a call on an in-memory
    buffer first writes the whole human-readable part and last the closing
    delimiter.  The output holds the notice naming the reporting MTA and,
    for every recipient, whatever its action, the line
    [Delivery to <recipient> failed with error: <diagnostic>], the
    diagnostic being [<nil>] when the record has none. *)
Theorem GenerateDSN_notice (utf8 : bool) (envelope : Envelope)
  (mtaInfo : ReportingMTAInfo) (rcptsInfo : list RecipientInfo) (failedHeader : Header)
  (b : Buffer) :
  (exists rest,
     contents (fst (GenerateDSN utf8 envelope mtaInfo rcptsInfo failedHeader b))
     = contents b ++ humanPartBytes textproto_randomBoundary mtaInfo rcptsInfo
       ++ rest ++ closingBytes textproto_randomBoundary)
  /\ contains (contents (fst (GenerateDSN utf8 envelope mtaInfo rcptsInfo failedHeader b)))
              ("This is the mail delivery system at " ++ ReportingMTA mtaInfo ++ ".")
  /\ (forall rcpt, In rcpt rcptsInfo ->
      contains (contents (fst (GenerateDSN utf8 envelope mtaInfo rcptsInfo failedHeader b)))
               ("Delivery to " ++ FinalRecipient rcpt ++ " failed with error: "
                ++ match DiagnosticCode rcpt with
                   | Some e => Error e
                   | None => "<nil>"
                   end ++ LF)).
Proof.
  rewrite GenerateDSN_Buffer.
  destruct (reportBytes_human utf8 textproto_randomBoundary mtaInfo rcptsInfo failedHeader)
    as [rest Hr].
  destruct (reportBytes utf8 textproto_randomBoundary mtaInfo rcptsInfo failedHeader)
    as [bytes end_]. cbn [fst contents] in *. subst bytes.
  split; [now exists rest|].
  assert (Hh : forall sub, contains (humanPartBytes textproto_randomBoundary mtaInfo rcptsInfo) sub ->
                 contains (contents b
                           ++ humanPartBytes textproto_randomBoundary mtaInfo rcptsInfo
                           ++ rest ++ closingBytes textproto_randomBoundary) sub).
  { intros sub H. now apply contains_append_l, contains_append_r. }
  split.
  - apply Hh. unfold humanPartBytes.
    apply contains_append_l, contains_append_l, contains_append_l, contains_append_l,
      contains_append_r.
    unfold failedText_writes, FailedTemplateText_0, FailedTemplateText_1.
    cbn [joined fold_right truncated ReportingMTA].
    exists LF. eexists. rewrite !append_assoc. reflexivity.
  - intros rcpt Hin. apply Hh. unfold humanPartBytes.
    apply contains_append_l, contains_append_l, contains_append_l, contains_append_l,
      contains_append_l.
    apply contains_joined. apply in_map_iff. now exists rcpt.
Qed.

(** The report on an in-memory buffer, part by part: the human-readable
    part; the machine-readable part with the reporting-MTA block and the
    recipient blocks up to the first record that is rejected or makes the
    encoder panic, or whose block the header writer gives up on; the part
    with the original headers if every block was written; the closing
    delimiter on every way out.  The header returned is the report header
    when the first two parts were written and the empty header otherwise. *)
Theorem GenerateDSN_on_buffer (utf8 : bool) (envelope : Envelope)
  (mtaInfo : ReportingMTAInfo) (rcptsInfo : list RecipientInfo) (failedHeader : Header)
  (b : Buffer) :
  GenerateDSN utf8 envelope mtaInfo rcptsInfo failedHeader b =
  let '(bytes, end_) :=
    reportBytes utf8 textproto_randomBoundary mtaInfo rcptsInfo failedHeader in
  ({| contents := contents b ++ bytes |},
   (match snd (machinePartBytes utf8 textproto_randomBoundary mtaInfo rcptsInfo) with
    | Done _ => reportHeader envelope textproto_randomBoundary
    | _ => []
    end, end_)).
Proof.
  destruct b as [b]. unfold GenerateDSN, assemble, reportBytes. cbn [contents].
  rewrite writeHumanReadablePart_Buffer, writeMachineReadablePart_Buffer.
  destruct (machinePartBytes utf8 textproto_randomBoundary mtaInfo rcptsInfo)
    as [machine [[]|e|p]]; cbn [fst snd];
    [rewrite writeHeader_Buffer|..]; rewrite Close_openPart; cbn [fst mw_w];
    unfold Boundary, NewMultipartWriter; cbn [mw_boundary];
    now rewrite !append_assoc.
Qed.

End MoreGenerate.

(** ** More on SendDSN *)

Section MoreSend.
Context {U : GoUnicode} {X : XText} {T : GoTime} {G : GoMessage} {R : Relay}.

Lemma accepted_app (past cs1 cs2 : list call) :
  accepted past (cs1 ++ cs2)%list <-> accepted past cs1 /\ accepted (past ++ cs1)%list cs2.
Proof.
  revert past. induction cs1 as [|c cs1 IH]; intros past; cbn [app accepted].
  - rewrite app_nil_r. tauto.
  - rewrite IH, <- app_assoc. cbn [app]. tauto.
Qed.

Lemma runs_perform (c : call) : runs (fun past => perform past c) [c].
Proof.
  intros past. unfold perform. cbn [fst snd accepted].
  destruct (relay_fails past c); split; try tauto; try reflexivity; try discriminate;
    split; (discriminate || (intros [H _]; discriminate H)).
Qed.

Lemma runs_closingOnError (c : call) :
  runs (fun past => closingOnError (perform past c)) [c].
Proof.
  intros past. unfold closingOnError, perform. cbn [accepted].
  destruct (relay_fails past c); cbn [fst snd]; split; try tauto; try reflexivity;
    try discriminate; split; (discriminate || (intros [H _]; discriminate H)).
Qed.

Lemma runs_andThen (f g : list call -> list call * outcome unit) (cs1 cs2 : list call) :
  runs f cs1 -> runs g cs2 -> runs (fun past => andThen (f past) g) (cs1 ++ cs2)%list.
Proof.
  intros Hf Hg past. destruct (Hf past) as [Hf1 Hf2].
  rewrite accepted_app.
  destruct (f past) as [mid [[]|e|p]] eqn:Ef; cbn [andThen fst snd] in *.
  - specialize (Hf2 eq_refl). subst mid. destruct (Hg (past ++ cs1)%list) as [Hg1 Hg2].
    rewrite app_assoc. split; [|exact Hg2].
    rewrite Hg1. split; [intros H; split; [now apply Hf1 | exact H] | tauto].
  - split; [|discriminate]. split; [discriminate|]. intros [H _]. apply Hf1 in H. discriminate H.
  - split; [|discriminate]. split; [discriminate|]. intros [H _]. apply Hf1 in H. discriminate H.
Qed.

Lemma runs_rcptAll (rcptsInfo : list RecipientInfo) :
  runs (fun past => rcptAll past rcptsInfo)
       (map (fun rcpt => Rcpt (FinalRecipient rcpt)) rcptsInfo).
Proof.
  induction rcptsInfo as [|r rest IH].
  - intros past. cbn. rewrite app_nil_r. tauto.
  - cbn [rcptAll map].
    apply (runs_andThen (fun past => perform past (Rcpt (FinalRecipient r)))
                        (fun past => rcptAll past rest) [Rcpt (FinalRecipient r)]).
    + apply runs_perform.
    + exact IH.
Qed.

Lemma runs_session (hdr : Header) (bodyBuf : Buffer) (rcptsInfo : list RecipientInfo) :
  runs (fun past => session past hdr bodyBuf rcptsInfo)
       (app [Hello "bla"; Mail "<>"]
       (app (map (fun rcpt => Rcpt (FinalRecipient rcpt)) rcptsInfo)
            [Data; DataWriteHeader hdr; DataWriteBody (contents bodyBuf); DataClose])).
Proof.
  unfold session.
  apply (runs_andThen _ _ [Hello "bla"]); [apply runs_perform|].
  apply (runs_andThen _ _ [Mail "<>"]); [apply runs_perform|].
  apply (runs_andThen _ _ (map (fun rcpt => Rcpt (FinalRecipient rcpt)) rcptsInfo));
    [apply runs_rcptAll|].
  apply (runs_andThen _ _ [Data]); [apply runs_perform|].
  apply (runs_andThen _ _ [DataWriteHeader hdr]); [apply runs_closingOnError|].
  apply (runs_andThen _ _ [DataWriteBody (contents bodyBuf)]); [apply runs_closingOnError|].
  apply runs_perform.
Qed.

(** [SendDSN] reports success exactly when the report was generated in
    full and the relay took every command of the session: Dial, Hello, the
    MAIL command with the null sender, one RCPT per recipient with the final
    recipient as the record gives it (not transcoded), Data, the report
    header, the whole report as the body, and the end of the data.  These
    are then the calls it made, followed by the closing of the client,
    whose own failure changes nothing. *)
Theorem SendDSN_succeeds_iff (smtpaddr : string) (utf8 : bool) (envelope : Envelope)
  (mtaInfo : ReportingMTAInfo) (rcptsInfo : list RecipientInfo) (failedHeader : Header) :
  (snd (SendDSN smtpaddr utf8 envelope mtaInfo rcptsInfo failedHeader) = Done tt
   <-> snd (reportBytes utf8 textproto_randomBoundary mtaInfo rcptsInfo failedHeader) = Done tt
       /\ accepted []
            (script smtpaddr rcptsInfo
               (reportHeader (daemonEnvelope envelope) textproto_randomBoundary)
               (wholeReportBytes utf8 textproto_randomBoundary mtaInfo rcptsInfo
                  failedHeader)))
  /\ (snd (SendDSN smtpaddr utf8 envelope mtaInfo rcptsInfo failedHeader) = Done tt ->
      fst (SendDSN smtpaddr utf8 envelope mtaInfo rcptsInfo failedHeader)
      = (script smtpaddr rcptsInfo
           (reportHeader (daemonEnvelope envelope) textproto_randomBoundary)
           (wholeReportBytes utf8 textproto_randomBoundary mtaInfo rcptsInfo failedHeader)
         ++ [ClientClose])%list).
Proof.
  unfold SendDSN, mailerDaemon. fold (daemonEnvelope envelope).
  pose proof (GenerateDSN_whole utf8 (daemonEnvelope envelope) mtaInfo rcptsInfo
                failedHeader {| contents := "" |}) as Hw.
  pose proof (reportBytes_end utf8 textproto_randomBoundary mtaInfo rcptsInfo failedHeader)
    as He.
  rewrite GenerateDSN_Buffer in *.
  destruct (reportBytes utf8 textproto_randomBoundary mtaInfo rcptsInfo failedHeader)
    as [bytes [[]|e|p]]; cbn [contents fst snd append] in *;
    [|split; [split; [discriminate | intros [H _]; discriminate H] | discriminate]..].
  specialize (Hw eq_refl). subst bytes. rewrite (He eq_refl).
  set (hdr := reportHeader (daemonEnvelope envelope) textproto_randomBoundary).
  set (body := wholeReportBytes utf8 textproto_randomBoundary mtaInfo rcptsInfo failedHeader).
  destruct (runs_session hdr {| contents := body |} rcptsInfo [Dial smtpaddr]) as [Hs1 Hs2].
  cbn [contents] in *. unfold script. cbn [app accepted].
  unfold perform. cbn [app].
  destruct (relay_fails [] (Dial smtpaddr)) as [msg|] eqn:Ed; cbn [fst snd].
  { split; [split; [discriminate | intros (_ & H & _); discriminate H] | discriminate]. }
  destruct (session [Dial smtpaddr] hdr {| contents := body |} rcptsInfo) as [past r].
  cbn [fst snd] in *. split.
  - rewrite Hs1. cbn [app accepted]. tauto.
  - intros Hr. now rewrite (Hs2 Hr).
Qed.

Lemma not_header_write_app (past : list call) (c : call) (h : Header) :
  (forall h', c <> DataWriteHeader h') ->
  In (DataWriteHeader h) (past ++ [c])%list -> In (DataWriteHeader h) past.
Proof.
  intros Hc Hin. apply in_app_or in Hin. destruct Hin as [Hin|[Hin|[]]]; [exact Hin|].
  now contradiction (Hc h).
Qed.

(** After [Data] the stream is closed on every way out. *)
Lemma stream_closed (past : list call) (hdr : Header) (body : string) :
  In DataClose
     (fst (past <~ closingOnError (perform past (DataWriteHeader hdr)) ;;
           past <~ closingOnError (perform past (DataWriteBody body)) ;;
           perform past DataClose)).
Proof.
  unfold closingOnError, perform.
  destruct (relay_fails past (DataWriteHeader hdr)); cbn [andThen fst snd];
    [apply in_or_app; right; now left|].
  destruct (relay_fails _ (DataWriteBody body)); cbn [andThen fst snd];
    apply in_or_app; right; now left.
Qed.

(** What [SendDSN] does with the relay's resources.  When the report is
    not generated it makes no call at all and returns the generator's error
    or panics with it.  When [Dial] fails that is its only call.  When
    [Dial] succeeds the last call closes the client, whatever went wrong in
    between; and once the data stream is open (a header write was made) the
    stream is closed too. *)
Theorem SendDSN_releases (smtpaddr : string) (utf8 : bool) (envelope : Envelope)
  (mtaInfo : ReportingMTAInfo) (rcptsInfo : list RecipientInfo) (failedHeader : Header) :
  (forall failure,
     snd (reportBytes utf8 textproto_randomBoundary mtaInfo rcptsInfo failedHeader) = failure ->
     failure <> Done tt ->
     SendDSN smtpaddr utf8 envelope mtaInfo rcptsInfo failedHeader = ([], failure))
  /\ (snd (reportBytes utf8 textproto_randomBoundary mtaInfo rcptsInfo failedHeader) = Done tt ->
      (forall msg, relay_fails [] (Dial smtpaddr) = Some msg ->
         SendDSN smtpaddr utf8 envelope mtaInfo rcptsInfo failedHeader
         = ([Dial smtpaddr], Failed (foreignError "smtpclient" msg)))
      /\ (relay_fails [] (Dial smtpaddr) = None ->
          exists between,
            fst (SendDSN smtpaddr utf8 envelope mtaInfo rcptsInfo failedHeader)
            = (Dial smtpaddr :: between ++ [ClientClose])%list))
  /\ (forall h,
      In (DataWriteHeader h)
         (fst (SendDSN smtpaddr utf8 envelope mtaInfo rcptsInfo failedHeader)) ->
      In DataClose (fst (SendDSN smtpaddr utf8 envelope mtaInfo rcptsInfo failedHeader))).
Proof.
  unfold SendDSN. rewrite GenerateDSN_Buffer.
  destruct (reportBytes utf8 textproto_randomBoundary mtaInfo rcptsInfo failedHeader)
    as [bytes [[]|e|p]]; cbn [contents fst snd append].
  2, 3: (split; [intros failure <- _; reflexivity|]; split; [discriminate|];
         intros h []).
  split; [intros failure <- Hn; now contradiction Hn|].
  set (hdr := match snd (machinePartBytes _ _ _ _) with Done _ => _ | _ => _ end).
  clearbody hdr.
  unfold perform. cbn [app].
  destruct (relay_fails [] (Dial smtpaddr)) as [msg|] eqn:Ed; cbn [fst snd].
  { split; [split; [now intros m [= <-] | discriminate]|].
    intros h [Hin|[]]. discriminate Hin. }
  split.
  - intros _. split; [discriminate|]. intros _.
    assert (Hs : exists between,
               fst (session [Dial smtpaddr] hdr {| contents := bytes |} rcptsInfo)
               = Dial smtpaddr :: between).
    { apply (session_inv (fun past => exists between, past = Dial smtpaddr :: between)
                         (fun _ => True)); try exact I; try (intros; exact I).
      - intros past c [between ->] _. now exists (between ++ [c])%list.
      - now exists []. }
    destruct Hs as [between Hs].
    destruct (session [Dial smtpaddr] hdr {| contents := bytes |} rcptsInfo) as [past r].
    cbn [fst] in *. subst past. now exists between.
  - assert (Hs : (exists h, In (DataWriteHeader h)
                              (fst (session [Dial smtpaddr] hdr {| contents := bytes |}
                                      rcptsInfo))) ->
                 In DataClose (fst (session [Dial smtpaddr] hdr {| contents := bytes |}
                                      rcptsInfo))).
    { unfold session.
      set (Q := fun past : list call =>
                  (exists h, In (DataWriteHeader h) past) -> In DataClose past).
      assert (Qs : forall past c, Q past -> (forall h', c <> DataWriteHeader h') ->
                                  Q (past ++ [c])%list).
      { intros past c Hq Hc [h Hin]. apply in_or_app. left. apply Hq. exists h.
        now apply (not_header_write_app past c h). }
      assert (Hp : forall past c, Q past -> (forall h', c <> DataWriteHeader h') ->
                                  Q (fst (perform past c))).
      { intros past c Hq Hc. cbn [perform fst]. now apply Qs. }
      apply (andThen_inv Q); [apply Hp; [intros [h [Hin|[]]]; discriminate Hin | discriminate]|].
      intros past Hq.
      apply (andThen_inv Q); [apply Hp; [exact Hq | discriminate]|].
      clear past Hq. intros past Hq.
      apply (andThen_inv Q).
      { apply (rcptAll_inv Q (fun c => forall h', c <> DataWriteHeader h')); try assumption.
        discriminate. }
      clear past Hq. intros past Hq.
      apply (andThen_inv Q); [apply Hp; [exact Hq | discriminate]|].
      clear past Hq. intros past Hq _. apply stream_closed. }
    destruct (session [Dial smtpaddr] hdr {| contents := bytes |} rcptsInfo) as [past r].
    cbn [fst] in *. intros h Hin. apply in_or_app. left. apply Hs.
    exists h. now apply (not_header_write_app past ClientClose h).
Qed.

Lemma recipientsBytes_panics (label : string) (pre rest : list RecipientInfo)
  (rcpt : RecipientInfo) :
  Forall (fun q => exists h, RecipientInfo_header true (labelled q label) = Done h
                             /\ blockRefusal h = None) pre ->
  RecipientInfo_header true (labelled rcpt label) = Panicked nilDereference ->
  snd (recipientsBytes true label (pre ++ rcpt :: rest)) = Panicked nilDereference.
Proof.
  intros Hpre Hr. induction Hpre as [|q pre (h & Hq & Hw) Hpre IH]; cbn [app recipientsBytes].
  - now rewrite Hr.
  - rewrite Hq, Hw. now destruct (recipientsBytes true label (pre ++ rcpt :: rest)).
Qed.

(** The nil diagnostic reaches the callers.  In UTF-8 mode, when the block
    of the reporting-MTA record and the blocks of the recipients before it
    are built and written, a recipient record that is valid but has no
    diagnostic makes [GenerateDSN] panic, with the report written up to that
    block, and makes [SendDSN] panic before it has called the relay. *)
Theorem utf8_absent_diagnostic_reaches_callers (envelope : Envelope)
  (mtaInfo : ReportingMTAInfo) (pre rest : list RecipientInfo) (rcpt : RecipientInfo)
  (failedHeader : Header) :
  (exists h, ReportingMTAInfo_header true mtaInfo = Done h /\ blockRefusal h = None) ->
  Forall (fun q => exists h,
            RecipientInfo_header true (labelled q (effectiveXMTAName mtaInfo)) = Done h
            /\ blockRefusal h = None) pre ->
  FinalRecipient rcpt <> "" ->
  snd (addrSelectIDNA true (FinalRecipient rcpt)) = None ->
  Action rcpt <> "" ->
  at0 (Status rcpt) <> 0 ->
  DiagnosticCode rcpt = None ->
  (forall b : Buffer,
     snd (GenerateDSN true envelope mtaInfo (pre ++ rcpt :: rest) failedHeader b)
     = ([], Panicked nilDereference))
  /\ (forall smtpaddr,
      SendDSN smtpaddr true envelope mtaInfo (pre ++ rcpt :: rest) failedHeader
      = ([], Panicked nilDereference)).
Proof.
  intros (h & Hm & Hw) Hpre H1 H2 H3 H4 H5.
  assert (Hr : RecipientInfo_header true (labelled rcpt (effectiveXMTAName mtaInfo))
               = Panicked nilDereference).
  { apply RecipientInfo_header_Panicked. unfold nilDiagnostic.
    cbn [labelled DiagnosticCode]. rewrite H5. now repeat split. }
  pose proof (recipientsBytes_panics _ pre rest rcpt Hpre Hr) as Hp.
  assert (Hmach : snd (machinePartBytes true textproto_randomBoundary mtaInfo
                         (pre ++ rcpt :: rest)) = Panicked nilDereference).
  { unfold machinePartBytes. rewrite Hm, Hw.
    destruct (recipientsBytes true (effectiveXMTAName mtaInfo) (pre ++ rcpt :: rest))
      as [bytes end_].
    cbn [snd] in Hp. now subst end_. }
  assert (Hb : snd (reportBytes true textproto_randomBoundary mtaInfo (pre ++ rcpt :: rest)
                      failedHeader) = Panicked nilDereference).
  { unfold reportBytes.
    destruct (machinePartBytes true textproto_randomBoundary mtaInfo (pre ++ rcpt :: rest))
      as [machine end_].
    cbn [snd] in Hmach. now subst end_. }
  split.
  - intros b. rewrite GenerateDSN_Buffer. cbn [snd]. now rewrite Hmach, Hb.
  - intros smtpaddr. unfold SendDSN. rewrite GenerateDSN_Buffer. now rewrite Hmach, Hb.
Qed.

End MoreSend.

(** ** The theorems at the records of the test *)

#[local] Existing Instances demoUnicode demoXText demoTime demoMessage demoRelay.

(** C1 fails as stated: with no reporting MTA named the call returns the
    validation error, and the buffer, empty before, holds 582 bytes. *)
Lemma GenerateDSN_empty_reportingMTA_writes :
  ReportingMTA unnamedMTA = ""
  /\ snd (GenerateDSN false demoEnvelope unnamedMTA [] [] {| contents := "" |})
     = ([], Failed (errorString "dsn: Reporting-MTA field is mandatory"))
  /\ String.length
       (contents (fst (GenerateDSN false demoEnvelope unnamedMTA [] [] {| contents := "" |})))
     = 582%nat.
Proof. repeat split; vm_compute; reflexivity. Qed.

Lemma GenerateDSN_empty_reportingMTA_witness :
  ReportingMTA unnamedMTA = ""
  /\ (String.length (contents {| contents := "" |})
      < String.length
          (contents (fst (GenerateDSN true demoEnvelope unnamedMTA [demoRcpt] []
                            {| contents := "" |}))))%nat.
Proof.
  split; [reflexivity|].
  exact (proj2 (proj2 (GenerateDSN_empty_reportingMTA true demoEnvelope unnamedMTA
                         [demoRcpt] [] eq_refl) {| contents := "" |})).
Defined.

Lemma absent_diagnostic_panics_utf8_witness :
  DiagnosticCode demoRcpt = None
  /\ RecipientInfo_header true demoRcpt = Panicked nilDereference.
Proof.
  split; [reflexivity|].
  apply (absent_diagnostic_panics_utf8 demoRcpt); (reflexivity || discriminate).
Defined.

Lemma absent_diagnostic_ascii_witness :
  exists h : Header,
    RecipientInfo_header false demoRcpt = Done h /\ ~ In "Diagnostic-Code" (fieldNames h).
Proof.
  destruct (absent_diagnostic_ascii demoRcpt) as (h & Hh & Hn & _);
    try reflexivity; try discriminate.
  now exists h.
Defined.


(** C5 fails as stated: the block of the test's reporting-MTA record begins
    with Last-Attempt-Date and ends with Reporting-MTA, the block of its
    recipient begins with Remote-MTA and ends with Final-Recipient, though
    the fields were added with Reporting-MTA and Final-Recipient first. *)
Lemma field_order_reversed :
  fieldNames (mtaFields false demoMTA)
  = ["Reporting-Mta"; "Received-From-Mta"; "X-Godsn-Sender"; "X-Godsn-Msgid";
     "Arrival-Date"; "Last-Attempt-Date"]
  /\ ReportingMTAInfo_header false demoMTA = Done (mtaFields false demoMTA)
  /\ contents (fst (ReportingMTAInfo_WriteTo demoMTA false {| contents := "" |}))
     = "Last-Attempt-Date: 1577977445" ++ CRLF
       ++ "Arrival-Date: 1577977445" ++ CRLF
       ++ "X-Godsn-Msgid: XMessageID" ++ CRLF
       ++ "X-Godsn-Sender: rfc822; XSender@example.com" ++ CRLF
       ++ "Received-From-Mta: dns; receivedmta.example.com" ++ CRLF
       ++ "Reporting-Mta: dns; reportingmta.example.com" ++ CRLF ++ CRLF
  /\ RecipientInfo_header false demoRcpt = Done (rcptFields false demoRcpt)
  /\ fieldNames (rcptFields false demoRcpt)
     = ["Final-Recipient"; "Action"; "Status"; "Remote-Mta"]
  /\ contents (fst (RecipientInfo_WriteTo demoRcpt false {| contents := "" |}))
     = "Remote-Mta: dns; remotemta.example.com" ++ CRLF
       ++ "Status: 2.0.0" ++ CRLF
       ++ "Action: delivered" ++ CRLF
       ++ "Final-Recipient: rfc822; finalrcpt@example.com" ++ CRLF ++ CRLF.
Proof. repeat split; vm_compute; reflexivity. Qed.

Lemma field_order_witness :
  fieldNames (rev (mtaFields false demoMTA))
  = ["Last-Attempt-Date"; "Arrival-Date"; "X-Godsn-Msgid"; "X-Godsn-Sender";
     "Received-From-Mta"; "Reporting-Mta"]
  /\ ReportingMTAInfo_WriteTo demoMTA false {| contents := "" |}
     = ({| contents :=
             "Last-Attempt-Date: 1577977445" ++ CRLF
             ++ "Arrival-Date: 1577977445" ++ CRLF
             ++ "X-Godsn-Msgid: XMessageID" ++ CRLF
             ++ "X-Godsn-Sender: rfc822; XSender@example.com" ++ CRLF
             ++ "Received-From-Mta: dns; receivedmta.example.com" ++ CRLF
             ++ "Reporting-Mta: dns; reportingmta.example.com" ++ CRLF ++ CRLF |}, Done tt)
  /\ fieldNames (rev (rcptFields false demoRcpt))
     = ["Remote-Mta"; "Status"; "Action"; "Final-Recipient"]
  /\ RecipientInfo_WriteTo demoRcpt false {| contents := "" |}
     = ({| contents :=
             "Remote-Mta: dns; remotemta.example.com" ++ CRLF
             ++ "Status: 2.0.0" ++ CRLF
             ++ "Action: delivered" ++ CRLF
             ++ "Final-Recipient: rfc822; finalrcpt@example.com" ++ CRLF ++ CRLF |}, Done tt).
Proof.
  destruct (field_order false) as [Hm Hr].
  destruct (Hm demoMTA) as (Hmn & _ & Hmb);
    [discriminate | reflexivity | reflexivity | reflexivity |].
  destruct (Hr demoRcpt) as (Hrn & _ & Hrb);
    [discriminate | reflexivity | discriminate | discriminate | reflexivity | reflexivity |].
  split; [rewrite Hmn; reflexivity|].
  split; [rewrite (Hmb {| contents := "" |} eq_refl); reflexivity|].
  split; [rewrite Hrn; reflexivity|].
  rewrite (Hrb {| contents := "" |} eq_refl). reflexivity.
Defined.



Lemma one_encoding_family_witness :
  Header_Get (machineHeader true) "Content-Type" = "message/global-delivery-status"
  /\ Header_Get (headersPartHeader true) "Content-Type" = "message/global-headers"
  /\ Header_Get (machineHeader false) "Content-Type" = "message/delivery-status"
  /\ Header_Get (headersPartHeader false) "Content-Type" = "message/rfc822-headers"
  /\ (forall v, In ("Final-Recipient", v) (rcptFields false demoRcpt) ->
      v = "rfc822; finalrcpt@example.com")
  /\ (forall v, In ("X-Godsn-Sender", v) (mtaFields true demoMTA) ->
      v = "utf8; XSender@example.com").
Proof.
  destruct (one_encoding_family true) as (Hm8 & Hh8 & Hs8 & _).
  destruct (one_encoding_family false) as (Hma & Hha & _ & Hra & _).
  split; [exact Hm8|]. split; [exact Hh8|]. split; [exact Hma|]. split; [exact Hha|].
  split; intros v Hin.
  - rewrite (Hra demoRcpt (rcptFields false demoRcpt) v); [reflexivity | reflexivity | exact Hin].
  - rewrite (Hs8 demoMTA (mtaFields true demoMTA) v); [reflexivity | reflexivity | exact Hin].
Defined.

Lemma SendDSN_sender_witness :
  snd (SendDSN "relay.example.com:25" false demoEnvelope demoMTA [demoRcpt] []) = Done tt
  /\ In (Mail "<>")
        (fst (SendDSN "relay.example.com:25" false demoEnvelope demoMTA [demoRcpt] []))
  /\ (forall h,
      In (DataWriteHeader h)
         (fst (SendDSN "relay.example.com:25" false demoEnvelope demoMTA [demoRcpt] [])) ->
      Header_Get h "From" = "MAILER-DAEMON (Mail Delivery System)")
  /\ In (DataWriteHeader (reportHeader (daemonEnvelope demoEnvelope) "boundary"))
        (fst (SendDSN "relay.example.com:25" false demoEnvelope demoMTA [demoRcpt] []))
  /\ Header_Get (reportHeader (daemonEnvelope demoEnvelope) "boundary") "From"
     = "MAILER-DAEMON (Mail Delivery System)"
  /\ SendDSN "relay.example.com:25" false demoEnvelope unnamedMTA [demoRcpt] []
     = ([], Failed (errorString "dsn: Reporting-MTA field is mandatory")).
Proof.
  destruct (SendDSN_sender "relay.example.com:25" false demoEnvelope demoMTA [demoRcpt] [])
    as (Hh & _ & _ & Hm & _ & Hw).
  destruct (SendDSN_sender "relay.example.com:25" false demoEnvelope unnamedMTA [demoRcpt] [])
    as (_ & _ & _ & _ & Hf & _).
  split; [reflexivity|]. split; [apply Hm; reflexivity|]. split; [exact Hh|].
  destruct (Hw eq_refl) as (Hin & Hg & Hfrom); [cbn; tauto|].
  split; [|split; [exact Hfrom|]].
  - rewrite Hg in Hin. exact Hin.
  - apply Hf; [reflexivity | discriminate].
Defined.

Lemma toASCII_unicode_mailbox_witness :
  split "üser@example.com" = ("üser", "example.com", None)
  /\ toASCII "üser@example.com" = ("üser@example.com", Some ErrUnicodeMailbox).
Proof.
  split; [reflexivity|].
  apply (toASCII_unicode_mailbox "üser@example.com" "üser" "example.com"); [reflexivity|].
  change (runes "üser") with [252; 115; 101; 114]. apply Exists_cons_hd. lia.
Defined.

Lemma split_round_trip_witness :
  split "a@b@example.com" = ("a@b", "example.com", None)
  /\ "a@b@example.com" = "a@b" ++ "@" ++ "example.com"
  /\ ~ occurs "@" "example.com".
Proof.
  split; [reflexivity|].
  destruct (split_round_trip "a@b@example.com" "a@b" "example.com" None eq_refl)
    as (Ha & _ & Ho & _).
  split; [exact Ha | exact Ho].
Defined.

Lemma split_at_last_at_witness :
  occurs "@" "user@"
  /\ EqualFold "user@" "postmaster" = false.
Proof.
  assert (Ho : occurs "@" "user@") by (unfold occurs; cbn; tauto).
  split; [exact Ho|]. exact (proj1 (split_at_last_at "user@" Ho)).
Defined.

Lemma postmaster_passes_through_witness :
  EqualFold "Postmaster" "postmaster" = true
  /\ toUnicode "Postmaster" = ("Postmaster", None)
  /\ addrSelectIDNA false "Postmaster" = ("Postmaster", None).
Proof.
  split; [reflexivity|].
  destruct (postmaster_passes_through "Postmaster" eq_refl) as (Hu & _ & Ha).
  split; [apply Hu | apply Ha; reflexivity].
Defined.

Lemma toASCII_toUnicode_round_trip_witness :
  split "a@b@example.com" = ("a@b", "example.com", None)
  /\ toASCII (fst (toUnicode (fst (toASCII "a@b@example.com")))) = toASCII "a@b@example.com".
Proof.
  split; [reflexivity|].
  apply (toASCII_toUnicode_round_trip "a@b@example.com" "a@b" "example.com"
           "example.com" "example.com");
    try reflexivity; try discriminate.
  - repeat constructor; cbv; discriminate.
  - unfold occurs. cbn. intuition discriminate.
  - unfold occurs. cbn. intuition discriminate.
Defined.

Lemma smtp_diagnostic_single_line_witness :
  In ("Diagnostic-Code", "smtp; 550 5.1.1 Mailbox not found  Try again")
     (rcptFields true bouncedRcpt)
  /\ ~ occurs "013" "smtp; 550 5.1.1 Mailbox not found  Try again"
  /\ ~ occurs "010" "smtp; 550 5.1.1 Mailbox not found  Try again".
Proof.
  assert (Hin : In ("Diagnostic-Code", "smtp; 550 5.1.1 Mailbox not found  Try again")
                   (rcptFields true bouncedRcpt)) by (cbn; tauto).
  split; [exact Hin|].
  apply (smtp_diagnostic_single_line true bouncedRcpt 550 (5, 1, 1)
           ("Mailbox not found" ++ CRLF ++ "Try again") (rcptFields true bouncedRcpt));
    [reflexivity | reflexivity | exact Hin].
Defined.

Lemma plain_diagnostic_code_witness :
  RecipientInfo_header true deferredRcpt = Done (rcptFields true deferredRcpt)
  /\ Header_Get (rcptFields true deferredRcpt) "Diagnostic-Code"
     = "X-Godsn; delivery deferred: try  later"
  /\ ~ In "Diagnostic-Code" (fieldNames (rcptFields false deferredRcpt)).
Proof.
  assert (H8 : RecipientInfo_header true deferredRcpt = Done (rcptFields true deferredRcpt))
    by reflexivity.
  assert (Ha : RecipientInfo_header false deferredRcpt = Done (rcptFields false deferredRcpt))
    by reflexivity.
  split; [exact H8|]. split.
  - destruct (plain_diagnostic_code true deferredRcpt _ _ eq_refl eq_refl H8) as [Hu _].
    destruct (Hu eq_refl) as [Hget _]. rewrite Hget. reflexivity.
  - exact (proj2 (plain_diagnostic_code false deferredRcpt _ _ eq_refl eq_refl Ha) eq_refl).
Defined.

Lemma utf8_absent_diagnostic_reaches_callers_witness :
  RecipientInfo_header true (labelled bouncedRcpt (effectiveXMTAName demoMTA))
  = Done (rcptFields true bouncedRcpt)
  /\ DiagnosticCode demoRcpt = None
  /\ SendDSN "relay.example.com:25" true demoEnvelope demoMTA
       ([bouncedRcpt] ++ demoRcpt :: [bouncedRcpt]) []
     = ([], Panicked nilDereference).
Proof.
  split; [reflexivity|]. split; [reflexivity|].
  apply (utf8_absent_diagnostic_reaches_callers demoEnvelope demoMTA
           [bouncedRcpt] [bouncedRcpt] demoRcpt []); try reflexivity; try discriminate.
  - exists (mtaFields true demoMTA). split; reflexivity.
  - constructor; [|constructor]. exists (rcptFields true bouncedRcpt). split; reflexivity.
Defined.

Lemma ReportingMTAInfo_WriteTo_validates_first_witness :
  (exists e,
     ReportingMTAInfo_WriteTo unnamedMTA false {| contents := "as it was" |}
     = ({| contents := "as it was" |}, Failed e)
     /\ mtaRejection false unnamedMTA e)
  /\ ReportingMTAInfo_WriteTo spacedMTA false {| contents := "" |}
     = ({| contents :=
             "Last-Attempt-Date: 1577977445" ++ CRLF ++ "Arrival-Date: 1577977445" ++ CRLF |},
        Failed (foreignError "textproto"
                  "failed to write header field #3: field name contains incorrect symbols")).
Proof.
  split.
  - destruct (ReportingMTAInfo_WriteTo_validates_first false unnamedMTA Buffer _
                {| contents := "as it was" |}) as [[(H & _)|[_ H]] _];
      [now contradiction H | exact H].
  - destruct (ReportingMTAInfo_WriteTo_validates_first false spacedMTA Buffer _
                {| contents := "" |}) as [[(_ & _ & _ & _ & Hw)|[Hbad _]] _].
    + rewrite Hw. reflexivity.
    + exfalso. destruct Hbad as [H|[H|[[_ H]|[_ H]]]];
        [discriminate H | apply H; reflexivity..].
Defined.


Lemma recipient_label_is_the_reporting_MTAs_witness :
  XMTAName labelledMTA = "MyMTA"
  /\ In ("X-Mymta-Sender", "utf8; XSender@example.com") (mtaFields true labelledMTA)
  /\ Header_Get (rcptFields true (labelled deferredRcpt "MyMTA")) "Diagnostic-Code"
     = "X-MyMTA; delivery deferred: try  later".
Proof.
  destruct (recipient_label_is_the_reporting_MTAs true demoEnvelope labelledMTA [deferredRcpt] [])
    as (_ & Hd & Hm).
  split; [reflexivity|]. split.
  - apply (proj1 (Hm (mtaFields true labelledMTA) eq_refl)). discriminate.
  - rewrite (Hd deferredRcpt _ (rcptFields true (labelled deferredRcpt "MyMTA"))
               eq_refl eq_refl eq_refl).
    reflexivity.
Defined.

Lemma GenerateDSN_returned_header_witness :
  (exists e,
     snd (GenerateDSN false demoEnvelope unnamedMTA [demoRcpt] [] {| contents := "" |})
     = ([], Failed e))
  /\ snd (snd (GenerateDSN false demoEnvelope demoMTA [demoRcpt]
                 (Header_Add [] "Subject" ("two" ++ LF ++ "lines")) {| contents := "" |}))
     = Failed (foreignError "textproto"
                 "failed to write header field #1: field value contains a line break")
  /\ fst (snd (GenerateDSN false demoEnvelope demoMTA [demoRcpt]
                 (Header_Add [] "Subject" ("two" ++ LF ++ "lines")) {| contents := "" |}))
     = reportHeader demoEnvelope "boundary".
Proof.
  split; [|split; [reflexivity|]].
  - destruct (GenerateDSN_returned_header false demoEnvelope unnamedMTA [demoRcpt] []
                Buffer _ {| contents := "" |}) as (_ & _ & _ & _ & _ & _ & Hr & _).
    apply (Hr (errorString "dsn: Reporting-MTA field is mandatory")). reflexivity.
  - destruct (GenerateDSN_returned_header false demoEnvelope demoMTA [demoRcpt]
                (Header_Add [] "Subject" ("two" ++ LF ++ "lines"))
                Buffer _ {| contents := "" |}) as (_ & _ & _ & _ & _ & Hw & _).
    apply Hw; reflexivity.
Defined.
